(** * payment-platform: the SMS classifier, the field extractor and the
      payment verification rules

    A shallow embedding of [src/ml_classifier.py], [src/app.py]
    ([extract_fields] and the two routes) and [src/payment_verification.py].

    Texts are Python [str] values whose code points lie in 0..255: a
    character is an [ascii] read as a Latin-1 code point, and the character
    predicates below ([\s], [\d], [str.lower], [str.strip]) are CPython's on
    that range.  Dictionaries are association lists from keys to Python
    values; the Supabase client is an interface with a fallible [select] and
    a fallible [insert]; an uncaught Python exception is the [Raise] outcome
    of a small error monad. *)

From Stdlib Require Import Bool List Arith ZArith Lia Ascii String.
From Stdlib Require Import DecimalString PrimFloat Uint63.
From Stdlib Require DecimalFacts DecimalPos DecimalZ.
Import ListNotations.

Set Warnings "-inexact-float,-register-all".

Local Open Scope string_scope.

(* ================================================================== *)
(** * Python values, dictionaries and exceptions *)
(* ================================================================== *)

Module Py.

(** The values that occur in the dictionaries of the three files. *)
Inductive value : Type :=
| VNone
| VStr (s : string)
| VInt (z : Z)
| VBool (b : bool)
| VFloat (f : float)
| VDict (d : list (string * value)).

(** A [dict] literal keeps its keys in order; every literal of the source
    has distinct keys. *)
Definition dict : Type := list (string * value).

Fixpoint get (k : string) (d : dict) : option value :=
  match d with
  | [] => None
  | (k', v) :: d' => if String.eqb k k' then Some v else get k d'
  end.

(** [d.get(k, default)]. *)
Definition get_default (k : string) (default : value) (d : dict) : value :=
  match get k d with
  | Some v => v
  | None => default
  end.

(** [d[k] = v]: replaces the value of an existing key, or appends. *)
Fixpoint set (k : string) (v : value) (d : dict) : dict :=
  match d with
  | [] => [(k, v)]
  | (k', v') :: d' =>
      if String.eqb k k' then (k', v) :: d' else (k', v') :: set k v d'
  end.

Inductive exn : Type :=
| AttributeError      (* a [str] method called on a value that is no [str] *)
| TypeError           (* a value that cannot be sliced *)
| ValueError          (* an integer too long to be written by [str] *)
| StoreError.         (* the Supabase client failed *)

Inductive result (A : Type) : Type :=
| Ret (a : A)
| Raise (e : exn).
Arguments Ret {A} a.
Arguments Raise {A} e.

Definition bind {A B : Type} (m : result A) (f : A -> result B) : result B :=
  match m with
  | Ret a => f a
  | Raise e => Raise e
  end.

(** The receiver of a [str] method: anything but a [str] raises. *)
Definition as_str (v : value) : result string :=
  match v with
  | VStr s => Ret s
  | _ => Raise AttributeError
  end.

(** The operand of a slice [v[-n:]]; the only sliceable values here are
    texts. *)
Definition as_sliceable (v : value) : result string :=
  match v with
  | VStr s => Ret s
  | _ => Raise TypeError
  end.

(** Truth value of the values tested by [if x:] in the source. *)
Definition truthy (v : value) : bool :=
  match v with
  | VNone => false
  | VStr s => negb (String.eqb s "")
  | VInt z => negb (Z.eqb z 0)
  | VBool b => b
  | VFloat f => negb (PrimFloat.eqb f 0%float)
  | VDict d => negb (Nat.eqb (List.length d) 0)
  end.

(** [a or b]. *)
Definition or_else (a b : value) : value := if truthy a then a else b.

End Py.

Notation "x <- m ;; k" := (Py.bind m (fun x => k))
  (at level 61, m at next level, right associativity).

(* ================================================================== *)
(** * [str] methods *)
(* ================================================================== *)

Module Str.

Definition code (c : ascii) : N := N_of_ascii c.

Definition between (lo hi : N) (c : ascii) : bool :=
  (N.leb lo (code c) && N.leb (code c) hi)%bool.

(** [str.isspace] of one character, which is also the regex class [\s]:
    TAB..CR, FS..US, SPACE, NEL and NBSP. *)
Definition is_space (c : ascii) : bool :=
  (between 9 13 c || between 28 32 c
   || N.eqb (code c) 133 || N.eqb (code c) 160)%bool.

(** The regex class [\d]: the decimal digits of the range are 0..9. *)
Definition is_digit (c : ascii) : bool := between 48 57 c.

Definition is_upper_ascii (c : ascii) : bool := between 65 90 c.
Definition is_lower_ascii (c : ascii) : bool := between 97 122 c.
Definition is_alpha_ascii (c : ascii) : bool :=
  (is_upper_ascii c || is_lower_ascii c)%bool.

(** [str.lower] of one character of the range 0..255: A..Z and the
    upper-case letters U+00C0..U+00DE (U+00D7, the multiplication sign,
    excepted) move up by 32.  Above the range [str.lower] is no longer
    one character for one character (U+0130 gives two code points); texts
    with such characters are outside this embedding. *)
Definition lower_char (c : ascii) : ascii :=
  if (is_upper_ascii c
      || (between 192 222 c && negb (N.eqb (code c) 215)))%bool
  then ascii_of_N (code c + 32)
  else c.

Fixpoint lower (s : string) : string :=
  match s with
  | EmptyString => EmptyString
  | String c s' => String (lower_char c) (lower s')
  end.

Definition is_empty (s : string) : bool :=
  match s with
  | EmptyString => true
  | String _ _ => false
  end.

Fixpoint lstrip (s : string) : string :=
  match s with
  | EmptyString => EmptyString
  | String c s' => if is_space c then lstrip s' else s
  end.

Fixpoint rstrip (s : string) : string :=
  match s with
  | EmptyString => EmptyString
  | String c s' =>
      let r := rstrip s' in
      if (is_space c && is_empty r)%bool then EmptyString else String c r
  end.

(** [s.strip()]. *)
Definition strip (s : string) : string := lstrip (rstrip s).

(** [s.startswith(p)]. *)
Fixpoint startswith (p s : string) : bool :=
  match p with
  | EmptyString => true
  | String a p' =>
      match s with
      | EmptyString => false
      | String b s' => (Ascii.eqb a b && startswith p' s')%bool
      end
  end.

(** [sub in s]. *)
Fixpoint contains (sub s : string) : bool :=
  (startswith sub s
   || match s with
      | EmptyString => false
      | String _ s' => contains sub s'
      end)%bool.

(** [s.replace(old, new)] for a non-empty [old] (as at every call site):
    the occurrences are taken left to right and do not overlap; [skip]
    counts the characters of an occurrence still to be dropped. *)
Fixpoint replace_from (old new : string) (skip : nat) (s : string) : string :=
  match s with
  | EmptyString => EmptyString
  | String c s' =>
      match skip with
      | S n => replace_from old new n s'
      | O =>
          if startswith old s
          then new ++ replace_from old new (String.length old - 1) s'
          else String c (replace_from old new 0 s')
      end
  end.

Definition replace (old new s : string) : string := replace_from old new 0 s.

Fixpoint drop (n : nat) (s : string) : string :=
  match n, s with
  | O, _ => s
  | S n', EmptyString => EmptyString
  | S n', String _ s' => drop n' s'
  end.

Fixpoint take (n : nat) (s : string) : string :=
  match n, s with
  | O, _ => EmptyString
  | S n', EmptyString => EmptyString
  | S n', String c s' => String c (take n' s')
  end.

(** [s[-n:]] for [n > 0]: the last [n] characters, all of [s] when it is
    shorter. *)
Definition last (n : nat) (s : string) : string :=
  drop (String.length s - n) s.

(** [s.endswith(suf)]. *)
Definition endswith (s suf : string) : bool :=
  (Nat.leb (String.length suf) (String.length s)
   && String.eqb (drop (String.length s - String.length suf) s) suf)%bool.


(** ** [int(s)] and [str(n)] *)

Definition digit_val (c : ascii) : Z := Z.of_N (code c) - 48.

(** The digits of a literal, most significant first; [None] when the
    text is not digits separated by single underscores.  [prev] tells
    whether the previous character was a digit. *)
Fixpoint int_digits (prev : bool) (s : string) : option (list Z) :=
  match s with
  | EmptyString => if prev then Some [] else None
  | String c s' =>
      if is_digit c then
        option_map (cons (digit_val c)) (int_digits true s')
      else if (Ascii.eqb c "_" && prev)%bool then
        match s' with
        | EmptyString => None
        | String _ _ => int_digits false s'
        end
      else None
  end.

Definition int_of_digits (ds : list Z) : Z :=
  fold_left (fun acc d => 10 * acc + d)%Z ds 0%Z.

(** [sys.get_int_max_str_digits()]: longer literals raise [ValueError]. *)
Definition int_max_str_digits : nat := 4300.

Definition int_unsigned (s : string) : option Z :=
  match int_digits false s with
  | Some ds =>
      if Nat.ltb int_max_str_digits (List.length ds) then None
      else Some (int_of_digits ds)
  | None => None
  end.

(** [int(s)] in base 10 on a text that carries no surrounding blanks (its
    argument is the result of [strip] at both call sites): an optional
    sign, then the digits; [None] stands for [ValueError]. *)
Definition to_int (s : string) : option Z :=
  match s with
  | String "+" s' => int_unsigned s'
  | String "-" s' => option_map Z.opp (int_unsigned s')
  | _ => int_unsigned s
  end.

(** The decimal writing of [z]: a [-] for a negative number, then the
    digits without leading zeros. *)
Definition decimal (z : Z) : string := NilZero.string_of_int (Z.to_int z).

(** [str(n)], as an f-string formats an [int]: CPython refuses to write an
    integer of more than [int_max_str_digits] digits, the sign not
    counted; [None] stands for [ValueError]. *)
Definition of_int (z : Z) : option string :=
  if Nat.ltb int_max_str_digits (String.length (decimal (Z.abs z))) then None
  else Some (decimal z).

End Str.

(* ================================================================== *)
(** * The [re] module: a backtracking matcher *)
(* ================================================================== *)

Module Re.

(** The regular expressions of the source use literals, classes,
    concatenation, alternation, greedy repetition and at most one capturing
    group. *)
Inductive regex : Type :=
| Eps
| Lit (c : ascii)
| Class (p : ascii -> bool)
| Cat (r1 r2 : regex)
| Alt (r1 r2 : regex)
| Star (r : regex)
| Group (r : regex).

(** The text captured by group 1, once it has been closed. *)
Definition capture : Type := option string.

(** A continuation receives the rest of the text and the capture. *)
Definition outcome : Type := option (string * capture).
Definition cont : Type := string -> capture -> outcome.

(** A literal under [re.IGNORECASE] compares the lower-cased characters.
    This is the test of [re] on the range 0..255; above the range [re]
    also lets U+017F match [s], U+0130 and U+0131 match [i] and U+212A
    match [k], characters no text of this embedding holds. *)
Definition lit_matches (ignorecase : bool) (p c : ascii) : bool :=
  if ignorecase then Ascii.eqb (Str.lower_char p) (Str.lower_char c)
  else Ascii.eqb p c.

(** Greedy iteration: one more round of [body] is tried before leaving the
    loop, and a round has to consume a character. *)
Fixpoint star_loop (body : string -> capture -> cont -> outcome)
    (fuel : nat) (s : string) (g : capture) (k : cont) : outcome :=
  match fuel with
  | O => k s g
  | S f =>
      match body s g
              (fun s' g' =>
                 if Nat.ltb (String.length s') (String.length s)
                 then star_loop body f s' g' k
                 else None)
      with
      | Some m => Some m
      | None => k s g
      end
  end.

(** [run ic r s g k]: match [r] at the head of [s], alternatives in
    priority order, then hand the rest to [k]; [None] makes the matcher
    backtrack. *)
Fixpoint run (ic : bool) (r : regex) (s : string) (g : capture) (k : cont)
    {struct r} : outcome :=
  match r with
  | Eps => k s g
  | Lit p =>
      match s with
      | String c s' => if lit_matches ic p c then k s' g else None
      | EmptyString => None
      end
  | Class p =>
      match s with
      | String c s' => if p c then k s' g else None
      | EmptyString => None
      end
  | Cat a b => run ic a s g (fun s' g' => run ic b s' g' k)
  | Alt a b =>
      match run ic a s g k with
      | Some m => Some m
      | None => run ic b s g k
      end
  | Star a => star_loop (run ic a) (S (String.length s)) s g k
  | Group a =>
      run ic a s g
        (fun s' _ =>
           k s' (Some (Str.take (String.length s - String.length s') s)))
  end.

(** A match object: [group(0)] and [group(1)]. *)
Record match_object : Type := MatchObject {
  group0 : string;
  group1 : capture
}.

(** [m.group(1)]: [None] when the group took no part. *)
Definition group_1 (m : match_object) : Py.value :=
  match group1 m with
  | Some s => Py.VStr s
  | None => Py.VNone
  end.

Definition accept : cont := fun s' g => Some (s', g).

(** [re.match]: a match at the head of the text. *)
Definition match_here (ic : bool) (r : regex) (s : string)
    : option match_object :=
  match run ic r s None accept with
  | Some (s', g) =>
      Some (MatchObject (Str.take (String.length s - String.length s') s) g)
  | None => None
  end.

(** [re.search]: the leftmost position that has a match. *)
Fixpoint search (ic : bool) (r : regex) (s : string) : option match_object :=
  match match_here ic r s with
  | Some m => Some m
  | None =>
      match s with
      | EmptyString => None
      | String _ s' => search ic r s'
      end
  end.

(** ** Derived forms *)

(** A literal text. *)
Fixpoint text (t : string) : regex :=
  match t with
  | EmptyString => Eps
  | String c t' => Cat (Lit c) (text t')
  end.

(** [r+], [r?], [r{n}] and [r{lo,hi}], all greedy. *)
Definition plus (r : regex) : regex := Cat r (Star r).
Definition opt (r : regex) : regex := Alt r Eps.

Fixpoint times (n : nat) (r : regex) : regex :=
  match n with
  | O => Eps
  | S n' => Cat r (times n' r)
  end.

Fixpoint upto (n : nat) (r : regex) : regex :=
  match n with
  | O => Eps
  | S n' => opt (Cat r (upto n' r))
  end.

Definition range (lo hi : nat) (r : regex) : regex :=
  Cat (times lo r) (upto (hi - lo) r).

Definition seq (rs : list regex) : regex := fold_right Cat Eps rs.

Definition digit : regex := Class Str.is_digit.
Definition space : regex := Class Str.is_space.

End Re.

(* ================================================================== *)
(** * [ml_classifier.py]: [PaymentSMSClassifier] *)
(* ================================================================== *)

Module ml_classifier.

Import Re.

Definition payment_success_keywords : list string :=
  ["received"; "sent"; "paid"; "successful"; "completed";
   "confirmed"; "approved"; "transaction"; "transfer"].

Definition payment_failure_keywords : list string :=
  ["failed"; "declined"; "insufficient"; "pending";
   "cancelled"; "error"; "rejected"].

(** [\*161\*TxId:\d+\*R\*], [You have received \d+ RWF] and
    [You have sent \d+ RWF]. *)
Definition momo_patterns : list regex :=
  [ seq [text "*161*TxId:"; plus digit; text "*R*"];
    seq [text "You have received "; plus digit; text " RWF"];
    seq [text "You have sent "; plus digit; text " RWF"] ].

Definition found (m : option match_object) : bool :=
  match m with
  | Some _ => true
  | None => false
  end.

(** Some pattern of [momo_patterns] is found, case ignored. *)
Definition momo_hit (sms_text : string) : bool :=
  existsb (fun pattern => found (search true pattern sms_text)) momo_patterns.

(** [sum(1 for keyword in keywords if keyword in text_lower)]. *)
Definition keyword_hits (keywords : list string) (text_lower : string) : nat :=
  List.length (filter (fun keyword => Str.contains keyword text_lower) keywords).

Definition is_payment_related (sms_text : string) : bool :=
  let text_lower := Str.lower sms_text in
  if momo_hit sms_text then true
  else
    let success_score := keyword_hits payment_success_keywords text_lower in
    let failure_score := keyword_hits payment_failure_keywords text_lower in
    (Nat.ltb 0 success_score || Nat.ltb 0 failure_score)%bool.

Definition classify_payment_status (sms_text : string) : string :=
  if negb (is_payment_related sms_text) then "unknown"
  else
    let text_lower := Str.lower sms_text in
    if existsb (fun keyword => Str.contains keyword text_lower)
         payment_failure_keywords
    then "failed"
    else if existsb (fun keyword => Str.contains keyword text_lower)
              payment_success_keywords
    then "success"
    else "unknown".

(** [min(a, b)] on floats: [b] is taken only when it is smaller. *)
Definition py_min (a b : float) : float :=
  if PrimFloat.ltb b a then b else a.

(** [float(n)] of a small non-negative [int]. *)
Definition float_of_nat (n : nat) : float :=
  PrimFloat.of_uint63 (Uint63.of_Z (Z.of_nat n)).

Definition get_confidence_score (sms_text : string) : float :=
  if Str.is_empty (Str.strip sms_text) then 0.0%float
  else
    let text_lower := Str.lower sms_text in
    let total_score := 0.0%float in
    let total_score :=
      if momo_hit sms_text then (total_score + 0.7)%float else total_score in
    let success_matches := keyword_hits payment_success_keywords text_lower in
    let failure_matches := keyword_hits payment_failure_keywords text_lower in
    let total_score :=
      (total_score
       + py_min 0.3 (float_of_nat (success_matches + failure_matches) * 0.1))%float in
    py_min 1.0 total_score.

(** [TxId[:\s]*(\d+)], compiled with [re.IGNORECASE] here. *)
Definition txid_pattern : regex :=
  seq [text "TxId";
       Star (Class (fun c => (Ascii.eqb c ":" || Str.is_space c)%bool));
       Group (plus digit)].

(** [(\d{1,3}(?:,\d{3})*|\d+)\s*RWF]. *)
Definition amount_pattern : regex :=
  seq [Group (Alt (Cat (range 1 3 digit) (Star (Cat (Lit ",") (times 3 digit))))
                  (plus digit));
       Star space;
       text "RWF"].

(** [from ([A-Za-z\s]+)\s*\(]. *)
Definition sender_pattern : regex :=
  seq [text "from ";
       Group (plus (Class (fun c => (Str.is_alpha_ascii c || Str.is_space c)%bool)));
       Star space;
       Lit "("].

(** [\(\*+(\d{2,3})\)]. *)
Definition phone_pattern : regex :=
  seq [Lit "("; plus (Lit "*"); Group (range 2 3 digit); Lit ")"].

Definition extract_payment_info (sms_text : string) : Py.result Py.dict :=
  let info : Py.dict :=
    [("txid", Py.VStr ""); ("amount", Py.VStr ""); ("sender_name", Py.VStr "");
     ("phone_digits", Py.VStr ""); ("is_payment_sms", Py.VBool false)] in
  let info := Py.set "is_payment_sms" (Py.VBool (is_payment_related sms_text)) info in
  if negb (Py.truthy (Py.get_default "is_payment_sms" Py.VNone info)) then Py.Ret info
  else
    let info :=
      match search true txid_pattern sms_text with
      | Some txid_match => Py.set "txid" (group_1 txid_match) info
      | None => info
      end in
    let info :=
      match search false amount_pattern sms_text with
      | Some amount_match => Py.set "amount" (group_1 amount_match) info
      | None => info
      end in
    info <-
      match search false sender_pattern sms_text with
      | Some sender_match =>
          name <- Py.as_str (group_1 sender_match) ;;
          Py.Ret (Py.set "sender_name" (Py.VStr (Str.strip name)) info)
      | None => Py.Ret info
      end ;;
    let info :=
      match search false phone_pattern sms_text with
      | Some phone_match => Py.set "phone_digits" (group_1 phone_match) info
      | None => info
      end in
    Py.Ret info.

(** [classify_sms]: the three results of the shared classifier in one
    dictionary. *)
Definition classify_sms (sms_text : string) : Py.result Py.dict :=
  payment_info <- extract_payment_info sms_text ;;
  let status := classify_payment_status sms_text in
  let confidence := get_confidence_score sms_text in
  Py.Ret [("payment_info", Py.VDict payment_info);
          ("status", Py.VStr status);
          ("confidence", Py.VFloat confidence);
          ("is_payment_sms", Py.get_default "is_payment_sms" Py.VNone payment_info)].

End ml_classifier.

(* ================================================================== *)
(** * [app.py]: [extract_fields] *)
(* ================================================================== *)

Module app.

Import Re.

(** [TxId[:\s]*([\d]+)], compiled without flags here. *)
Definition txid_exact_pattern : regex := ml_classifier.txid_pattern.

(** [\*161\*TxId:([\d]+)\*R\*]. *)
Definition txid_fallback_pattern : regex :=
  seq [text "*161*TxId:"; Group (plus digit); text "*R*"].

Definition amount_text_pattern : regex := ml_classifier.amount_pattern.

(** [from ([A-Za-z ]+) \(]. *)
Definition sender_name_pattern : regex :=
  seq [text "from ";
       Group (plus (Class (fun c => (Str.is_alpha_ascii c || Ascii.eqb c " ")%bool)));
       text " ("].

(** [at (\d{4}-\d{2}-\d{2} \d{2}:\d{2}:\d{2})]. *)
Definition timestamp_pattern : regex :=
  seq [text "at ";
       Group (seq [times 4 digit; Lit "-"; times 2 digit; Lit "-"; times 2 digit;
                   Lit " ";
                   times 2 digit; Lit ":"; times 2 digit; Lit ":"; times 2 digit])].

Definition extract_fields (text : string) : Py.result Py.dict :=
  let txid := Py.VStr "" in
  let txid_match := search false txid_exact_pattern text in
  let txid_match :=
    match txid_match with
    | Some m => Some m
    | None => search false txid_fallback_pattern text
    end in
  let txid :=
    match txid_match with
    | Some m => group_1 m
    | None => txid
    end in
  let amount := Py.VStr "" in
  let amount :=
    match search false amount_text_pattern text with
    | Some amount_match => Py.VStr (group0 amount_match)
    | None => amount
    end in
  let sender_name := Py.VStr "" in
  sender_name <-
    match search false sender_name_pattern text with
    | Some sender_match =>
        name <- Py.as_str (group_1 sender_match) ;;
        Py.Ret (Py.VStr (Str.strip name))
    | None => Py.Ret sender_name
    end ;;
  let timestamp := Py.VStr "" in
  let timestamp :=
    match search false timestamp_pattern text with
    | Some timestamp_match => group_1 timestamp_match
    | None => timestamp
    end in
  Py.Ret [("raw_text", Py.VStr text);
          ("txid", Py.or_else txid (Py.VStr ""));
          ("amount", Py.or_else amount (Py.VStr ""));
          ("sender_name", Py.or_else sender_name (Py.VStr ""));
          ("timestamp", Py.or_else timestamp Py.VNone)].

End app.

(* ================================================================== *)
(** * The Supabase client *)
(* ================================================================== *)

Module supabase.

(** What the source asks of the client, over a store of type [S]:
    [table(t).select('*').eq(column, v).execute().data], which may raise,
    and [table(t).insert(row).execute()], where [None] stands for any
    exception and leaves the store as it was. *)
Record Client (S : Type) : Type := {
  select_eq : string -> string -> string -> S -> Py.result (list Py.dict);
  insert : string -> Py.dict -> S -> option S
}.
Arguments select_eq {S} _ _ _ _ _.
Arguments insert {S} _ _ _ _.

(** An in-memory store: tables by name, rows in insertion order. *)
Definition memory : Type := list (string * list Py.dict).

Fixpoint rows (table : string) (db : memory) : list Py.dict :=
  match db with
  | [] => []
  | (t, rs) :: db' => if String.eqb table t then rs else rows table db'
  end.

Fixpoint add_row (table : string) (row : Py.dict) (db : memory) : memory :=
  match db with
  | [] => [(table, [row])]
  | (t, rs) :: db' =>
      if String.eqb table t then (t, (rs ++ [row])%list) :: db'
      else (t, rs) :: add_row table row db'
  end.

Definition column_is (column v : string) (row : Py.dict) : bool :=
  match Py.get column row with
  | Some (Py.VStr x) => String.eqb x v
  | _ => false
  end.

(** A client whose calls all succeed. *)
Definition memory_client : Client memory := {|
  select_eq := fun table column v db => Py.Ret (filter (column_is column v) (rows table db));
  insert := fun table row db => Some (add_row table row db)
|}.

(** A client that reads, and whose writes fail. *)
Definition read_only_client : Client memory := {|
  select_eq := fun table column v db => Py.Ret (filter (column_is column v) (rows table db));
  insert := fun _ _ _ => None
|}.

End supabase.

(* ================================================================== *)
(** * [payment_verification.py] *)
(* ================================================================== *)

Module payment_verification.

Import supabase.

Definition TABLE_NAME : string := "Messages".
Definition REQUIRED_AMOUNT : Z := 100.

(** [transaction.get('amount', '').replace(' RWF', '').replace(',', '').strip()]. *)
Definition amount_str_of (transaction : Py.dict) : Py.result string :=
  amount <- Py.as_str (Py.get_default "amount" (Py.VStr "") transaction) ;;
  Py.Ret (Str.strip (Str.replace "," "" (Str.replace " RWF" "" amount))).

Definition reply (status message : string) : Py.dict :=
  [("status", Py.VStr status); ("message", Py.VStr message)].

(** [f"{n}"] for an [int] [n]: [str(n)], which raises [ValueError] for a
    number that is too long. *)
Definition format_int (n : Z) : Py.result string :=
  match Str.of_int n with
  | Some text => Py.Ret text
  | None => Py.Raise Py.ValueError
  end.

Section WithClient.

Context {S : Type} (client : Client S).

Definition verify_payment (txid : string) (required_amount : Z) (st : S)
    : Py.result Py.dict :=
  data <- select_eq client TABLE_NAME "txid" txid st ;;
  match data with
  | [] => Py.Ret (reply "not_approved" "Payment is not approved.")
  | transaction :: _ =>
      amount_str <- amount_str_of transaction ;;
      match Str.to_int amount_str with
      | None =>
          Py.Ret (reply "not_approved"
                    "Payment is not approved (invalid amount format).")
      | Some paid_amount =>
          if Z.eqb paid_amount required_amount then
            Py.Ret (reply "approved" "Payment is approved.")
          else if Z.ltb paid_amount required_amount then
            let shortage := (required_amount - paid_amount)%Z in
            shortage_text <- format_int shortage ;;
            Py.Ret (reply "not_approved"
                      ("Payment is not approved. You are short by "
                       ++ shortage_text ++ " RWF."))
          else
            Py.Ret (reply "approved" "Payment is approved.")
      end
  end.

(** The record written to the [payments] table; [now] is
    [datetime.now().isoformat()]. *)
Definition payment_record (txid client_name client_phone : string)
    (paid_amount : Z) (now : string) : Py.dict :=
  [("txid", Py.VStr txid);
   ("client_name", Py.VStr client_name);
   ("client_phone", Py.VStr client_phone);
   ("verified_amount", Py.VInt paid_amount);
   ("verification_status", Py.VStr "approved");
   ("created_at", Py.VStr now)].

(** The name test of step 3: [true] when the rule rejects. *)
Definition name_rejected (sms_sender_name client_name_lower : string) : bool :=
  (Str.is_empty sms_sender_name
   || (negb (Str.contains client_name_lower sms_sender_name)
       && negb (Str.contains sms_sender_name client_name_lower)))%bool.

(** [client_phone.replace('+', '').replace(' ', '').replace('-', '')[-3:]]. *)
Definition client_last_digits_of (client_phone : string) : string :=
  Str.last 3 (Str.replace "-" "" (Str.replace " " "" (Str.replace "+" "" client_phone))).

(** The phone test of step 4: [true] when the rule lets the call go on;
    a stored value that is empty or absent skips the comparison. *)
Definition phone_accepted (client_last_digits : string) (sms_phone_digits : Py.value)
    : Py.result bool :=
  if Py.truthy sms_phone_digits then
    digits <- Py.as_sliceable sms_phone_digits ;;
    Py.Ret (Str.endswith client_last_digits (Str.last 2 digits))
  else Py.Ret true.

(** The record, the insert and the approving [return] stand inside
    [try ... except Exception]: an insert that raises, and an approval
    message that cannot be formatted, both give the [error] reply. *)
Definition verify_payment_with_client_details
    (txid client_name client_phone : string) (required_amount : Z)
    (now : string) (st : S) : Py.result Py.dict * S :=
  match select_eq client TABLE_NAME "txid" txid st with
  | Py.Raise e => (Py.Raise e, st)
  | Py.Ret [] =>
      (Py.Ret (reply "not_approved" "Payment not found. Please check your TxID."), st)
  | Py.Ret (transaction :: _) =>
      match amount_str_of transaction with
      | Py.Raise e => (Py.Raise e, st)
      | Py.Ret amount_str =>
      match Str.to_int amount_str with
      | None => (Py.Ret (reply "not_approved" "Invalid payment amount format."), st)
      | Some paid_amount =>
      if Z.ltb paid_amount required_amount then
        let shortage := (required_amount - paid_amount)%Z in
        match format_int shortage with
        | Py.Raise e => (Py.Raise e, st)
        | Py.Ret shortage_text =>
            (Py.Ret (reply "not_approved"
                       ("Insufficient payment. You are short by "
                        ++ shortage_text ++ " RWF.")), st)
        end
      else
      match Py.as_str (Py.get_default "sender_name" (Py.VStr "") transaction) with
      | Py.Raise e => (Py.Raise e, st)
      | Py.Ret sender_name =>
      let sms_sender_name := Str.strip (Str.lower sender_name) in
      let client_name_lower := Str.strip (Str.lower client_name) in
      if name_rejected sms_sender_name client_name_lower then
        (Py.Ret (reply "not_approved"
                   "Name verification failed. Please ensure you entered the correct name."), st)
      else
      let client_last_digits := client_last_digits_of client_phone in
      let sms_phone_digits := Py.get_default "sender_phone_digits" (Py.VStr "") transaction in
      match phone_accepted client_last_digits sms_phone_digits with
      | Py.Raise e => (Py.Raise e, st)
      | Py.Ret false =>
          (Py.Ret (reply "not_approved"
                     "Phone number verification failed. Please check your mobile number."), st)
      | Py.Ret true =>
          match insert client "payments"
                  (payment_record txid client_name client_phone paid_amount now) st with
          | Some st' =>
              match format_int paid_amount with
              | Py.Ret amount_text =>
                  (Py.Ret [("status", Py.VStr "approved");
                           ("message",
                            Py.VStr ("Payment verified successfully! Amount received: "
                                     ++ amount_text ++ " RWF"));
                           ("amount", Py.VInt paid_amount)], st')
              | Py.Raise _ =>
                  (Py.Ret (reply "error" "Failed to record payment verification."),
                   st')
              end
          | None =>
              (Py.Ret (reply "error" "Failed to record payment verification."), st)
          end
      end
      end
      end
      end
  end.

End WithClient.

End payment_verification.

(* ================================================================== *)
(** * Vocabulary of the statements *)
(* ================================================================== *)

Module Spec.

Import supabase payment_verification.

(** [transaction] is [db_result.data[0]] of the lookup of [txid]. *)
Definition first_row {S : Type} (client : Client S) (txid : string) (st : S)
    (transaction : Py.dict) : Prop :=
  exists others,
    select_eq client TABLE_NAME "txid" txid st = Py.Ret (transaction :: others).

(** The [amount] field of [transaction] is a text that, with [" RWF"] and
    the commas removed and the blanks stripped, [int] reads as
    [paid_amount]. *)
Definition paid_amount_of (transaction : Py.dict) (paid_amount : Z) : Prop :=
  exists amount,
    Py.get_default "amount" (Py.VStr "") transaction = Py.VStr amount
    /\ Str.to_int (Str.strip (Str.replace "," "" (Str.replace " RWF" "" amount)))
       = Some paid_amount.

(** The stored sender name as the name rule compares it. *)
Definition stored_name_of (transaction : Py.dict) (sms_sender_name : string) : Prop :=
  exists sender_name,
    Py.get_default "sender_name" (Py.VStr "") transaction = Py.VStr sender_name
    /\ sms_sender_name = Str.strip (Str.lower sender_name).

(** The phone rule lets the call of [client_phone] go on. *)
Definition phone_passes (transaction : Py.dict) (client_phone : string) : Prop :=
  phone_accepted (client_last_digits_of client_phone)
    (Py.get_default "sender_phone_digits" (Py.VStr "") transaction)
  = Py.Ret true.

(** [str] writes [n]: the number has at most [int_max_str_digits]
    digits. *)
Definition written (n : Z) : Prop :=
  String.length (Str.decimal (Z.abs n)) <= Str.int_max_str_digits.

Definition name_failure : Py.dict :=
  reply "not_approved"
    "Name verification failed. Please ensure you entered the correct name.".

Definition phone_failure : Py.dict :=
  reply "not_approved"
    "Phone number verification failed. Please check your mobile number.".

Definition approval (paid_amount : Z) : Py.dict :=
  [("status", Py.VStr "approved");
   ("message",
    Py.VStr ("Payment verified successfully! Amount received: "
             ++ Str.decimal paid_amount ++ " RWF"));
   ("amount", Py.VInt paid_amount)].

(** A store that holds one row of the [Messages] table. *)
Definition stored_payment (txid amount sender_name phone_digits : string) : memory :=
  [("Messages",
    [[("txid", Py.VStr txid); ("amount", Py.VStr amount);
      ("sender_name", Py.VStr sender_name);
      ("sender_phone_digits", Py.VStr phone_digits)]])].

(** The stored phone digits are absent (no key, or [None]) or are a text
    whose last two characters end the last three of the claimed phone. *)
Definition phone_matching_or_absent (transaction : Py.dict) (client_phone : string)
    : Prop :=
  Py.get "sender_phone_digits" transaction = None
  \/ Py.get "sender_phone_digits" transaction = Some Py.VNone
  \/ exists digits,
       Py.get "sender_phone_digits" transaction = Some (Py.VStr digits)
       /\ Str.endswith (client_last_digits_of client_phone) (Str.last 2 digits) = true.

(** What [extract_payment_info] returns for a text it does not read. *)
Definition empty_info : Py.dict :=
  [("txid", Py.VStr ""); ("amount", Py.VStr ""); ("sender_name", Py.VStr "");
   ("phone_digits", Py.VStr ""); ("is_payment_sms", Py.VBool false)].

(** Every character of the text is a blank. *)
Fixpoint all_space (s : string) : bool :=
  match s with
  | EmptyString => true
  | String c s' => (Str.is_space c && all_space s')%bool
  end.

(** The confidence of a text that is not blank, from whether a MoMo
    pattern is found and the number of keywords that occur. *)
Definition score (hit : bool) (hits : nat) : float :=
  ml_classifier.py_min 1.0
    ((if hit then 0.0 + 0.7 else 0.0)
     + ml_classifier.py_min 0.3 (ml_classifier.float_of_nat hits * 0.1))%float.

Definition all_keywords : list string :=
  (ml_classifier.payment_success_keywords
   ++ ml_classifier.payment_failure_keywords)%list.

(** The scores are not negative and grow with the pattern hit and with
    the number of keywords: a check of every pair of counts up to
    [bound]. *)
Definition scores_ordered (bound : nat) : bool :=
  forallb
    (fun n' =>
       forallb
         (fun n =>
            forallb
              (fun hits : bool * bool =>
                 implb (Nat.leb n n')
                   (PrimFloat.leb 0.0 (score (snd hits) n')
                    && PrimFloat.leb (score (fst hits) n) (score (snd hits) n'))%bool)
              [(false, false); (false, true); (true, true)])
         (List.seq 0 (Datatypes.S bound)))
    (List.seq 0 (Datatypes.S bound)).

(** ** The matcher *)

(** Every successful match of [r] closes the group. *)
Fixpoint sets_group (r : Re.regex) : bool :=
  match r with
  | Re.Group _ => true
  | Re.Cat a b => (sets_group a || sets_group b)%bool
  | Re.Alt a b => (sets_group a && sets_group b)%bool
  | _ => false
  end.

Definition closed (g : Re.capture) : Prop := g <> None.

(** A successful [body] ends in its continuation and keeps the invariant
    [P] of the capture. *)
Definition hands_over (P : Re.capture -> Prop)
    (body : string -> Re.capture -> Re.cont -> Re.outcome) : Prop :=
  forall (s : string) (g : Re.capture) (k : Re.cont) (m : string * Re.capture),
    P g -> body s g k = Some m ->
    exists s' g', P g' /\ k s' g' = Some m.

(** The words of a regular expression, groups ignored. *)
Inductive matches (ic : bool) : Re.regex -> string -> Prop :=
| matches_eps : matches ic Re.Eps ""
| matches_lit (p c : ascii) :
    Re.lit_matches ic p c = true -> matches ic (Re.Lit p) (String c "")
| matches_class (p : ascii -> bool) (c : ascii) :
    p c = true -> matches ic (Re.Class p) (String c "")
| matches_cat (a b : Re.regex) (s1 s2 : string) :
    matches ic a s1 -> matches ic b s2 -> matches ic (Re.Cat a b) (s1 ++ s2)
| matches_alt_l (a b : Re.regex) (s : string) :
    matches ic a s -> matches ic (Re.Alt a b) s
| matches_alt_r (a b : Re.regex) (s : string) :
    matches ic b s -> matches ic (Re.Alt a b) s
| matches_star_stop (a : Re.regex) : matches ic (Re.Star a) ""
| matches_star_round (a : Re.regex) (s1 s2 : string) :
    matches ic a s1 -> s1 <> "" -> matches ic (Re.Star a) s2 ->
    matches ic (Re.Star a) (s1 ++ s2)
| matches_group (a : Re.regex) (s : string) :
    matches ic a s -> matches ic (Re.Group a) s.

(** What a successful [body] has consumed is a word of [r]. *)
Definition sound_for (ic : bool) (r : Re.regex)
    (body : string -> Re.capture -> Re.cont -> Re.outcome) : Prop :=
  forall (s : string) (g : Re.capture) (k : Re.cont) (m : string * Re.capture),
    body s g k = Some m ->
    exists s1 s2 g', s = s1 ++ s2 /\ matches ic r s1 /\ k s2 g' = Some m.

(** [body] reads its continuation only through the values it returns. *)
Definition respects_continuation
    (body : string -> Re.capture -> Re.cont -> Re.outcome) : Prop :=
  forall (s : string) (g : Re.capture) (k k' : Re.cont),
    (forall s' g', k s' g' = k' s' g') -> body s g k = body s g k'.

(** [k2] succeeds on the rest extended by [t] whenever [k] succeeds. *)
Definition follows (t : string) (k k2 : Re.cont) : Prop :=
  forall (s : string) (g g2 : Re.capture), k s g <> None -> k2 (s ++ t) g2 <> None.

(** [body] still succeeds when the text is extended by [t]. *)
Definition extends (t : string)
    (body : string -> Re.capture -> Re.cont -> Re.outcome) : Prop :=
  forall (s : string) (g g2 : Re.capture) (k k2 : Re.cont),
    follows t k k2 -> body s g k <> None -> body (s ++ t) g2 k2 <> None.

End Spec.

(* ================================================================== *)
(** * [app.py]: the two routes *)
(* ================================================================== *)

Module routes.

Import supabase.

(** [a == t] for a text [t]: a value that is no text differs from it. *)
Definition is_text (t : string) (a : Py.value) : bool :=
  match a with
  | Py.VStr s => String.eqb s t
  | _ => false
  end.

(** [f"{v}"] of the values the routes format, which are texts. *)
Definition format_text (v : Py.value) : Py.result string :=
  match v with
  | Py.VStr s => Py.Ret s
  | Py.VInt z => payment_verification.format_int z
  | Py.VNone => Py.Ret "None"
  | Py.VBool true => Py.Ret "True"
  | Py.VBool false => Py.Ret "False"
  | _ => Py.Ret ""
  end.

Section WithClient.

Context {S : Type} (client : Client S).

(** [receive_sms]: [data] is [request.get_json()], the result is the
    dictionary given to [jsonify].  The keys read by subscript are those
    [classify_sms] has just written.  An insert that raises is not caught
    here. *)
Definition receive_sms (data : Py.dict) (st : S) : Py.result Py.dict * S :=
  let message := Py.get_default "message" (Py.VStr "") data in
  match (text <- Py.as_str message ;;
         classification <- ml_classifier.classify_sms text ;;
         Py.Ret (text, classification)) with
  | Py.Raise e => (Py.Raise e, st)
  | Py.Ret (text, classification) =>
      let confidence := Py.get_default "confidence" Py.VNone classification in
      let status := Py.get_default "status" Py.VNone classification in
      if negb (Py.truthy (Py.get_default "is_payment_sms" Py.VNone classification))
      then
        (Py.Ret [("status", Py.VStr "ignored");
                 ("reason", Py.VStr "Not a payment-related SMS");
                 ("confidence", confidence)], st)
      else if negb (is_text "success" status) then
        match format_text status with
        | Py.Raise e => (Py.Raise e, st)
        | Py.Ret status_text =>
            (Py.Ret [("status", Py.VStr "ignored");
                     ("reason", Py.VStr ("Payment status: " ++ status_text));
                     ("confidence", confidence)], st)
        end
      else
        match app.extract_fields text with
        | Py.Raise e => (Py.Raise e, st)
        | Py.Ret fields =>
            let ml_info :=
              match Py.get_default "payment_info" Py.VNone classification with
              | Py.VDict d => d
              | _ => []
              end in
            let phone_digits := Py.get_default "phone_digits" Py.VNone ml_info in
            let fields :=
              if Py.truthy phone_digits
              then Py.set "sender_phone_digits" phone_digits fields
              else fields in
            let fields := Py.set "ml_confidence" confidence fields in
            let fields := Py.set "payment_status" status fields in
            match insert client payment_verification.TABLE_NAME fields st with
            | None => (Py.Raise Py.StoreError, st)
            | Some st' =>
                (Py.Ret [("status", Py.VStr "saved");
                         ("data", Py.VDict fields);
                         ("ml_classification", Py.VDict classification)], st')
            end
        end
  end.

(** [request.form.get(k)]: the fields of a form are texts. *)
Fixpoint form_get (k : string) (form : list (string * string)) : option string :=
  match form with
  | [] => None
  | (k', v) :: form' => if String.eqb k k' then Some v else form_get k form'
  end.

(** [if x:] for a form field: present and not empty. *)
Definition filled (field : option string) : bool :=
  match field with
  | Some s => negb (Str.is_empty s)
  | None => false
  end.

Definition text_or_empty (field : option string) : string :=
  match field with
  | Some s => s
  | None => ""
  end.

(** What [verify_payment_web] hands to [render_template]. *)
Record page : Type := Page {
  result_message : Py.value;
  result_status : Py.value;
  verified_amount : Py.value
}.

(** [verify_payment_web]: [method] is [request.method], [form] is
    [request.form], [now] the clock of the call. *)
Definition verify_payment_web (method : string) (form : list (string * string))
    (now : string) (st : S) : Py.result page * S :=
  let result_message := Py.VNone in
  let result_status := Py.VNone in
  let verified_amount := Py.VNone in
  if String.eqb method "POST" then
    let client_name := form_get "client_name" form in
    let client_phone := form_get "client_phone" form in
    let txid := form_get "txid" form in
    if (filled client_name && filled client_phone && filled txid)%bool then
      match payment_verification.verify_payment_with_client_details client
              (text_or_empty txid) (text_or_empty client_name)
              (text_or_empty client_phone)
              payment_verification.REQUIRED_AMOUNT now st with
      | (Py.Raise e, st') => (Py.Raise e, st')
      | (Py.Ret result, st') =>
          (Py.Ret (Page (Py.get_default "message" Py.VNone result)
                        (Py.get_default "status" Py.VNone result)
                        (Py.get_default "amount" Py.VNone result)), st')
      end
    else
      (Py.Ret (Page (Py.VStr "All fields are required.")
                    (Py.VStr "not_approved") verified_amount), st)
  else (Py.Ret (Page result_message result_status verified_amount), st).

End WithClient.

End routes.

(* ================================================================== *)
(** * Vocabulary of the further properties *)
(* ================================================================== *)

Module Props.

(** Some keyword of the list occurs in the lower-cased text. *)
Definition has_keyword (keywords : list string) (s : string) : bool :=
  existsb (fun keyword => Str.contains keyword (Str.lower s)) keywords.

(** The values of the score for every count of keywords up to [bound]:
    at most 1, at least 0.7 with a pattern hit and not without,
    above 0 with a hit or a keyword, and 0 without either. *)
Definition score_facts (bound : nat) : bool :=
  (forallb
     (fun n =>
        PrimFloat.leb (Spec.score false n) 1.0
        && PrimFloat.leb (Spec.score true n) 1.0
        && PrimFloat.leb 0.7 (Spec.score true n)
        && negb (PrimFloat.leb 0.7 (Spec.score false n))
        && PrimFloat.ltb 0.0 (Spec.score true n)
        && implb (Nat.ltb 0 n) (PrimFloat.ltb 0.0 (Spec.score false n)))%bool
     (List.seq 0 (Datatypes.S bound))
   && negb (PrimFloat.ltb 0.0 (Spec.score false 0)))%bool.

(** The first character of every text of the list is no blank. *)
Definition start_with_no_blank (texts : list string) : bool :=
  forallb
    (fun t => match t with
              | String c _ => negb (Str.is_space c)
              | EmptyString => false
              end)
    texts.

(** ** Words and captures of the matcher *)

(** Every character of the text satisfies [p]. *)
Fixpoint all_chars (p : ascii -> bool) (s : string) : bool :=
  match s with
  | EmptyString => true
  | String c s' => (p c && all_chars p s')%bool
  end.

(** [x] is a word of a group of [r]. *)
Fixpoint captured (ic : bool) (r : Re.regex) (x : string) : Prop :=
  match r with
  | Re.Group a => Spec.matches ic a x \/ captured ic a x
  | Re.Cat a b => captured ic a x \/ captured ic b x
  | Re.Alt a b => captured ic a x \/ captured ic b x
  | Re.Star a => captured ic a x
  | _ => False
  end.

(** The capture, when there is one, satisfies [Q]. *)
Definition keeps (Q : string -> Prop) (g : Re.capture) : Prop :=
  forall x, g = Some x -> Q x.

(** What a successful [body] has consumed is a word of [r], and the
    capture it hands over satisfies [Q]. *)
Definition sound_with_capture (ic : bool) (Q : string -> Prop) (r : Re.regex)
    (body : string -> Re.capture -> Re.cont -> Re.outcome) : Prop :=
  forall (s : string) (g : Re.capture) (k : Re.cont) (m : string * Re.capture),
    keeps Q g -> body s g k = Some m ->
    exists s1 s2 g',
      s = s1 ++ s2 /\ Spec.matches ic r s1 /\ keeps Q g' /\ k s2 g' = Some m.

(** Every character a word of [r] can carry satisfies [p]. *)
Fixpoint chars_in (p : ascii -> bool) (ic : bool) (r : Re.regex) : Prop :=
  match r with
  | Re.Eps => True
  | Re.Lit q => forall c, Re.lit_matches ic q c = true -> p c = true
  | Re.Class q => forall c, q c = true -> p c = true
  | Re.Cat a b => chars_in p ic a /\ chars_in p ic b
  | Re.Alt a b => chars_in p ic a /\ chars_in p ic b
  | Re.Star a => chars_in p ic a
  | Re.Group a => chars_in p ic a
  end.

(** The length of the shortest word of [r]. *)
Fixpoint min_len (r : Re.regex) : nat :=
  match r with
  | Re.Eps => 0
  | Re.Lit _ => 1
  | Re.Class _ => 1
  | Re.Cat a b => min_len a + min_len b
  | Re.Alt a b => Nat.min (min_len a) (min_len b)
  | Re.Star _ => 0
  | Re.Group a => min_len a
  end.

(** The length of the longest word of [r], when the words are bounded. *)
Fixpoint max_len (r : Re.regex) : option nat :=
  match r with
  | Re.Eps => Some 0
  | Re.Lit _ => Some 1
  | Re.Class _ => Some 1
  | Re.Cat a b =>
      match max_len a, max_len b with
      | Some x, Some y => Some (x + y)
      | _, _ => None
      end
  | Re.Alt a b =>
      match max_len a, max_len b with
      | Some x, Some y => Some (Nat.max x y)
      | _, _ => None
      end
  | Re.Star _ => None
  | Re.Group a => max_len a
  end.

Definition digit_or_comma (c : ascii) : bool :=
  (Str.is_digit c || Ascii.eqb c ",")%bool.

Definition letter_or_space (c : ascii) : bool :=
  (Str.is_alpha_ascii c || Ascii.eqb c " ")%bool.

(** [YYYY-MM-DD HH:MM:SS], every letter a digit. *)
Definition timestamp_shape (t : string) : bool :=
  match t with
  | String y1 (String y2 (String y3 (String y4 (String "-"
      (String m1 (String m2 (String "-" (String d1 (String d2 (String " "
        (String h1 (String h2 (String ":" (String n1 (String n2 (String ":"
          (String s1 (String s2 EmptyString)))))))))))))))))) =>
      forallb Str.is_digit [y1; y2; y3; y4; m1; m2; d1; d2; h1; h2; n1; n2; s1; s2]
  | _ => false
  end.

(** ** Amounts and phones *)

(** The text without the character [c]. *)
Fixpoint without (c : ascii) (s : string) : string :=
  match s with
  | EmptyString => EmptyString
  | String x s' => if Ascii.eqb c x then without c s' else String x (without c s')
  end.

(** The values of the decimal digits of the text, in order. *)
Fixpoint digits_of (s : string) : list Z :=
  match s with
  | EmptyString => []
  | String c s' =>
      if Str.is_digit c then Str.digit_val c :: digits_of s' else digits_of s'
  end.

(** The claimed phone with [+], spaces and [-] removed. *)
Definition cleaned_phone (client_phone : string) : string :=
  without "-" (without " " (without "+" client_phone)).

End Props.

(* ================================================================== *)
(** * Facts about the [str] methods *)
(* ================================================================== *)

Section StrFacts.

Import Str.

Lemma startswith_refl (s : string) : startswith s s = true.
Proof.
  induction s as [|c s IH]; simpl; [reflexivity|].
  now rewrite Ascii.eqb_refl, IH.
Qed.

Lemma startswith_empty (s : string) : startswith "" s = true.
Proof. now destruct s. Qed.

Lemma startswith_app (p s t : string) :
  startswith p s = true -> startswith p (s ++ t) = true.
Proof.
  revert s; induction p as [|a p IH]; intros s H; simpl in *; [reflexivity|].
  destruct s as [|b s]; [discriminate|]. simpl.
  apply andb_true_iff in H as [Hab Hp].
  now rewrite Hab, (IH _ Hp).
Qed.

Lemma startswith_self_app (p t : string) : startswith p (p ++ t) = true.
Proof. apply startswith_app, startswith_refl. Qed.

Lemma contains_refl (s : string) : contains s s = true.
Proof. destruct s; simpl; [reflexivity|]. now rewrite Ascii.eqb_refl, startswith_refl. Qed.

(** The empty text occurs in every text. *)
Lemma contains_empty (s : string) : contains "" s = true.
Proof. now destruct s. Qed.

Lemma contains_unfold (sub s : string) :
  contains sub s
  = (startswith sub s
     || match s with EmptyString => false | String _ s' => contains sub s' end)%bool.
Proof. now destruct s. Qed.

Lemma contains_app_r (sub s t : string) :
  contains sub s = true -> contains sub (s ++ t) = true.
Proof.
  induction s as [|c s IH]; intros H.
  - rewrite contains_unfold in H. rewrite orb_false_r in H.
    destruct sub; [apply contains_empty | discriminate].
  - rewrite contains_unfold in H. rewrite contains_unfold.
    apply orb_true_iff in H as [H|H].
    + now rewrite (startswith_app _ _ t H).
    + cbn [append]. rewrite (IH H). apply orb_true_r.
Qed.

Lemma contains_app_l (sub s t : string) :
  contains sub t = true -> contains sub (s ++ t) = true.
Proof.
  induction s as [|c s IH]; intros H; simpl append; [exact H|].
  rewrite contains_unfold, (IH H). apply orb_true_r.
Qed.

Lemma contains_middle (a x b : string) : contains x (a ++ x ++ b) = true.
Proof.
  apply contains_app_l, contains_app_r, contains_refl.
Qed.

Lemma is_empty_true (s : string) : is_empty s = true <-> s = "".
Proof. destruct s; simpl; split; congruence. Qed.

Lemma is_empty_false (s : string) : is_empty s = false <-> s <> "".
Proof. destruct s; simpl; split; congruence. Qed.

Lemma lower_app (s t : string) : lower (s ++ t) = lower s ++ lower t.
Proof. induction s as [|c s IH]; simpl; [reflexivity | now rewrite IH]. Qed.

Lemma is_space_lower (c : ascii) : is_space (lower_char c) = is_space c.
Proof. destruct c as [[] [] [] [] [] [] [] []]; reflexivity. Qed.

Lemma is_empty_lower (s : string) : is_empty (lower s) = is_empty s.
Proof. now destruct s. Qed.

Lemma lower_lstrip (s : string) : lstrip (lower s) = lower (lstrip s).
Proof.
  induction s as [|c s IH]; simpl; [reflexivity|].
  rewrite is_space_lower. destruct (is_space c); [exact IH | reflexivity].
Qed.

Lemma lower_rstrip (s : string) : rstrip (lower s) = lower (rstrip s).
Proof.
  induction s as [|c s IH]; simpl; [reflexivity|].
  rewrite IH, is_space_lower, is_empty_lower.
  destruct (is_space c && is_empty (rstrip s))%bool; reflexivity.
Qed.

(** [s.lower().strip()] is [s.strip().lower()]. *)
Lemma lower_strip (s : string) : strip (lower s) = lower (strip s).
Proof. unfold strip. now rewrite lower_rstrip, lower_lstrip. Qed.

(** A stored name that carries no surrounding blanks, as [extract_fields]
    stores it, is empty for the name rule only when it is empty. *)
Lemma stripped_name_not_empty (sender_name : string) :
  strip sender_name = sender_name ->
  sender_name <> "" ->
  strip (lower sender_name) <> "".
Proof.
  intros Hs Hne. rewrite lower_strip, Hs.
  destruct sender_name; [now elim Hne | discriminate].
Qed.

End StrFacts.

(* ================================================================== *)
(** * The digit limit of [int] and [str] *)
(* ================================================================== *)

Section DigitLimit.

(** A list of digits, least significant first, as a numeral of the
    library with as many digits and the same value. *)
Lemma little_endian_numeral (ds : list Z) :
  Forall (fun d => 0 <= d <= 9)%Z ds ->
  exists u : Decimal.uint,
    Decimal.nb_digits u = List.length ds
    /\ Z.of_N (DecimalPos.Unsigned.of_lu u) = fold_right (fun d acc => 10 * acc + d)%Z 0%Z ds.
Proof.
  intros H. induction H as [|d ds Hd0 _ IH].
  - now exists Decimal.Nil.
  - destruct IH as (u & Hn & Hv). cbv beta in Hd0.
    assert (Hd : (d = 0 \/ d = 1 \/ d = 2 \/ d = 3 \/ d = 4 \/ d = 5 \/ d = 6
                 \/ d = 7 \/ d = 8 \/ d = 9)%Z) by lia.
    cbn [fold_right List.length]. rewrite <- Hv, <- Hn.
    destruct Hd as [->|[->|[->|[->|[->|[->|[->|[->|[->| ->]]]]]]]]];
      [ exists (Decimal.D0 u) | exists (Decimal.D1 u) | exists (Decimal.D2 u)
      | exists (Decimal.D3 u) | exists (Decimal.D4 u) | exists (Decimal.D5 u)
      | exists (Decimal.D6 u) | exists (Decimal.D7 u) | exists (Decimal.D8 u)
      | exists (Decimal.D9 u) ];
      (split; [reflexivity|]); cbn [DecimalPos.Unsigned.of_lu]; lia.
Qed.

Lemma string_of_uint_length (u : Decimal.uint) :
  String.length (NilEmpty.string_of_uint u) = Decimal.nb_digits u.
Proof. induction u; simpl; congruence. Qed.

Lemma unorm_not_nil (u : Decimal.uint) : Decimal.unorm u <> Decimal.Nil.
Proof.
  unfold Decimal.unorm. destruct (Decimal.nzhead u); discriminate.
Qed.

(** The number a literal of [n] digits writes is written by [str] with at
    most [n] digits (one for the empty literal). *)
Lemma decimal_of_digits_length (ds : list Z) :
  Forall (fun d => 0 <= d <= 9)%Z ds ->
  (0 <= Str.int_of_digits ds)%Z
  /\ String.length (Str.decimal (Str.int_of_digits ds)) <= Nat.max 1 (List.length ds).
Proof.
  intros Hds.
  destruct (little_endian_numeral (rev ds)) as (u & Hn & Hv);
    [now apply Forall_rev|].
  rewrite List.length_rev in Hn.
  unfold Str.int_of_digits. rewrite <- (fold_left_rev_right _ ds 0%Z), <- Hv.
  split; [lia|].
  rewrite <- (DecimalPos.Unsigned.of_lu_rev u).
  change (Z.of_N (Pos.of_uint (Decimal.rev u)))
    with (Z.of_int (Decimal.Pos (Decimal.rev u))).
  unfold Str.decimal. rewrite DecimalZ.to_of. cbn [Decimal.norm NilZero.string_of_int].
  unfold NilZero.string_of_uint.
  pose proof (unorm_not_nil (Decimal.rev u)) as Hnn.
  destruct (Decimal.unorm (Decimal.rev u)) eqn:E; [now elim Hnn| ..];
    rewrite <- E, string_of_uint_length;
    (destruct ds as [|d ds'];
     [ destruct u; [reflexivity | discriminate Hn ..]
     | assert (Hne : Decimal.rev u <> Decimal.Nil)
         by (intros H0; apply (f_equal Decimal.nb_digits) in H0;
             rewrite DecimalFacts.nb_digits_rev, Hn in H0; discriminate);
       pose proof (DecimalFacts.nb_digits_unorm _ Hne) as Hle;
       rewrite DecimalFacts.nb_digits_rev, Hn in Hle; lia ]).
Qed.
Lemma digit_val_range (c : ascii) :
  Str.is_digit c = true -> (0 <= Str.digit_val c <= 9)%Z.
Proof.
  destruct c as [[] [] [] [] [] [] [] []]; try discriminate; intros _;
    vm_compute; split; discriminate.
Qed.

Lemma int_digits_range (s : string) :
  forall (prev : bool) (ds : list Z),
    Str.int_digits prev s = Some ds -> Forall (fun d => 0 <= d <= 9)%Z ds.
Proof.
  induction s as [|c s IH]; intros prev ds H; cbn [Str.int_digits] in H.
  - destruct prev; [injection H as <-; constructor | discriminate].
  - destruct (Str.is_digit c) eqn:Hc.
    + destruct (Str.int_digits true s) as [ds'|] eqn:E; [|discriminate].
      injection H as <-. constructor; [now apply digit_val_range | now apply (IH true)].
    + destruct (Ascii.eqb c "_" && prev)%bool; [|discriminate].
      destruct s as [|c' s']; [discriminate|]. now apply (IH false).
Qed.

(** What [int] has read, [str] writes: a number read from a literal has
    at most [int_max_str_digits] digits. *)
Lemma to_int_is_written (s : string) (z : Z) :
  Str.to_int s = Some z -> Str.of_int z = Some (Str.decimal z).
Proof.
  assert (Hu : forall t n, Str.int_unsigned t = Some n ->
               (0 <= n)%Z
               /\ String.length (Str.decimal n) <= Str.int_max_str_digits).
  { intros t n H. unfold Str.int_unsigned in H.
    destruct (Str.int_digits false t) as [ds|] eqn:E; [|discriminate].
    destruct (Nat.ltb_spec Str.int_max_str_digits (List.length ds)) as [|Hle];
      [discriminate|].
    injection H as <-.
    destruct (decimal_of_digits_length ds (int_digits_range _ _ _ E)) as [H0 Hlen].
    split; [exact H0|].
    unfold Str.int_max_str_digits in *. lia. }
  assert (Hw : forall n, (0 <= Z.abs n)%Z ->
               String.length (Str.decimal (Z.abs n)) <= Str.int_max_str_digits ->
               Str.of_int n = Some (Str.decimal n)).
  { intros n _ Hlen. unfold Str.of_int.
    destruct (Nat.ltb_spec Str.int_max_str_digits
                (String.length (Str.decimal (Z.abs n)))) as [Hlt|_];
      [lia | reflexivity]. }
  intros H. unfold Str.to_int in H.
  assert (Hpos : forall t, Str.int_unsigned t = Some z ->
                 Str.of_int z = Some (Str.decimal z)).
  { intros t Ht. destruct (Hu t z Ht) as [H0 Hlen].
    apply Hw; [lia|]. now rewrite Z.abs_eq. }
  destruct s as [|c s']; [now apply (Hpos "")|].
  destruct (Ascii.eqb_spec c "+") as [->|Hplus]; [now apply (Hpos s')|].
  destruct (Ascii.eqb_spec c "-") as [->|Hminus].
  - destruct (Str.int_unsigned s') as [n|] eqn:E; [|discriminate].
    injection H as <-. destruct (Hu s' n E) as [H0 Hlen].
    apply Hw; [lia|]. now rewrite Z.abs_opp, Z.abs_eq.
  - apply (Hpos (String c s')).
    destruct c as [[] [] [] [] [] [] [] []]; first [exact H | congruence].
Qed.

Lemma format_int_written (n : Z) :
  Spec.written n -> payment_verification.format_int n = Py.Ret (Str.decimal n).
Proof.
  unfold Spec.written, payment_verification.format_int, Str.of_int. intros H.
  destruct (Nat.ltb_spec Str.int_max_str_digits
              (String.length (Str.decimal (Z.abs n)))) as [Hlt|_];
    [lia | reflexivity].
Qed.

Lemma format_int_too_long (n : Z) :
  ~ Spec.written n -> payment_verification.format_int n = Py.Raise Py.ValueError.
Proof.
  unfold Spec.written, payment_verification.format_int, Str.of_int. intros H.
  destruct (Nat.ltb_spec Str.int_max_str_digits
              (String.length (Str.decimal (Z.abs n)))) as [_|Hle];
    [reflexivity | now elim H].
Qed.

(** The amount of a stored payment is always written. *)
Lemma format_int_of_read (s : string) (z : Z) :
  Str.to_int s = Some z -> payment_verification.format_int z = Py.Ret (Str.decimal z).
Proof.
  intros H. unfold payment_verification.format_int.
  now rewrite (to_int_is_written s z H).
Qed.

End DigitLimit.

(* ================================================================== *)
(** * Facts about the matcher *)
(* ================================================================== *)

Lemma string_length_app (s t : string) :
  String.length (s ++ t) = String.length s + String.length t.
Proof. induction s as [|c s IH]; simpl; [reflexivity | now rewrite IH]. Qed.

Section Captures.

Import Re Spec.

Variable ic : bool.

(** An invariant of the capture that closing a group establishes. *)
Variable P : capture -> Prop.
Hypothesis P_closed : forall x : string, P (Some x).

Lemma star_loop_hands_over (body : string -> capture -> cont -> outcome) :
  hands_over P body -> forall fuel : nat, hands_over P (star_loop body fuel).
Proof.
  intros Hbody fuel; induction fuel as [|f IH]; intros s g k m Hg H; simpl in H.
  - now exists s, g.
  - destruct (body s g _) as [m'|] eqn:Hb.
    + injection H as ->.
      apply Hbody in Hb as (s1 & g1 & Hg1 & Hk); [|exact Hg].
      destruct (Nat.ltb _ _); [|discriminate].
      now apply IH in Hk.
    + now exists s, g.
Qed.

(** A successful run ends in its continuation, which sees a capture that
    satisfies the invariant when the initial one does. *)
Lemma run_hands_over (r : regex) : hands_over P (run ic r).
Proof.
  induction r as [| p | p | a IHa b IHb | a IHa b IHb | a IHa | a IHa];
    intros s g k m Hg H; cbn [run] in H.
  - now exists s, g.
  - destruct s as [|c s']; [discriminate|].
    destruct (lit_matches ic p c); [|discriminate]. now exists s', g.
  - destruct s as [|c s']; [discriminate|].
    destruct (p c); [|discriminate]. now exists s', g.
  - apply IHa in H as (s1 & g1 & Hg1 & H); [|exact Hg].
    now apply IHb in H.
  - destruct (run ic a s g k) as [m'|] eqn:Ha.
    + injection H as ->. now apply IHa in Ha.
    + now apply IHb in H.
  - now apply (star_loop_hands_over _ IHa) in H.
  - apply IHa in H as (s1 & g1 & _ & H); [|exact Hg].
    eexists _, _. split; [apply P_closed | exact H].
Qed.

End Captures.

Section Groups.

Import Re Spec.

Lemma closed_some (x : string) : closed (Some x).
Proof. discriminate. Qed.

Lemma run_closes_group (ic : bool) (r : regex) (s : string) (g : capture)
    (k : cont) (m : string * capture) :
  sets_group r = true ->
  run ic r s g k = Some m ->
  exists s' g', closed g' /\ k s' g' = Some m.
Proof.
  revert s g k m.
  induction r as [| p | p | a IHa b IHb | a IHa b IHb | a IHa | a IHa];
    intros s g k m Hset H; simpl in Hset; try discriminate; cbn [run] in H.
  - apply orb_true_iff in Hset as [Hset|Hset].
    + apply (IHa _ _ _ _ Hset) in H as (s1 & g1 & Hg1 & H).
      exact (run_hands_over ic closed closed_some b s1 g1 k m Hg1 H).
    + apply (run_hands_over ic (fun _ => True) (fun _ => I) a s g _ m I) in H
        as (s1 & g1 & _ & H).
      exact (IHb _ _ _ _ Hset H).
  - apply andb_true_iff in Hset as [Ha Hb].
    destruct (run ic a s g k) as [m'|] eqn:Hra.
    + injection H as ->. exact (IHa _ _ _ _ Ha Hra).
    + exact (IHb _ _ _ _ Hb H).
  - apply (run_hands_over ic (fun _ => True) (fun _ => I) a s g _ m I) in H
      as (s1 & g1 & _ & H).
    eexists _, _. split; [apply closed_some | exact H].
Qed.

Lemma match_here_group (ic : bool) (r : regex) (s : string) (m : match_object) :
  sets_group r = true ->
  match_here ic r s = Some m ->
  exists x, group1 m = Some x.
Proof.
  intros Hset H. unfold match_here in H.
  destruct (run ic r s None accept) as [[s' g]|] eqn:Hr; [|discriminate].
  injection H as <-. simpl.
  apply (run_closes_group _ _ _ _ _ _ Hset) in Hr as (s1 & g1 & Hg1 & Hk).
  unfold accept in Hk. injection Hk as _ <-.
  destruct g1 as [x|]; [now exists x | now elim Hg1].
Qed.

(** [m.group(1)] of a match of a pattern whose group always takes part is
    a text. *)
Lemma search_group (ic : bool) (r : regex) (s : string) (m : match_object) :
  sets_group r = true ->
  search ic r s = Some m ->
  exists x, group_1 m = Py.VStr x.
Proof.
  intros Hset. induction s as [|c s IH]; simpl; intros H.
  - destruct (match_here ic r "") as [m'|] eqn:Hm; [|discriminate].
    injection H as ->. apply (match_here_group _ _ _ _ Hset) in Hm as [x Hx].
    exists x. unfold group_1. now rewrite Hx.
  - destruct (match_here ic r (String c s)) as [m'|] eqn:Hm.
    + injection H as ->. apply (match_here_group _ _ _ _ Hset) in Hm as [x Hx].
      exists x. unfold group_1. now rewrite Hx.
    + exact (IH H).
Qed.

End Groups.

Section Extension.

Import Re Spec.

Variable ic : bool.
Variable t : string.

Lemma star_loop_extends (body : string -> capture -> cont -> outcome) :
  extends t body ->
  forall (fuel fuel2 : nat) (s : string) (g g2 : capture) (k k2 : cont),
    follows t k k2 ->
    String.length (s ++ t) < fuel2 ->
    star_loop body fuel s g k <> None ->
    star_loop body fuel2 (s ++ t) g2 k2 <> None.
Proof.
  intros Hbody fuel.
  assert (Hleave : forall fuel2 s g g2 (k k2 : cont),
             follows t k k2 -> k s g <> None ->
             star_loop body fuel2 (s ++ t) g2 k2 <> None).
  { intros [|f2] s g g2 k k2 Hk H; simpl.
    - now apply (Hk s g).
    - destruct (body (s ++ t) g2 _); [discriminate | now apply (Hk s g)]. }
  induction fuel as [|f IH]; intros fuel2 s g g2 k k2 Hk Hlen H; simpl in H.
  - exact (Hleave fuel2 s g g2 k k2 Hk H).
  - destruct (body s g _) as [m|] eqn:Hb; [|exact (Hleave fuel2 s g g2 k k2 Hk H)].
    destruct fuel2 as [|f2]; [lia|]. simpl.
    match goal with
    | |- match body _ _ ?K2 with _ => _ end <> None =>
        assert (Hb2 : body (s ++ t) g2 K2 <> None)
    end.
    { eapply Hbody; [|rewrite Hb; discriminate].
      intros s1 g1 g1' Hs1.
      destruct (Nat.ltb_spec (String.length s1) (String.length s)) as [Hlt|Hge];
        [|now elim Hs1].
      destruct (Nat.ltb_spec (String.length (s1 ++ t)) (String.length (s ++ t)))
        as [Hlt2|Hge2]; [|rewrite !string_length_app in Hge2; lia].
      apply (IH f2 s1 g1 g1' k k2 Hk); [lia | exact Hs1]. }
    destruct (body (s ++ t) g2 _); [discriminate | now elim Hb2].
Qed.

(** A match found in a text is still found when the text is extended on
    the right. *)
Lemma run_extends (r : regex) : extends t (run ic r).
Proof.
  induction r as [| p | p | a IHa b IHb | a IHa b IHb | a IHa | a IHa];
    intros s g g2 k k2 Hk H; cbn [run] in *.
  - now apply (Hk s g).
  - destruct s as [|c s']; [now elim H|]. cbn [append].
    destruct (lit_matches ic p c); [now apply (Hk s' g) | now elim H].
  - destruct s as [|c s']; [now elim H|]. cbn [append].
    destruct (p c); [now apply (Hk s' g) | now elim H].
  - eapply IHa; [|exact H].
    intros s1 g1 g1' H1. now apply (IHb s1 g1 g1' k k2 Hk).
  - destruct (run ic a s g k) eqn:Ha.
    + assert (H2 : run ic a (s ++ t) g2 k2 <> None)
        by (apply (IHa s g g2 k k2 Hk); rewrite Ha; discriminate).
      destruct (run ic a (s ++ t) g2 k2); [discriminate | now elim H2].
    + destruct (run ic a (s ++ t) g2 k2); [discriminate|].
      now apply (IHb s g g2 k k2 Hk).
  - apply (star_loop_extends _ IHa (Datatypes.S (String.length s))
             (Datatypes.S (String.length (s ++ t))) s g g2 k k2 Hk); [lia | exact H].
  - eapply IHa; [|exact H].
    intros s1 g1 g1' H1. eapply Hk. exact H1.
Qed.

Lemma match_here_extends (r : regex) (s : string) :
  match_here ic r s <> None -> match_here ic r (s ++ t) <> None.
Proof.
  unfold match_here. intros H.
  assert (H1 : run ic r s None accept <> None)
    by (destruct (run ic r s None accept) as [[? ?]|]; [discriminate | now elim H]).
  assert (H2 : run ic r (s ++ t) None accept <> None).
  { apply (run_extends r s None None accept accept); [|exact H1].
    intros ? ? ? _. discriminate. }
  destruct (run ic r (s ++ t) None accept) as [[? ?]|]; [discriminate | now elim H2].
Qed.

Lemma search_at_head (r : regex) (s : string) :
  match_here ic r s <> None -> search ic r s <> None.
Proof.
  intros H. destruct s; simpl; destruct (match_here ic r _);
    solve [discriminate | now elim H].
Qed.

Lemma search_extends (r : regex) (s : string) :
  search ic r s <> None -> search ic r (s ++ t) <> None.
Proof.
  induction s as [|c s IH]; intros H.
  - simpl in H. destruct (match_here ic r "") eqn:Hm; [|now elim H].
    assert (H2 : match_here ic r ("" ++ t) <> None)
      by (apply match_here_extends; rewrite Hm; discriminate).
    now apply search_at_head.
  - simpl in H. change (String c s ++ t) with (String c (s ++ t)). simpl.
    destruct (match_here ic r (String c s)) eqn:Hm.
    + assert (H2 : match_here ic r (String c s ++ t) <> None)
        by (apply match_here_extends; rewrite Hm; discriminate).
      simpl in H2. destruct (match_here ic r (String c (s ++ t)));
        [discriminate | now elim H2].
    + destruct (match_here ic r (String c (s ++ t))); [discriminate|].
      exact (IH H).
Qed.

End Extension.

Section Fuel.

Import Re Spec.

Variable ic : bool.

Lemma star_loop_same_continuation
    (body : string -> capture -> cont -> outcome) :
  respects_continuation body ->
  forall fuel : nat, respects_continuation (star_loop body fuel).
Proof.
  intros Hbody fuel; induction fuel as [|f IH]; intros s g k k' Hk; simpl.
  - apply Hk.
  - rewrite (Hk s g).
    match goal with
    | |- match body _ _ ?K with _ => _ end = match body _ _ ?K' with _ => _ end =>
        rewrite (Hbody s g K K'); [reflexivity|]
    end.
    intros s1 g1. destruct (Nat.ltb _ _); [now apply IH | reflexivity].
Qed.

(** The result of [run] depends on its continuation only through the
    values of the continuation. *)
Lemma run_same_continuation (r : regex) : respects_continuation (run ic r).
Proof.
  induction r as [| p | p | a IHa b IHb | a IHa b IHb | a IHa | a IHa];
    intros s g k k' Hk; cbn [run].
  - apply Hk.
  - destruct s as [|c s']; [reflexivity|]. now rewrite Hk.
  - destruct s as [|c s']; [reflexivity|]. now rewrite Hk.
  - apply IHa. intros s1 g1. now apply IHb.
  - now rewrite (IHa s g k k' Hk), (IHb s g k k' Hk).
  - now apply star_loop_same_continuation.
  - apply IHa. intros s1 g1. apply Hk.
Qed.

(** Any fuel above the length of the text gives the same result: a round
    consumes a character, so the loop never runs out. *)
Lemma star_loop_enough_fuel (body : string -> capture -> cont -> outcome) :
  respects_continuation body ->
  forall (fuel fuel' : nat) (s : string) (g : capture) (k : cont),
    String.length s < fuel -> String.length s < fuel' ->
    star_loop body fuel s g k = star_loop body fuel' s g k.
Proof.
  intros Hbody fuel; induction fuel as [|f IH]; intros fuel' s g k Hf Hf'; [lia|].
  destruct fuel' as [|f']; [lia|]. simpl.
  match goal with
  | |- match body _ _ ?K with _ => _ end = match body _ _ ?K' with _ => _ end =>
      rewrite (Hbody s g K K'); [reflexivity|]
  end.
  intros s1 g1.
  destruct (Nat.ltb_spec (String.length s1) (String.length s)); [|reflexivity].
  apply IH; lia.
Qed.

(** The equation of the greedy star, free of fuel: one more round that
    consumes a character and then the star again, or else the
    continuation. *)
Lemma run_star (a : regex) (s : string) (g : capture) (k : cont) :
  run ic (Star a) s g k
  = match run ic a s g
            (fun s' g' =>
               if Nat.ltb (String.length s') (String.length s)
               then run ic (Star a) s' g' k
               else None)
    with
    | Some m => Some m
    | None => k s g
    end.
Proof.
  cbn [run]. simpl star_loop at 1.
  match goal with
  | |- match run _ _ _ _ ?K with _ => _ end
       = match run _ _ _ _ ?K' with _ => _ end =>
      rewrite (run_same_continuation a s g K K'); [reflexivity|]
  end.
  intros s1 g1. cbn beta.
  destruct (Nat.ltb_spec (String.length s1) (String.length s)); [|reflexivity].
  apply star_loop_enough_fuel; [apply run_same_continuation | lia | lia].
Qed.

End Fuel.

Section Fallback.

Import Re Spec.

Lemma search_in_suffix (ic : bool) (r : regex) (before s : string) :
  match_here ic r s <> None -> search ic r (before ++ s) <> None.
Proof.
  intros H. induction before as [|c before IH]; cbn [append].
  - now apply search_at_head.
  - simpl. destruct (match_here ic r (String c (before ++ s))); [discriminate|].
    exact IH.
Qed.

Lemma search_position (ic : bool) (r : regex) (s : string) (m : match_object) :
  search ic r s = Some m ->
  exists before s', s = before ++ s' /\ match_here ic r s' = Some m.
Proof.
  induction s as [|c s IH]; simpl; intros H.
  - destruct (match_here ic r "") eqn:Hm; [|discriminate].
    exists "", "". now rewrite Hm.
  - destruct (match_here ic r (String c s)) eqn:Hm.
    + exists "", (String c s). now rewrite Hm.
    + destruct (IH H) as (before & s' & -> & Hs').
      now exists (String c before), s'.
Qed.

(** A loop whose continuation cannot fail cannot fail. *)
Lemma star_loop_succeeds (body : string -> capture -> cont -> outcome)
    (fuel : nat) (s : string) (g : capture) (k : cont) :
  k s g <> None -> star_loop body fuel s g k <> None.
Proof.
  intros H. destruct fuel as [|f]; simpl; [exact H|].
  destruct (body s g _); [discriminate | exact H].
Qed.

Lemma digit_is_no_separator (c : ascii) :
  Str.is_digit c = true -> (Ascii.eqb c ":" || Str.is_space c)%bool = false.
Proof.
  destruct c as [[] [] [] [] [] [] [] []]; vm_compute; congruence.
Qed.

(** A match of the fallback pattern starts with its literal head and a
    digit. *)
Lemma fallback_match_shape (s : string) :
  match_here false app.txid_fallback_pattern s <> None ->
  exists d rest, s = "*161*TxId:" ++ String d rest /\ Str.is_digit d = true.
Proof.
  unfold match_here, app.txid_fallback_pattern. intros H.
  destruct (run false _ s None accept) as [m|] eqn:Hr; [clear H | now elim H].
  cbn [seq fold_right text plus run lit_matches digit] in Hr.
  repeat (destruct s as [|? s]; [discriminate|];
          match type of Hr with
          | (if Ascii.eqb ?p ?c then _ else _) = _ =>
              destruct (Ascii.eqb_spec p c); [subst|discriminate]
          end).
  destruct s as [|d rest]; [discriminate|].
  destruct (Str.is_digit d) eqn:Hd; [|discriminate].
  now exists d, rest.
Qed.

Lemma exact_pattern_at_txid (d : ascii) (rest : string) :
  Str.is_digit d = true ->
  match_here false app.txid_exact_pattern ("TxId:" ++ String d rest) <> None.
Proof.
  intros Hd. unfold match_here.
  assert (H : run false app.txid_exact_pattern ("TxId:" ++ String d rest) None accept
              <> None).
  { unfold app.txid_exact_pattern, ml_classifier.txid_pattern.
    cbn [seq fold_right text run lit_matches append Ascii.eqb Bool.eqb
         star_loop String.length orb].
    rewrite (digit_is_no_separator d Hd).
    destruct (Nat.ltb_spec (Datatypes.S (String.length rest))
                (Datatypes.S (Datatypes.S (String.length rest)))) as [_|Hlt]; [|lia].
    unfold plus, digit. cbn [run]. rewrite Hd.
    match goal with
    | |- match ?x with _ => _ end <> None =>
        assert (Hx : x <> None); [|destruct x; [discriminate | now elim Hx]]
    end.
    apply star_loop_succeeds. discriminate. }
  destruct (run false _ _ None accept) as [[? ?]|]; [discriminate | now elim H].
Qed.

(** The fallback pattern of [extract_fields] finds nothing that its first
    pattern misses. *)
Lemma fallback_is_subsumed (s : string) :
  search false app.txid_exact_pattern s = None ->
  search false app.txid_fallback_pattern s = None.
Proof.
  intros Hexact.
  destruct (search false app.txid_fallback_pattern s) as [m|] eqn:Hfb; [|reflexivity].
  exfalso.
  destruct (search_position _ _ _ _ Hfb) as (before & s' & -> & Hm).
  destruct (fallback_match_shape s') as (d & rest & -> & Hd);
    [rewrite Hm; discriminate|].
  assert (H : search false app.txid_exact_pattern
                ((before ++ "*161*") ++ ("TxId:" ++ String d rest)) <> None)
    by (apply search_in_suffix, exact_pattern_at_txid, Hd).
  apply H. rewrite <- Hexact. f_equal.
  clear. induction before as [|c before IH]; cbn [append]; [reflexivity|].
  f_equal. exact IH.
Qed.

End Fallback.

Section Language.

Import Re Spec.

Variable ic : bool.

Lemma append_assoc (a b c : string) : (a ++ b) ++ c = a ++ b ++ c.
Proof. induction a as [|x a IH]; cbn [append]; [reflexivity | now rewrite IH]. Qed.

Lemma append_empty_r (a : string) : a ++ "" = a.
Proof. induction a as [|x a IH]; cbn [append]; [reflexivity | now rewrite IH]. Qed.

Lemma star_loop_sound (a : regex) (body : string -> capture -> cont -> outcome) :
  sound_for ic a body -> forall fuel : nat, sound_for ic (Star a) (star_loop body fuel).
Proof.
  intros Hbody fuel; induction fuel as [|f IH]; intros s g k m H; simpl in H.
  - exists "", s, g. repeat split; [constructor | exact H].
  - destruct (body s g _) as [m'|] eqn:Hb.
    + injection H as ->.
      apply Hbody in Hb as (s1 & s2 & g1 & -> & Hs1 & Hk).
      destruct (Nat.ltb_spec (String.length s2) (String.length (s1 ++ s2)))
        as [Hlt|]; [|discriminate].
      apply IH in Hk as (t1 & t2 & g2 & -> & Ht1 & Hk).
      exists (s1 ++ t1), t2, g2. rewrite append_assoc. repeat split; [|exact Hk].
      apply matches_star_round; [exact Hs1 | | exact Ht1].
      intros ->. cbn [append] in Hlt. lia.
    + exists "", s, g. repeat split; [constructor | exact H].
Qed.

Lemma run_sound (r : regex) : sound_for ic r (run ic r).
Proof.
  induction r as [| p | p | a IHa b IHb | a IHa b IHb | a IHa | a IHa];
    intros s g k m H; cbn [run] in H.
  - exists "", s, g. repeat split; [constructor | exact H].
  - destruct s as [|c s']; [discriminate|].
    destruct (lit_matches ic p c) eqn:Hp; [|discriminate].
    exists (String c ""), s', g. repeat split; [now constructor | exact H].
  - destruct s as [|c s']; [discriminate|].
    destruct (p c) eqn:Hp; [|discriminate].
    exists (String c ""), s', g. repeat split; [now constructor | exact H].
  - apply IHa in H as (s1 & s2 & g1 & -> & Hs1 & H).
    apply IHb in H as (t1 & t2 & g2 & -> & Ht1 & H).
    exists (s1 ++ t1), t2, g2. rewrite append_assoc.
    repeat split; [now constructor | exact H].
  - destruct (run ic a s g k) as [m'|] eqn:Ha.
    + injection H as ->. apply IHa in Ha as (s1 & s2 & g1 & -> & Hs1 & H).
      exists s1, s2, g1. repeat split; [now apply matches_alt_l | exact H].
    + apply IHb in H as (s1 & s2 & g1 & -> & Hs1 & H).
      exists s1, s2, g1. repeat split; [now apply matches_alt_r | exact H].
  - now apply (star_loop_sound a _ IHa) in H.
  - apply IHa in H as (s1 & s2 & g1 & -> & Hs1 & H).
    eexists s1, s2, _. repeat split; [now constructor | exact H].
Qed.

(** A word of [r] at the head of the text is found, when the continuation
    accepts the rest. *)
Lemma run_complete (r : regex) (s1 : string) :
  matches ic r s1 ->
  forall (s2 : string) (g : capture) (k : cont),
    (forall g', k s2 g' <> None) -> run ic r (s1 ++ s2) g k <> None.
Proof.
  induction 1 as [| p c Hp | p c Hp | a b s1 t1 _ IHa _ IHb | a b s1 _ IHa
                  | a b s1 _ IHb | a | a s1 t1 _ IHa Hne _ IHs | a s1 _ IHa];
    intros s2 g k Hk.
  - apply Hk.
  - cbn [append run]. rewrite Hp. apply Hk.
  - cbn [append run]. rewrite Hp. apply Hk.
  - cbn [run]. rewrite append_assoc. apply IHa. intros g'. now apply IHb.
  - cbn [run]. destruct (run ic a (s1 ++ s2) g k) eqn:Ha; [discriminate|].
    exfalso. now apply (IHa s2 g k Hk).
  - cbn [run]. destruct (run ic a (s1 ++ s2) g k); [discriminate|].
    now apply IHb.
  - cbn [append run]. apply star_loop_succeeds. apply Hk.
  - rewrite run_star.
    match goal with
    | |- match ?x with _ => _ end <> None =>
        assert (Hx : x <> None); [|destruct x; [discriminate | now elim Hx]]
    end.
    rewrite append_assoc. apply IHa. intros g'.
    destruct (Nat.ltb_spec (String.length (t1 ++ s2))
                (String.length (s1 ++ t1 ++ s2))) as [_|Hge].
    + now apply IHs.
    + destruct s1; [now elim Hne|]. cbn [append String.length] in Hge.
      rewrite !string_length_app in Hge. lia.
  - cbn [run]. apply IHa. intros g'. apply Hk.
Qed.

(** [re.search] finds a match exactly when some part of the text is a
    word of the pattern. *)
Theorem search_finds_words (r : regex) (s : string) :
  search ic r s <> None
  <-> exists before word after, s = before ++ word ++ after /\ matches ic r word.
Proof.
  split.
  - destruct (search ic r s) as [m|] eqn:Hs; [intros _ | intros H; now elim H].
    destruct (search_position _ _ _ _ Hs) as (before & s' & -> & Hm).
    unfold match_here in Hm.
    destruct (run ic r s' None accept) as [[rest g]|] eqn:Hr; [|discriminate].
    apply run_sound in Hr as (word & after & g' & -> & Hw & _).
    now exists before, word, after.
  - intros (before & word & after & -> & Hw).
    apply search_in_suffix. unfold match_here.
    assert (H : run ic r (word ++ after) None accept <> None)
      by (apply run_complete; [exact Hw | discriminate]).
    destruct (run ic r (word ++ after) None accept) as [[? ?]|];
      [discriminate | now elim H].
Qed.

End Language.

(* ================================================================== *)
(** * The verification rules *)
(* ================================================================== *)

Section Verification.

Import supabase payment_verification Spec.

Context {S : Type} (client : Client S).

(** What is left of [verify_payment_with_client_details] once the lookup,
    the amount and the stored name have been read and the amount is
    enough. *)
Lemma identity_rules_after_amount
    (txid client_name client_phone now : string) (required_amount paid_amount : Z)
    (st : S) (transaction : Py.dict) (sms_sender_name : string) :
  first_row client txid st transaction ->
  paid_amount_of transaction paid_amount ->
  (required_amount <= paid_amount)%Z ->
  stored_name_of transaction sms_sender_name ->
  verify_payment_with_client_details client txid client_name client_phone
    required_amount now st
  = if name_rejected sms_sender_name (Str.strip (Str.lower client_name))
    then (Py.Ret name_failure, st)
    else
      match phone_accepted (client_last_digits_of client_phone)
              (Py.get_default "sender_phone_digits" (Py.VStr "") transaction) with
      | Py.Raise e => (Py.Raise e, st)
      | Py.Ret false => (Py.Ret phone_failure, st)
      | Py.Ret true =>
          match insert client "payments"
                  (payment_record txid client_name client_phone paid_amount now) st with
          | Some st' => (Py.Ret (approval paid_amount), st')
          | None =>
              (Py.Ret (reply "error" "Failed to record payment verification."), st)
          end
      end.
Proof.
  intros [others Hsel] [amount [Hget Hint]] Hle [sender [Hname ->]].
  unfold verify_payment_with_client_details, amount_str_of.
  rewrite Hsel, Hget. cbn [Py.as_str Py.bind]. rewrite Hint.
  destruct (Z.ltb_spec paid_amount required_amount) as [Hlt|_]; [lia|].
  rewrite Hname. cbn [Py.as_str].
  rewrite (format_int_of_read _ _ Hint).
  reflexivity.
Qed.

(** With an amount that is not enough the call ends at the amount rule:
    in the shortage rejection, or in the [ValueError] of a shortage that
    is too long to be written. *)
Lemma insufficient_amount
    (txid client_name client_phone now : string) (required_amount paid_amount : Z)
    (st : S) (transaction : Py.dict) :
  first_row client txid st transaction ->
  paid_amount_of transaction paid_amount ->
  (paid_amount < required_amount)%Z ->
  verify_payment_with_client_details client txid client_name client_phone
    required_amount now st
  = match format_int (required_amount - paid_amount) with
    | Py.Ret shortage_text =>
        (Py.Ret (reply "not_approved"
                   ("Insufficient payment. You are short by "
                    ++ shortage_text ++ " RWF.")), st)
    | Py.Raise e => (Py.Raise e, st)
    end.
Proof.
  intros [others Hsel] [amount [Hget Hint]] Hlt.
  unfold verify_payment_with_client_details, amount_str_of.
  rewrite Hsel, Hget. cbn [Py.as_str Py.bind]. rewrite Hint.
  destruct (Z.ltb_spec paid_amount required_amount) as [_|Hge]; [|lia].
  now destruct (format_int (required_amount - paid_amount)).
Qed.


(** The ways out of the rules of [verify_payment_with_client_details]
    once the transaction, its amount and its sender name have been read. *)
Lemma identity_rules_cases
    (txid client_name client_phone now : string) (required_amount paid_amount : Z)
    (st : S) (transaction : Py.dict) (sms_sender_name : string) :
  first_row client txid st transaction ->
  paid_amount_of transaction paid_amount ->
  stored_name_of transaction sms_sender_name ->
  let call :=
    verify_payment_with_client_details client txid client_name client_phone
      required_amount now st in
  let rejected := name_rejected sms_sender_name (Str.strip (Str.lower client_name)) in
  let phone :=
    phone_accepted (client_last_digits_of client_phone)
      (Py.get_default "sender_phone_digits" (Py.VStr "") transaction) in
  ((paid_amount < required_amount)%Z ->
   written (required_amount - paid_amount) ->
   call = (Py.Ret (reply "not_approved"
                     ("Insufficient payment. You are short by "
                      ++ Str.decimal (required_amount - paid_amount) ++ " RWF.")), st))
  /\ ((paid_amount < required_amount)%Z ->
      ~ written (required_amount - paid_amount) ->
      call = (Py.Raise Py.ValueError, st))
  /\ ((required_amount <= paid_amount)%Z -> rejected = true ->
      call = (Py.Ret name_failure, st))
  /\ ((required_amount <= paid_amount)%Z -> rejected = false ->
      phone = Py.Ret false ->
      call = (Py.Ret phone_failure, st))
  /\ ((required_amount <= paid_amount)%Z -> rejected = false ->
      phone = Py.Ret true ->
      forall st',
        insert client "payments"
          (payment_record txid client_name client_phone paid_amount now) st = Some st' ->
        call = (Py.Ret (approval paid_amount), st'))
  /\ ((required_amount <= paid_amount)%Z -> rejected = false ->
      phone = Py.Ret true ->
      insert client "payments"
        (payment_record txid client_name client_phone paid_amount now) st = None ->
      call = (Py.Ret (reply "error" "Failed to record payment verification."), st)).
Proof.
  intros Hrow Hpaid Hname call rejected phone.
  assert (Hshort : (paid_amount < required_amount)%Z ->
                   call = match format_int (required_amount - paid_amount) with
                          | Py.Ret shortage_text =>
                              (Py.Ret (reply "not_approved"
                                         ("Insufficient payment. You are short by "
                                          ++ shortage_text ++ " RWF.")), st)
                          | Py.Raise e => (Py.Raise e, st)
                          end)
    by (intros Hlt; now apply insufficient_amount with transaction).
  split; [intros Hlt Hw; now rewrite (Hshort Hlt), (format_int_written _ Hw)|].
  split; [intros Hlt Hw; now rewrite (Hshort Hlt), (format_int_too_long _ Hw)|].
  assert (Hcall : (required_amount <= paid_amount)%Z ->
                  call = if rejected then (Py.Ret name_failure, st)
                         else match phone with
                              | Py.Raise e => (Py.Raise e, st)
                              | Py.Ret false => (Py.Ret phone_failure, st)
                              | Py.Ret true =>
                                  match insert client "payments"
                                          (payment_record txid client_name client_phone
                                             paid_amount now) st with
                                  | Some st' => (Py.Ret (approval paid_amount), st')
                                  | None =>
                                      (Py.Ret (reply "error"
                                                 "Failed to record payment verification."), st)
                                  end
                              end).
  { intros Hle. now apply identity_rules_after_amount. }
  repeat split.
  - intros Hle Hr. rewrite (Hcall Hle), Hr. reflexivity.
  - intros Hle Hr Hp. rewrite (Hcall Hle), Hr, Hp. reflexivity.
  - intros Hle Hr Hp st' Hi. rewrite (Hcall Hle), Hr, Hp, Hi. reflexivity.
  - intros Hle Hr Hp Hi. rewrite (Hcall Hle), Hr, Hp, Hi. reflexivity.
Qed.

End Verification.

Section VerificationClaims.

Import supabase payment_verification Spec.

(** With the amount reached, no result is the shortage rejection. *)
Lemma enough_is_no_shortage {S : Type} (client : Client S)
    (txid client_name client_phone now : string) (required_amount paid_amount : Z)
    (st : S) (transaction : Py.dict) (sms_sender_name : string) :
  first_row client txid st transaction ->
  paid_amount_of transaction paid_amount ->
  (required_amount <= paid_amount)%Z ->
  stored_name_of transaction sms_sender_name ->
  forall shortage : string,
    fst (verify_payment_with_client_details client txid client_name client_phone
           required_amount now st)
    <> Py.Ret (reply "not_approved"
                 ("Insufficient payment. You are short by " ++ shortage ++ " RWF.")).
Proof.
  intros Hrow Hpaid Hle Hname shortage.
  rewrite (identity_rules_after_amount client txid client_name client_phone now
             required_amount paid_amount st transaction sms_sender_name
             Hrow Hpaid Hle Hname).
  destruct (name_rejected _ _); cbn [fst].
  - unfold name_failure, reply. intros H; inversion H.
  - destruct (phone_accepted _ _) as [[|]|e]; cbn [fst].
    + destruct (insert _ _ _ _); cbn [fst]; unfold approval, reply;
        intros H; inversion H.
    + unfold phone_failure, reply. intros H; inversion H.
    + discriminate.
Qed.

(** C2. In [verify_payment_with_client_details] only an amount strictly
    below the required one is turned away by the amount rule (with the
    shortage rejection, or with [ValueError] when the shortage is too long
    for [str] to write); with an amount equal or above, the name rule and
    then the phone rule decide, and the call goes on to the record of the
    verification.  The call for TX2 of the specification, paid 150 for 100
    required, is approved with amount 150. *)
Theorem identity_overpayment_goes_on_to_name_and_phone :
  (forall (S : Type) (client : Client S)
          (txid client_name client_phone now : string)
          (required_amount paid_amount : Z) (st : S)
          (transaction : Py.dict) (sms_sender_name : string),
      first_row client txid st transaction ->
      paid_amount_of transaction paid_amount ->
      stored_name_of transaction sms_sender_name ->
      let call :=
        verify_payment_with_client_details client txid client_name client_phone
          required_amount now st in
      let rejected :=
        name_rejected sms_sender_name (Str.strip (Str.lower client_name)) in
      let phone :=
        phone_accepted (client_last_digits_of client_phone)
          (Py.get_default "sender_phone_digits" (Py.VStr "") transaction) in
      ((paid_amount < required_amount)%Z ->
       written (required_amount - paid_amount) ->
       call = (Py.Ret (reply "not_approved"
                         ("Insufficient payment. You are short by "
                          ++ Str.decimal (required_amount - paid_amount) ++ " RWF.")), st))
      /\ ((paid_amount < required_amount)%Z ->
          ~ written (required_amount - paid_amount) ->
          call = (Py.Raise Py.ValueError, st))
      /\ ((required_amount <= paid_amount)%Z -> rejected = true ->
          call = (Py.Ret name_failure, st))
      /\ ((required_amount <= paid_amount)%Z -> rejected = false ->
          phone = Py.Ret false ->
          call = (Py.Ret phone_failure, st))
      /\ ((required_amount <= paid_amount)%Z -> rejected = false ->
          phone = Py.Ret true ->
          forall st',
            insert client "payments"
              (payment_record txid client_name client_phone paid_amount now) st
            = Some st' ->
            call = (Py.Ret (approval paid_amount), st'))
      /\ ((required_amount <= paid_amount)%Z ->
          forall shortage : string,
            fst call
            <> Py.Ret (reply "not_approved"
                         ("Insufficient payment. You are short by "
                          ++ shortage ++ " RWF."))))
  /\ (forall now : string,
        fst (verify_payment_with_client_details memory_client
               "TX2" "John Smith" "+250788123456" 100 now
               (stored_payment "TX2" "150 RWF" "john smith" "56"))
        = Py.Ret [("status", Py.VStr "approved");
                  ("message",
                   Py.VStr "Payment verified successfully! Amount received: 150 RWF");
                  ("amount", Py.VInt 150)]).
Proof.
  split.
  - intros S client txid client_name client_phone now required_amount paid_amount
      st transaction sms_sender_name Hrow Hpaid Hname.
    pose proof (identity_rules_cases client txid client_name client_phone now
                  required_amount paid_amount st transaction sms_sender_name
                  Hrow Hpaid Hname) as H.
    cbv zeta in *. destruct H as (H0 & H1 & H2 & H3 & H4 & _).
    repeat (split; [assumption|]).
    intros Hle shortage.
    now apply enough_is_no_shortage with paid_amount transaction sms_sender_name.
  - intros now. reflexivity.
Qed.

Lemma identity_overpayment_goes_on_to_name_and_phone_witness :
  first_row memory_client "TX2" (stored_payment "TX2" "150 RWF" "Alice" "56")
    [("txid", Py.VStr "TX2"); ("amount", Py.VStr "150 RWF");
     ("sender_name", Py.VStr "Alice"); ("sender_phone_digits", Py.VStr "56")]
  /\ verify_payment_with_client_details memory_client
       "TX2" "John Smith" "+250788123456" 100 "2024-01-01T10:00:00"
       (stored_payment "TX2" "150 RWF" "Alice" "56")
     = (Py.Ret name_failure, stored_payment "TX2" "150 RWF" "Alice" "56").
Proof.
  assert (Hrow : first_row memory_client "TX2"
                   (stored_payment "TX2" "150 RWF" "Alice" "56")
                   [("txid", Py.VStr "TX2"); ("amount", Py.VStr "150 RWF");
                    ("sender_name", Py.VStr "Alice");
                    ("sender_phone_digits", Py.VStr "56")]).
  { exists []. reflexivity. }
  split; [exact Hrow|].
  refine (proj1 (proj2 (proj2 (proj1 identity_overpayment_goes_on_to_name_and_phone
                                 memory memory_client "TX2" "John Smith"
                                 "+250788123456" "2024-01-01T10:00:00" 100%Z 150%Z
                                 _ _ "alice" Hrow _ _))) _ _).
  - exists "150 RWF". split; reflexivity.
  - exists "Alice". split; reflexivity.
  - vm_compute. discriminate.
  - reflexivity.
Defined.

(** The name test, read off its definition. *)
Lemma name_rejected_false (sms_sender_name client_name_lower : string) :
  name_rejected sms_sender_name client_name_lower = false
  <-> sms_sender_name <> ""
      /\ (Str.contains client_name_lower sms_sender_name = true
          \/ Str.contains sms_sender_name client_name_lower = true).
Proof.
  unfold name_rejected.
  rewrite orb_false_iff, andb_false_iff, !negb_false_iff, is_empty_false.
  reflexivity.
Qed.

(** When the name rule lets a call through, its result is not the name
    failure. *)
Lemma past_the_name_rule {S : Type} (client : Client S)
    (txid client_name client_phone now : string) (required_amount paid_amount : Z)
    (st : S) (transaction : Py.dict) (sms_sender_name : string) :
  first_row client txid st transaction ->
  paid_amount_of transaction paid_amount ->
  (required_amount <= paid_amount)%Z ->
  stored_name_of transaction sms_sender_name ->
  name_rejected sms_sender_name (Str.strip (Str.lower client_name)) = false ->
  fst (verify_payment_with_client_details client txid client_name client_phone
         required_amount now st)
  <> Py.Ret name_failure.
Proof.
  intros Hrow Hpaid Hle Hname Hrej.
  rewrite (identity_rules_after_amount client txid client_name client_phone now
             required_amount paid_amount st transaction sms_sender_name
             Hrow Hpaid Hle Hname), Hrej.
  destruct (phone_accepted _ _) as [[|]|e]; cbn [fst].
  - destruct (insert _ _ _ _); cbn [fst]; unfold approval, name_failure, reply;
      intros H; inversion H.
  - unfold phone_failure, name_failure, reply. intros H; inversion H.
  - discriminate.
Qed.

(** C3 (amended). With the amount rule passed, the name rule lets the
    call through exactly when the stored sender name, lower-cased and
    stripped, is not empty and, both names lower-cased and stripped, one of
    the stored and the claimed name occurs in the other (equal names
    included); a stored name that is empty or blank is turned away; and a
    call the name rule turns away returns the name failure whatever the
    claimed phone and the stored phone digits are, the store untouched.
    [sms_sender_name] is the stored name lower-cased and stripped; for a
    stored name without surrounding blanks its emptiness is that of the
    stored name itself ([stripped_name_not_empty]). *)
Theorem name_rule_exact {S : Type} (client : Client S)
    (txid client_name client_phone now : string) (required_amount paid_amount : Z)
    (st : S) (transaction : Py.dict) (sms_sender_name : string) :
  first_row client txid st transaction ->
  paid_amount_of transaction paid_amount ->
  (required_amount <= paid_amount)%Z ->
  stored_name_of transaction sms_sender_name ->
  let client_name_lower := Str.strip (Str.lower client_name) in
  let passes :=
    sms_sender_name <> ""
    /\ (Str.contains client_name_lower sms_sender_name = true
        \/ Str.contains sms_sender_name client_name_lower = true) in
  (fst (verify_payment_with_client_details client txid client_name client_phone
          required_amount now st) <> Py.Ret name_failure
   <-> passes)
  /\ (sms_sender_name <> "" -> sms_sender_name = client_name_lower -> passes)
  /\ (sms_sender_name = "" -> ~ passes)
  /\ (~ passes ->
      forall other_phone : string,
        verify_payment_with_client_details client txid client_name other_phone
          required_amount now st
        = (Py.Ret name_failure, st)).
Proof.
  intros Hrow Hpaid Hle Hname client_name_lower passes.
  assert (Hfail : ~ passes ->
                  forall other_phone : string,
                    verify_payment_with_client_details client txid client_name
                      other_phone required_amount now st
                    = (Py.Ret name_failure, st)).
  { intros Hno other_phone.
    rewrite (identity_rules_after_amount client txid client_name other_phone now
               required_amount paid_amount st transaction sms_sender_name
               Hrow Hpaid Hle Hname).
    destruct (name_rejected sms_sender_name (Str.strip (Str.lower client_name)))
      eqn:Hrej; [reflexivity|].
    apply name_rejected_false in Hrej. contradiction. }
  split; [split | split; [ | split]].
  - intros Hcall.
    destruct (name_rejected sms_sender_name client_name_lower) eqn:Hrej.
    + exfalso. apply Hcall.
      rewrite (identity_rules_after_amount client txid client_name client_phone now
                 required_amount paid_amount st transaction sms_sender_name
                 Hrow Hpaid Hle Hname).
      fold client_name_lower. now rewrite Hrej.
    + now apply name_rejected_false.
  - intros Hp. apply past_the_name_rule with paid_amount transaction sms_sender_name;
      try assumption.
    now apply name_rejected_false.
  - intros Hne Heq. split; [exact Hne|].
    left. rewrite Heq. apply contains_refl.
  - intros He [Hne _]. contradiction.
  - exact Hfail.
Qed.

Lemma name_rule_exact_witness :
  fst (verify_payment_with_client_details memory_client
         "TX2" "John Smith" "+250788123456" 100 "2024-01-01T10:00:00"
         (stored_payment "TX2" "150 RWF" "john smith" "56"))
  = Py.Ret (approval 150)
  /\ "john smith" <> ""
  /\ (Str.contains "john smith" "john smith" = true
      \/ Str.contains "john smith" "john smith" = true).
Proof.
  split; [reflexivity|].
  refine (proj1 (proj1 (name_rule_exact memory_client
                          "TX2" "John Smith" "+250788123456" "2024-01-01T10:00:00"
                          100%Z 150%Z (stored_payment "TX2" "150 RWF" "john smith" "56")
                          [("txid", Py.VStr "TX2"); ("amount", Py.VStr "150 RWF");
                           ("sender_name", Py.VStr "john smith");
                           ("sender_phone_digits", Py.VStr "56")]
                          "john smith" _ _ _ _)) _).
  - exists []. reflexivity.
  - exists "150 RWF". split; reflexivity.
  - vm_compute. discriminate.
  - exists "john smith". split; reflexivity.
  - vm_compute. discriminate.
Defined.

(** C3, where the claim as it is written fails: the stored sender name
    [two blanks] is not empty and, lower-cased and stripped, is the empty
    text, which occurs in every claimed name; the amount rule has passed,
    and the call returns the name failure. *)
Lemma blank_stored_name_fails_the_name_rule :
  let st := stored_payment "TX2" "150 RWF" "  " "56" in
  exists transaction : Py.dict,
    first_row memory_client "TX2" st transaction
    /\ paid_amount_of transaction 150
    /\ (100 <= 150)%Z
    /\ Py.get_default "sender_name" (Py.VStr "") transaction = Py.VStr "  "
    /\ "  " <> ""
    /\ Str.contains (Str.strip (Str.lower "  ")) (Str.strip (Str.lower "John Smith"))
       = true
    /\ verify_payment_with_client_details memory_client
         "TX2" "John Smith" "+250788123456" 100 "2024-01-01T10:00:00" st
       = (Py.Ret name_failure, st).
Proof.
  cbv zeta.
  exists [("txid", Py.VStr "TX2"); ("amount", Py.VStr "150 RWF");
          ("sender_name", Py.VStr "  "); ("sender_phone_digits", Py.VStr "56")].
  split; [exists []; reflexivity|].
  split; [exists "150 RWF"; split; reflexivity|].
  split; [lia|].
  split; [reflexivity|].
  split; [discriminate|].
  split; reflexivity.
Qed.

(** C4. When every rule of [verify_payment_with_client_details] passes, a
    failing insert of the verification record gives the outcome [error]
    with a fixed message, as a returned value and not as an exception; a
    successful insert gives [approved], a message that contains the
    verified amount as [str] writes it, and the [amount] entry set to the
    paid amount. *)
Theorem insert_failure_is_an_error_outcome {S : Type} (client : Client S)
    (txid client_name client_phone now : string) (required_amount paid_amount : Z)
    (st : S) (transaction : Py.dict) (sms_sender_name : string) :
  first_row client txid st transaction ->
  paid_amount_of transaction paid_amount ->
  (required_amount <= paid_amount)%Z ->
  stored_name_of transaction sms_sender_name ->
  name_rejected sms_sender_name (Str.strip (Str.lower client_name)) = false ->
  phone_passes transaction client_phone ->
  let call :=
    verify_payment_with_client_details client txid client_name client_phone
      required_amount now st in
  let record := payment_record txid client_name client_phone paid_amount now in
  (insert client "payments" record st = None ->
   call = (Py.Ret [("status", Py.VStr "error");
                   ("message", Py.VStr "Failed to record payment verification.")],
           st))
  /\ (forall st' : S,
        insert client "payments" record st = Some st' ->
        exists message : string,
          call = (Py.Ret [("status", Py.VStr "approved");
                          ("message", Py.VStr message);
                          ("amount", Py.VInt paid_amount)],
                  st')
          /\ Str.contains (Str.decimal paid_amount) message = true
          /\ Str.of_int paid_amount = Some (Str.decimal paid_amount)).
Proof.
  intros Hrow Hpaid Hle Hname Hrej Hphone call record.
  assert (Hw : Str.of_int paid_amount = Some (Str.decimal paid_amount))
    by (destruct Hpaid as [amount [_ Hint]]; exact (to_int_is_written _ _ Hint)).
  pose proof (identity_rules_cases client txid client_name client_phone now
                required_amount paid_amount st transaction sms_sender_name
                Hrow Hpaid Hname) as H.
  cbv zeta in H. destruct H as (_ & _ & _ & _ & Hok & Herr).
  split.
  - intros Hins. exact (Herr Hle Hrej Hphone Hins).
  - intros st' Hins.
    exists ("Payment verified successfully! Amount received: "
            ++ Str.decimal paid_amount ++ " RWF").
    split; [exact (Hok Hle Hrej Hphone st' Hins)|].
    split; [apply contains_middle | exact Hw].
Qed.

Lemma insert_failure_is_an_error_outcome_witness :
  insert read_only_client "payments"
    (payment_record "TX2" "John Smith" "+250788123456" 150 "2024-01-01T10:00:00")
    (stored_payment "TX2" "150 RWF" "john smith" "56") = None
  /\ verify_payment_with_client_details read_only_client
       "TX2" "John Smith" "+250788123456" 100 "2024-01-01T10:00:00"
       (stored_payment "TX2" "150 RWF" "john smith" "56")
     = (Py.Ret [("status", Py.VStr "error");
                ("message", Py.VStr "Failed to record payment verification.")],
        stored_payment "TX2" "150 RWF" "john smith" "56").
Proof.
  split; [reflexivity|].
  refine (proj1 (insert_failure_is_an_error_outcome read_only_client
                   "TX2" "John Smith" "+250788123456" "2024-01-01T10:00:00"
                   100%Z 150%Z (stored_payment "TX2" "150 RWF" "john smith" "56")
                   [("txid", Py.VStr "TX2"); ("amount", Py.VStr "150 RWF");
                    ("sender_name", Py.VStr "john smith");
                    ("sender_phone_digits", Py.VStr "56")]
                   "john smith" _ _ _ _ _ _) _).
  - exists []. reflexivity.
  - exists "150 RWF". split; reflexivity.
  - vm_compute. discriminate.
  - exists "john smith". split; reflexivity.
  - reflexivity.
  - reflexivity.
  - reflexivity.
Defined.

Lemma phone_matching_or_absent_passes (transaction : Py.dict) (client_phone : string) :
  phone_matching_or_absent transaction client_phone ->
  phone_passes transaction client_phone.
Proof.
  unfold phone_matching_or_absent, phone_passes, Py.get_default.
  intros [H | [H | [digits [H Hend]]]]; rewrite H; [reflexivity | reflexivity |].
  unfold phone_accepted.
  destruct (Py.truthy (Py.VStr digits)); [|reflexivity].
  cbn [Py.as_sliceable Py.bind]. now rewrite Hend.
Qed.

(** C9 (amended). A claimed name that is empty once lower-cased and
    stripped passes the name rule against every stored sender name that,
    lower-cased and stripped, is not empty, the empty text being part of
    every text; with the amount reached, the stored phone digits absent or
    matching and the record of the verification inserted, the call is
    approved.  [sms_sender_name] is the stored name lower-cased and
    stripped; for a stored name without surrounding blanks its emptiness
    is that of the stored name itself ([stripped_name_not_empty]). *)
Theorem blank_claimed_name_is_approved {S : Type} (client : Client S)
    (txid client_name client_phone now : string) (required_amount paid_amount : Z)
    (st st' : S) (transaction : Py.dict) (sms_sender_name : string) :
  first_row client txid st transaction ->
  paid_amount_of transaction paid_amount ->
  (required_amount <= paid_amount)%Z ->
  stored_name_of transaction sms_sender_name ->
  sms_sender_name <> "" ->
  Str.strip (Str.lower client_name) = "" ->
  phone_matching_or_absent transaction client_phone ->
  insert client "payments"
    (payment_record txid client_name client_phone paid_amount now) st = Some st' ->
  name_rejected sms_sender_name (Str.strip (Str.lower client_name)) = false
  /\ verify_payment_with_client_details client txid client_name client_phone
       required_amount now st
     = (Py.Ret [("status", Py.VStr "approved");
                ("message",
                 Py.VStr ("Payment verified successfully! Amount received: "
                          ++ Str.decimal paid_amount ++ " RWF"));
                ("amount", Py.VInt paid_amount)],
        st').
Proof.
  intros Hrow Hpaid Hle Hname Hne Hblank Hphone Hins.
  assert (Hrej : name_rejected sms_sender_name (Str.strip (Str.lower client_name))
                 = false).
  { apply name_rejected_false. split; [exact Hne|].
    left. rewrite Hblank. apply contains_empty. }
  split; [exact Hrej|].
  pose proof (identity_rules_cases client txid client_name client_phone now
                required_amount paid_amount st transaction sms_sender_name
                Hrow Hpaid Hname) as H.
  cbv zeta in H. destruct H as (_ & _ & _ & _ & Hok & _).
  exact (Hok Hle Hrej (phone_matching_or_absent_passes _ _ Hphone) st' Hins).
Qed.

Lemma blank_claimed_name_is_approved_witness :
  Str.strip (Str.lower "   ") = ""
  /\ fst (verify_payment_with_client_details memory_client
            "TX9" "   " "+250788123456" 100 "2024-01-01T10:00:00"
            [("Messages",
              [[("txid", Py.VStr "TX9"); ("amount", Py.VStr "100 RWF");
                ("sender_name", Py.VStr "Alice")]])])
     = Py.Ret [("status", Py.VStr "approved");
               ("message",
                Py.VStr "Payment verified successfully! Amount received: 100 RWF");
               ("amount", Py.VInt 100)].
Proof.
  split; [reflexivity|].
  refine (f_equal fst
            (proj2 (blank_claimed_name_is_approved memory_client
                      "TX9" "   " "+250788123456" "2024-01-01T10:00:00"
                      100%Z 100%Z _ _
                      [("txid", Py.VStr "TX9"); ("amount", Py.VStr "100 RWF");
                       ("sender_name", Py.VStr "Alice")]
                      "alice" _ _ _ _ _ _ _ _))).
  - exists []. reflexivity.
  - exists "100 RWF". split; reflexivity.
  - vm_compute. discriminate.
  - exists "Alice". split; reflexivity.
  - discriminate.
  - reflexivity.
  - left. reflexivity.
  - reflexivity.
Defined.

(** C9, where the claim as it is written fails.  The stored sender name
    [two blanks] is not empty, the amount is reached, the claimed name is
    blank and the stored phone digits match: the call returns the name
    failure.  And with a stored name that passes, the same call on a
    client whose insert fails returns the [error] reply. *)
Lemma blank_claimed_name_is_not_always_approved :
  let blank_name := stored_payment "TX9" "150 RWF" "  " "56" in
  let named := stored_payment "TX9" "150 RWF" "john smith" "56" in
  Str.strip (Str.lower "   ") = ""
  /\ (exists transaction : Py.dict,
        first_row memory_client "TX9" blank_name transaction
        /\ paid_amount_of transaction 150
        /\ (100 <= 150)%Z
        /\ Py.get_default "sender_name" (Py.VStr "") transaction = Py.VStr "  "
        /\ "  " <> ""
        /\ phone_matching_or_absent transaction "+250788123456"
        /\ verify_payment_with_client_details memory_client
             "TX9" "   " "+250788123456" 100 "2024-01-01T10:00:00" blank_name
           = (Py.Ret name_failure, blank_name))
  /\ (exists transaction : Py.dict,
        first_row read_only_client "TX9" named transaction
        /\ paid_amount_of transaction 150
        /\ (100 <= 150)%Z
        /\ stored_name_of transaction "john smith"
        /\ phone_matching_or_absent transaction "+250788123456"
        /\ verify_payment_with_client_details read_only_client
             "TX9" "   " "+250788123456" 100 "2024-01-01T10:00:00" named
           = (Py.Ret (reply "error" "Failed to record payment verification."),
              named)).
Proof.
  cbv zeta. split; [reflexivity|]. split.
  - exists [("txid", Py.VStr "TX9"); ("amount", Py.VStr "150 RWF");
            ("sender_name", Py.VStr "  "); ("sender_phone_digits", Py.VStr "56")].
    split; [exists []; reflexivity|].
    split; [exists "150 RWF"; split; reflexivity|].
    split; [lia|].
    split; [reflexivity|].
    split; [discriminate|].
    split; [|reflexivity].
    right; right. exists "56". split; reflexivity.
  - exists [("txid", Py.VStr "TX9"); ("amount", Py.VStr "150 RWF");
            ("sender_name", Py.VStr "john smith");
            ("sender_phone_digits", Py.VStr "56")].
    split; [exists []; reflexivity|].
    split; [exists "150 RWF"; split; reflexivity|].
    split; [lia|].
    split; [exists "john smith"; split; reflexivity|].
    split; [|reflexivity].
    right; right. exists "56". split; reflexivity.
Qed.



End VerificationClaims.

(* ================================================================== *)
(** * The classifier and the extractors *)
(* ================================================================== *)

Section Classifier.

Import Re ml_classifier Spec.

Lemma no_keyword_no_hits (keywords : list string) (text_lower : string) :
  existsb (fun keyword => Str.contains keyword text_lower) keywords = false ->
  keyword_hits keywords text_lower = 0.
Proof.
  unfold keyword_hits. induction keywords as [|k ks IH]; simpl; [reflexivity|].
  intros H. apply orb_false_iff in H as [Hk Hks]. rewrite Hk. exact (IH Hks).
Qed.

(** C6. A status other than [unknown] is given only to a text that is
    payment-related; the converse fails: a text that matches a MoMo pattern
    and carries no keyword is payment-related with status [unknown], and a
    payment-related text with status [unknown] always is of that kind. *)
Theorem known_status_implies_payment_related :
  (forall s : string,
      classify_payment_status s <> "unknown" -> is_payment_related s = true)
  /\ (is_payment_related "*161*TxId:123*R*" = true
      /\ classify_payment_status "*161*TxId:123*R*" = "unknown")
  /\ (forall s : string,
        is_payment_related s = true -> classify_payment_status s = "unknown" ->
        momo_hit s = true
        /\ keyword_hits payment_success_keywords (Str.lower s) = 0
        /\ keyword_hits payment_failure_keywords (Str.lower s) = 0).
Proof.
  split; [|split].
  - intros s H. unfold classify_payment_status in H.
    destruct (is_payment_related s); [reflexivity | now elim H].
  - split; reflexivity.
  - intros s Hrel Hst. unfold classify_payment_status in Hst. rewrite Hrel in Hst.
    cbn [negb] in Hst.
    destruct (existsb _ payment_failure_keywords) eqn:Hf; [discriminate|].
    destruct (existsb _ payment_success_keywords) eqn:Hs; [discriminate|].
    apply no_keyword_no_hits in Hf, Hs.
    unfold is_payment_related in Hrel. rewrite Hf, Hs in Hrel.
    destruct (momo_hit s); [auto | discriminate].
Qed.

Lemma known_status_implies_payment_related_witness :
  classify_payment_status "You have received 5000 RWF" = "success"
  /\ is_payment_related "You have received 5000 RWF" = true.
Proof.
  split; [reflexivity|].
  apply (proj1 known_status_implies_payment_related "You have received 5000 RWF").
  vm_compute. discriminate.
Defined.

(** C10. On the classifier path the fields are read only from a text that
    is payment-related: for every other text [extract_payment_info]
    returns the four fields empty and [is_payment_sms] false, also for a
    text that carries a TxId and an amount in RWF, which [extract_fields]
    reads. *)
Theorem unrelated_text_extracts_nothing :
  (forall s : string,
      is_payment_related s = false ->
      extract_payment_info s
      = Py.Ret [("txid", Py.VStr ""); ("amount", Py.VStr "");
                ("sender_name", Py.VStr ""); ("phone_digits", Py.VStr "");
                ("is_payment_sms", Py.VBool false)])
  /\ (is_payment_related "TxId: 12345 of 5,000 RWF" = false
      /\ app.extract_fields "TxId: 12345 of 5,000 RWF"
         = Py.Ret [("raw_text", Py.VStr "TxId: 12345 of 5,000 RWF");
                   ("txid", Py.VStr "12345"); ("amount", Py.VStr "5,000 RWF");
                   ("sender_name", Py.VStr ""); ("timestamp", Py.VNone)]).
Proof.
  split.
  - intros s H. unfold extract_payment_info. rewrite H. reflexivity.
  - split; reflexivity.
Qed.

Lemma unrelated_text_extracts_nothing_witness :
  is_payment_related "TxId: 12345 of 5,000 RWF" = false
  /\ extract_payment_info "TxId: 12345 of 5,000 RWF" = Py.Ret empty_info.
Proof.
  split; [reflexivity|].
  apply (proj1 unrelated_text_extracts_nothing "TxId: 12345 of 5,000 RWF").
  reflexivity.
Defined.

(** C5. [extract_fields] looks for [TxId] as it is written: on
    ["txid: 123"] both its pattern and its fallback miss and the
    transaction id is empty, where the same pattern under
    [re.IGNORECASE], as [extract_payment_info] compiles it, finds 123; on
    a payment-related text the two extractors disagree. *)
Theorem lower_case_txid_is_missed :
  app.extract_fields "txid: 123"
  = Py.Ret [("raw_text", Py.VStr "txid: 123"); ("txid", Py.VStr "");
            ("amount", Py.VStr ""); ("sender_name", Py.VStr "");
            ("timestamp", Py.VNone)]
  /\ search false app.txid_exact_pattern "txid: 123" = None
  /\ search false app.txid_fallback_pattern "txid: 123" = None
  /\ search true app.txid_exact_pattern "txid: 123"
     = Some (MatchObject "txid: 123" (Some "123"))
  /\ extract_payment_info "Payment received txid: 123"
     = Py.Ret [("txid", Py.VStr "123"); ("amount", Py.VStr "");
               ("sender_name", Py.VStr ""); ("phone_digits", Py.VStr "");
               ("is_payment_sms", Py.VBool true)]
  /\ app.extract_fields "Payment received txid: 123"
     = Py.Ret [("raw_text", Py.VStr "Payment received txid: 123");
               ("txid", Py.VStr ""); ("amount", Py.VStr "");
               ("sender_name", Py.VStr ""); ("timestamp", Py.VNone)].
Proof. repeat split; reflexivity. Qed.

Lemma or_else_text (x : string) : Py.or_else (Py.VStr x) (Py.VStr "") = Py.VStr x.
Proof.
  unfold Py.or_else, Py.truthy.
  destruct (String.eqb_spec x ""); [subst|]; reflexivity.
Qed.

Lemma or_else_none (x : string) :
  Py.or_else (Py.VStr x) Py.VNone = Py.VNone
  \/ (Py.or_else (Py.VStr x) Py.VNone = Py.VStr x /\ x <> "").
Proof.
  unfold Py.or_else, Py.truthy.
  destruct (String.eqb_spec x ""); [left | right]; auto.
Qed.

(** The text of group 1 of the first match, [default] without a match. *)
Lemma searched_group (ic : bool) (r : regex) (s : string) (default : Py.value) :
  sets_group r = true ->
  (search ic r s = None
   /\ match search ic r s with Some m => group_1 m | None => default end = default)
  \/ (exists m x, search ic r s = Some m /\ group_1 m = Py.VStr x
      /\ match search ic r s with Some m => group_1 m | None => default end
         = Py.VStr x).
Proof.
  intros Hset. destruct (search ic r s) as [m|] eqn:Hs; [right | left; auto].
  destruct (search_group ic r s m Hset Hs) as [x Hx]. now exists m, x.
Qed.

(** [extract_fields] returns, and its four fields have the types of the
    specification. *)
Lemma extract_fields_total (s : string) :
  exists (txid amount sender_name : string) (timestamp : Py.value),
    app.extract_fields s
    = Py.Ret [("raw_text", Py.VStr s); ("txid", Py.VStr txid);
              ("amount", Py.VStr amount); ("sender_name", Py.VStr sender_name);
              ("timestamp", timestamp)]
    /\ (timestamp = Py.VNone \/ exists t, timestamp = Py.VStr t /\ t <> "")
    /\ (search false app.txid_exact_pattern s = None ->
        search false app.txid_fallback_pattern s = None -> txid = "")
    /\ (search false app.amount_text_pattern s = None -> amount = "")
    /\ (search false app.sender_name_pattern s = None -> sender_name = "")
    /\ (search false app.timestamp_pattern s = None -> timestamp = Py.VNone).
Proof.
  unfold app.extract_fields.
  (* the transaction id *)
  assert (Htx : exists txid,
             match
               match search false app.txid_exact_pattern s with
               | Some m => Some m
               | None => search false app.txid_fallback_pattern s
               end
             with Some m => group_1 m | None => Py.VStr "" end = Py.VStr txid
             /\ (search false app.txid_exact_pattern s = None ->
                 search false app.txid_fallback_pattern s = None -> txid = "")).
  { destruct (search false app.txid_exact_pattern s) as [m|] eqn:H1.
    - destruct (search_group false app.txid_exact_pattern s m eq_refl H1) as [x Hx].
      exists x. split; [exact Hx | discriminate].
    - destruct (search false app.txid_fallback_pattern s) as [m|] eqn:H2.
      + destruct (search_group false app.txid_fallback_pattern s m eq_refl H2)
          as [x Hx].
        exists x. split; [exact Hx | discriminate].
      + exists "". split; reflexivity. }
  destruct Htx as [txid [-> Htxid]].
  (* the sender name *)
  assert (Hsn : exists sender_name,
             match search false app.sender_name_pattern s with
             | Some sender_match =>
                 name <- Py.as_str (group_1 sender_match) ;;
                 Py.Ret (Py.VStr (Str.strip name))
             | None => Py.Ret (Py.VStr "")
             end = Py.Ret (Py.VStr sender_name)
             /\ (search false app.sender_name_pattern s = None -> sender_name = "")).
  { destruct (search false app.sender_name_pattern s) as [m|] eqn:H1.
    - destruct (search_group false app.sender_name_pattern s m eq_refl H1) as [x Hx].
      rewrite Hx.
      exists (Str.strip x). split; [reflexivity | discriminate].
    - exists "". split; reflexivity. }
  destruct Hsn as [sender_name [-> Hsender]]. cbn [Py.bind].
  (* the time stamp *)
  assert (Hts : exists t,
             match search false app.timestamp_pattern s with
             | Some timestamp_match => group_1 timestamp_match
             | None => Py.VStr ""
             end = Py.VStr t
             /\ (search false app.timestamp_pattern s = None -> t = "")).
  { destruct (search false app.timestamp_pattern s) as [m|] eqn:H1.
    - destruct (search_group false app.timestamp_pattern s m eq_refl H1) as [x Hx].
      exists x. split; [exact Hx | discriminate].
    - exists "". split; reflexivity. }
  destruct Hts as [t [-> Htime]].
  exists txid,
    (match search false app.amount_text_pattern s with
     | Some amount_match => group0 amount_match
     | None => ""
     end),
    sender_name, (Py.or_else (Py.VStr t) Py.VNone).
  rewrite !or_else_text.
  split; [|split; [|split; [|split; [|split]]]].
  - destruct (search false app.amount_text_pattern s); rewrite or_else_text; reflexivity.
  - destruct (or_else_none t) as [->|[-> Hne]]; [left | right; exists t]; auto.
  - exact Htxid.
  - intros ->. reflexivity.
  - exact Hsender.
  - intros H. now rewrite (Htime H).
Qed.

(** [extract_payment_info] returns, and its four fields are texts. *)
Lemma extract_payment_info_total (s : string) :
  exists (txid amount sender_name phone_digits : string),
    ml_classifier.extract_payment_info s
    = Py.Ret [("txid", Py.VStr txid); ("amount", Py.VStr amount);
              ("sender_name", Py.VStr sender_name);
              ("phone_digits", Py.VStr phone_digits);
              ("is_payment_sms", Py.VBool (ml_classifier.is_payment_related s))]
    /\ (search false ml_classifier.phone_pattern s = None -> phone_digits = "").
Proof.
  unfold ml_classifier.extract_payment_info.
  destruct (searched_group true ml_classifier.txid_pattern s (Py.VStr "") eq_refl)
    as [[H1 _]|(m1 & x1 & H1 & G1 & _)]; rewrite H1;
  destruct (searched_group false ml_classifier.amount_pattern s (Py.VStr "") eq_refl)
    as [[H2 _]|(m2 & x2 & H2 & G2 & _)]; rewrite H2;
  destruct (searched_group false ml_classifier.sender_pattern s (Py.VStr "") eq_refl)
    as [[H3 _]|(m3 & x3 & H3 & G3 & _)]; rewrite H3;
  destruct (searched_group false ml_classifier.phone_pattern s (Py.VStr "") eq_refl)
    as [[H4 _]|(m4 & x4 & H4 & G4 & _)]; rewrite H4;
  rewrite ?G1, ?G2, ?G3, ?G4;
  destruct (ml_classifier.is_payment_related s); cbn;
  do 4 eexists; (split; [reflexivity | first [reflexivity | discriminate]]).
Qed.

(** C8. For every text the extractors return (no exception leaves them)
    and give the five fields: [extract_fields] the transaction id, the
    amount and the sender name as texts and the time stamp as a text or
    [None], [extract_payment_info] the phone digits as a text; a field
    whose pattern finds nothing is the empty text, the time stamp [None]. *)
Theorem extraction_is_total (s : string) :
  exists (txid amount sender_name phone_digits : string) (timestamp : Py.value)
         (info : Py.dict),
    app.extract_fields s
    = Py.Ret [("raw_text", Py.VStr s); ("txid", Py.VStr txid);
              ("amount", Py.VStr amount); ("sender_name", Py.VStr sender_name);
              ("timestamp", timestamp)]
    /\ ml_classifier.extract_payment_info s = Py.Ret info
    /\ Py.get "phone_digits" info = Some (Py.VStr phone_digits)
    /\ (timestamp = Py.VNone \/ exists t, timestamp = Py.VStr t /\ t <> "")
    /\ (search false app.txid_exact_pattern s = None ->
        search false app.txid_fallback_pattern s = None -> txid = "")
    /\ (search false app.amount_text_pattern s = None -> amount = "")
    /\ (search false app.sender_name_pattern s = None -> sender_name = "")
    /\ (search false app.timestamp_pattern s = None -> timestamp = Py.VNone)
    /\ (search false ml_classifier.phone_pattern s = None -> phone_digits = "").
Proof.
  destruct (extract_fields_total s)
    as (txid & amount & sender_name & timestamp & Hf & Hts & H1 & H2 & H3 & H4).
  destruct (extract_payment_info_total s) as (tx & am & sn & phone_digits & Hi & H5).
  exists txid, amount, sender_name, phone_digits, timestamp.
  eexists. split; [exact Hf|]. split; [exact Hi|]. split; [reflexivity|].
  repeat (split; [assumption|]). assumption.
Qed.

Lemma rstrip_empty (s : string) : Str.is_empty (Str.rstrip s) = all_space s.
Proof.
  induction s as [|c s IH]; simpl; [reflexivity|].
  rewrite IH. destruct (Str.is_space c), (all_space s); reflexivity.
Qed.

Lemma lstrip_empty (s : string) : Str.is_empty (Str.lstrip s) = all_space s.
Proof.
  induction s as [|c s IH]; simpl; [reflexivity|].
  destruct (Str.is_space c); [exact IH | reflexivity].
Qed.

Lemma all_space_rstrip (s : string) : all_space (Str.rstrip s) = all_space s.
Proof.
  induction s as [|c s IH]; simpl; [reflexivity|].
  rewrite rstrip_empty.
  destruct (Str.is_space c) eqn:Hc, (all_space s) eqn:Hs; simpl;
    rewrite ?Hc, ?IH, ?Hs; reflexivity.
Qed.

(** [not s.strip()]: the text is blank. *)
Lemma strip_empty (s : string) : Str.is_empty (Str.strip s) = all_space s.
Proof. unfold Str.strip. now rewrite lstrip_empty, all_space_rstrip. Qed.

Lemma all_space_app (s t : string) :
  all_space (s ++ t) = (all_space s && all_space t)%bool.
Proof.
  induction s as [|c s IH]; simpl; [reflexivity|].
  now rewrite IH, andb_assoc.
Qed.

Lemma filter_length_le {A : Type} (f g : A -> bool) (l : list A) :
  (forall x, f x = true -> g x = true) ->
  List.length (filter f l) <= List.length (filter g l).
Proof.
  intros Hfg. induction l as [|x l IH]; simpl; [lia|].
  destruct (f x) eqn:Hf.
  - rewrite (Hfg x Hf). simpl. lia.
  - destruct (g x); simpl; lia.
Qed.

Lemma filter_length_bound {A : Type} (f : A -> bool) (l : list A) :
  List.length (filter f l) <= List.length l.
Proof.
  induction l as [|x l IH]; simpl; [lia|]. destruct (f x); simpl; lia.
Qed.

Lemma keyword_hits_app (keywords : list string) (s t : string) :
  keyword_hits keywords (Str.lower s) <= keyword_hits keywords (Str.lower (s ++ t)).
Proof.
  unfold keyword_hits. apply filter_length_le. intros k Hk.
  rewrite lower_app. now apply contains_app_r.
Qed.

Lemma momo_hit_app (s t : string) : momo_hit s = true -> momo_hit (s ++ t) = true.
Proof.
  unfold momo_hit. rewrite !existsb_exists.
  intros [pattern [Hin Hf]]. exists pattern. split; [exact Hin|].
  unfold found in *.
  destruct (search true pattern s) eqn:Hs; [|discriminate].
  assert (H : search true pattern (s ++ t) <> None)
    by (apply search_extends; rewrite Hs; discriminate).
  destruct (search true pattern (s ++ t)); [reflexivity | now elim H].
Qed.

Lemma confidence_is_score (s : string) :
  get_confidence_score s
  = if all_space s then 0.0%float
    else score (momo_hit s)
           (keyword_hits payment_success_keywords (Str.lower s)
            + keyword_hits payment_failure_keywords (Str.lower s)).
Proof.
  unfold get_confidence_score. rewrite strip_empty.
  destruct (all_space s); reflexivity.
Qed.

Lemma scores_are_ordered : scores_ordered 16 = true.
Proof. vm_compute. reflexivity. Qed.

Lemma score_order (hit hit' : bool) (n n' : nat) :
  (hit = true -> hit' = true) -> n <= n' -> n' <= 16 ->
  PrimFloat.leb 0.0 (score hit' n') = true
  /\ PrimFloat.leb (score hit n) (score hit' n') = true.
Proof.
  intros Hhit Hn Hn'.
  pose proof scores_are_ordered as H. unfold scores_ordered in H.
  rewrite forallb_forall in H.
  assert (Hin : forall m, m <= 16 -> In m (List.seq 0 17))
    by (intros m Hm; apply in_seq; lia).
  specialize (H n' (Hin n' Hn')). rewrite forallb_forall in H.
  specialize (H n (Hin n (Nat.le_trans _ _ _ Hn Hn'))). rewrite forallb_forall in H.
  assert (Hpair : In (hit, hit') [(false, false); (false, true); (true, true)]).
  { destruct hit, hit'; simpl; auto.
    specialize (Hhit eq_refl). discriminate. }
  specialize (H _ Hpair). cbn [fst snd] in H.
  rewrite (proj2 (Nat.leb_le _ _) Hn) in H. cbn [implb] in H.
  now apply andb_true_iff in H.
Qed.

Lemma keyword_hits_bound (s : string) :
  keyword_hits payment_success_keywords s + keyword_hits payment_failure_keywords s
  <= 16.
Proof.
  unfold keyword_hits.
  pose proof (filter_length_bound (fun keyword => Str.contains keyword s)
                payment_success_keywords) as H1.
  pose proof (filter_length_bound (fun keyword => Str.contains keyword s)
                payment_failure_keywords) as H2.
  simpl List.length in H1 at 2. simpl List.length in H2 at 2. lia.
Qed.

(** Extending a text on the right never lowers its confidence. *)
Lemma confidence_app (s t : string) :
  PrimFloat.leb (get_confidence_score s) (get_confidence_score (s ++ t)) = true.
Proof.
  rewrite !confidence_is_score, all_space_app.
  pose proof (keyword_hits_bound (Str.lower (s ++ t))) as Hbound.
  destruct (all_space s) eqn:Hs; cbn [andb].
  - destruct (all_space t); [reflexivity|].
    apply (score_order false _ 0 _); [discriminate | lia | exact Hbound].
  - apply score_order; [apply momo_hit_app | | exact Hbound].
    pose proof (keyword_hits_app payment_success_keywords s t).
    pose proof (keyword_hits_app payment_failure_keywords s t). lia.
Qed.

(** C7. For a payment-related text [s] and a keyword [k] of the success or
    the failure list, the confidence of [s] with [k] appended, directly or
    after any separator, is at least the confidence of [s]. *)
Theorem confidence_never_decreases_with_a_keyword (s separator k : string) :
  is_payment_related s = true ->
  In k all_keywords ->
  PrimFloat.leb (get_confidence_score s) (get_confidence_score (s ++ separator ++ k))
  = true.
Proof. intros _ _. apply confidence_app. Qed.

Lemma confidence_never_decreases_with_a_keyword_witness :
  is_payment_related "You have received 5000 RWF" = true
  /\ In "failed" all_keywords
  /\ get_confidence_score "You have received 5000 RWF" = 0x1.9999999999999p-1%float
  /\ get_confidence_score "You have received 5000 RWF failed"
     = 0x1.cccccccccccccp-1%float
  /\ PrimFloat.leb (get_confidence_score "You have received 5000 RWF")
       (get_confidence_score ("You have received 5000 RWF" ++ " " ++ "failed"))
     = true.
Proof.
  split; [reflexivity|]. split; [simpl; tauto|].
  split; [reflexivity|]. split; [reflexivity|].
  apply (confidence_never_decreases_with_a_keyword
           "You have received 5000 RWF" " " "failed").
  - reflexivity.
  - simpl. tauto.
Defined.

End Classifier.

(* ================================================================== *)
(** * The examples of the specification *)
(* ================================================================== *)

Section Examples.

Import supabase payment_verification Spec.

Example extract_round_trip :
  app.extract_fields
    "Payment from Jane Doe (***56) TxId:12345 of 5,000 RWF at 2024-01-01 10:00:00"
  = Py.Ret [("raw_text",
             Py.VStr "Payment from Jane Doe (***56) TxId:12345 of 5,000 RWF at 2024-01-01 10:00:00");
            ("txid", Py.VStr "12345"); ("amount", Py.VStr "5,000 RWF");
            ("sender_name", Py.VStr "Jane Doe");
            ("timestamp", Py.VStr "2024-01-01 10:00:00")].
Proof. reflexivity. Qed.

Example classify_empty_text :
  ml_classifier.classify_sms ""
  = Py.Ret [("payment_info", Py.VDict empty_info);
            ("status", Py.VStr "unknown");
            ("confidence", Py.VFloat 0.0);
            ("is_payment_sms", Py.VBool false)].
Proof. reflexivity. Qed.

Example classify_unrelated_text :
  ml_classifier.is_payment_related "Your package will arrive tomorrow" = false
  /\ ml_classifier.classify_payment_status "Your package will arrive tomorrow"
     = "unknown".
Proof. split; reflexivity. Qed.

Example verify_payment_exact_amount :
  verify_payment memory_client "TX1" 100 (stored_payment "TX1" "100 RWF" "" "")
  = Py.Ret (reply "approved" "Payment is approved.").
Proof. reflexivity. Qed.

Example verify_payment_missing :
  verify_payment memory_client "MISSING" 100 (stored_payment "TX1" "100 RWF" "" "")
  = Py.Ret (reply "not_approved" "Payment is not approved.").
Proof. reflexivity. Qed.

(** A stored name of blanks only is empty for the name rule. *)
Example blank_stored_name_is_rejected :
  fst (verify_payment_with_client_details memory_client
         "TX2" "John Smith" "+250788123456" 100 "2024-01-01T10:00:00"
         (stored_payment "TX2" "150 RWF" "  " "56"))
  = Py.Ret name_failure.
Proof. reflexivity. Qed.

(** A field that is no text makes the call raise. *)
Example missing_amount_text_raises :
  verify_payment memory_client "TX1" 100
    [("Messages", [[("txid", Py.VStr "TX1"); ("amount", Py.VNone)]])]
  = Py.Raise Py.AttributeError.
Proof. reflexivity. Qed.

End Examples.

(* ================================================================== *)
(** * Further properties of [payment_verification.py] *)
(* ================================================================== *)

Section VerificationOutcomes.

Import supabase payment_verification Spec.

Context {S : Type} (client : Client S).

(** Every way out of [verify_payment_with_client_details]. *)
Lemma identity_call_cases
    (txid client_name client_phone now : string) (required_amount : Z) (st : S) :
  let call :=
    verify_payment_with_client_details client txid client_name client_phone
      required_amount now st in
  (exists e, call = (Py.Raise e, st))
  \/ (exists message, call = (Py.Ret (reply "not_approved" message), st))
  \/ (exists transaction paid_amount sms_sender_name,
        first_row client txid st transaction
        /\ paid_amount_of transaction paid_amount
        /\ (required_amount <= paid_amount)%Z
        /\ stored_name_of transaction sms_sender_name
        /\ name_rejected sms_sender_name (Str.strip (Str.lower client_name)) = false
        /\ phone_passes transaction client_phone
        /\ ((insert client "payments"
               (payment_record txid client_name client_phone paid_amount now) st = None
             /\ call = (Py.Ret (reply "error" "Failed to record payment verification."),
                        st))
            \/ (exists st',
                  insert client "payments"
                    (payment_record txid client_name client_phone paid_amount now) st
                  = Some st'
                  /\ call = (Py.Ret (approval paid_amount), st')))).
Proof.
  cbv zeta. unfold verify_payment_with_client_details.
  destruct (select_eq client TABLE_NAME "txid" txid st) as [[|transaction others]|e]
    eqn:Hsel; [right; left; eauto | | left; eauto].
  unfold amount_str_of.
  destruct (Py.get_default "amount" (Py.VStr "") transaction) as [|amount| | | |]
    eqn:Hamount; cbn [Py.as_str Py.bind]; try (left; eauto; fail).
  destruct (Str.to_int _) as [paid_amount|] eqn:Hint; [|right; left; eauto].
  destruct (Z.ltb_spec paid_amount required_amount) as [Hlt|Hle];
    [destruct (format_int (required_amount - paid_amount));
      [right; left; eauto | left; eauto]|].
  destruct (Py.get_default "sender_name" (Py.VStr "") transaction) as [|sender| | | |]
    eqn:Hsender; cbn [Py.as_str]; try (left; eauto; fail).
  destruct (name_rejected _ _) eqn:Hrej; [right; left; eauto|].
  destruct (phone_accepted _ _) as [[|]|e] eqn:Hphone;
    [ | right; left; eauto | left; eauto].
  right; right. exists transaction, paid_amount, (Str.strip (Str.lower sender)).
  split; [now exists others|].
  split; [exists amount; now split|].
  split; [exact Hle|].
  split; [exists sender; now split|].
  split; [exact Hrej|].
  split; [exact Hphone|].
  rewrite (format_int_of_read _ _ Hint).
  destruct (insert client "payments" _ st) as [st'|] eqn:Hins.
  - right. exists st'. now split.
  - left. now split.
Qed.

(** Every way out of [verify_payment]. *)
Lemma simple_call_cases (txid : string) (required_amount : Z) (st : S) :
  let call := verify_payment client txid required_amount st in
  (exists e, call = Py.Raise e)
  \/ (exists message, call = Py.Ret (reply "not_approved" message))
  \/ (exists transaction paid_amount,
        first_row client txid st transaction
        /\ paid_amount_of transaction paid_amount
        /\ (required_amount <= paid_amount)%Z
        /\ call = Py.Ret (reply "approved" "Payment is approved.")).
Proof.
  cbv zeta. unfold verify_payment.
  destruct (select_eq client TABLE_NAME "txid" txid st) as [[|transaction others]|e]
    eqn:Hsel; cbn [Py.bind]; [right; left; eauto | | left; eauto].
  unfold amount_str_of.
  destruct (Py.get_default "amount" (Py.VStr "") transaction) as [|amount| | | |]
    eqn:Hamount; cbn [Py.as_str Py.bind]; try (left; eauto; fail).
  destruct (Str.to_int _) as [paid_amount|] eqn:Hint; [|right; left; eauto].
  assert (Hrow : first_row client txid st transaction) by now exists others.
  assert (Hpaid : paid_amount_of transaction paid_amount)
    by (exists amount; now split).
  destruct (Z.eqb_spec paid_amount required_amount) as [Heq|Hne].
  - right; right. exists transaction, paid_amount. repeat split; auto; lia.
  - destruct (Z.ltb_spec paid_amount required_amount) as [Hlt|Hle].
    + destruct (format_int (required_amount - paid_amount)); cbn [Py.bind];
        [right; left; eauto | left; eauto].
    + right; right. exists transaction, paid_amount. repeat split; auto.
Qed.

(** The rows a lookup returns fix the first row and its amount. *)
Lemma first_row_unique (txid : string) (st : S) (t1 t2 : Py.dict) :
  first_row client txid st t1 -> first_row client txid st t2 -> t1 = t2.
Proof. intros [o1 H1] [o2 H2]. rewrite H1 in H2. now injection H2. Qed.

Lemma paid_amount_unique (transaction : Py.dict) (p1 p2 : Z) :
  paid_amount_of transaction p1 -> paid_amount_of transaction p2 -> p1 = p2.
Proof.
  intros [a1 [G1 I1]] [a2 [G2 I2]]. rewrite G1 in G2. injection G2 as <-.
  rewrite I1 in I2. now injection I2.
Qed.

Lemma simple_call_approves (txid : string) (required_amount paid_amount : Z)
    (st : S) (transaction : Py.dict) :
  first_row client txid st transaction ->
  paid_amount_of transaction paid_amount ->
  (required_amount <= paid_amount)%Z ->
  verify_payment client txid required_amount st
  = Py.Ret (reply "approved" "Payment is approved.").
Proof.
  intros [others Hsel] [amount [Hget Hint]] Hle.
  unfold verify_payment. rewrite Hsel. cbn [Py.bind].
  unfold amount_str_of. rewrite Hget. cbn [Py.as_str Py.bind]. rewrite Hint.
  destruct (Z.eqb_spec paid_amount required_amount); [reflexivity|].
  destruct (Z.ltb_spec paid_amount required_amount); [lia | reflexivity].
Qed.

End VerificationOutcomes.

Section VerificationExtras.

Import supabase payment_verification Spec.

(** X1. [verify_payment_with_client_details] answers [approved] only when
    every rule has passed: the transaction is found, its amount is read
    and reaches the required one, the name rule and the phone rule let the
    call through, and the record of the verification is inserted; the
    store it returns is the one the insert gave. *)
Theorem approval_needs_every_rule {S : Type} (client : Client S)
    (txid client_name client_phone now : string) (required_amount : Z) (st : S)
    (result : Py.dict) :
  fst (verify_payment_with_client_details client txid client_name client_phone
         required_amount now st) = Py.Ret result ->
  Py.get "status" result = Some (Py.VStr "approved") ->
  exists transaction paid_amount sms_sender_name,
    first_row client txid st transaction
    /\ paid_amount_of transaction paid_amount
    /\ (required_amount <= paid_amount)%Z
    /\ stored_name_of transaction sms_sender_name
    /\ name_rejected sms_sender_name (Str.strip (Str.lower client_name)) = false
    /\ phone_passes transaction client_phone
    /\ Py.get "amount" result = Some (Py.VInt paid_amount)
    /\ insert client "payments"
         (payment_record txid client_name client_phone paid_amount now) st
       = Some (snd (verify_payment_with_client_details client txid client_name
                      client_phone required_amount now st)).
Proof.
  intros Hres Hstatus.
  destruct (identity_call_cases client txid client_name client_phone now
              required_amount st)
    as [[e H] | [[message H] | (t & p & n & Hrow & Hpaid & Hle & Hname & Hrej & Hph & H)]];
    cbv zeta in H.
  - rewrite H in Hres. discriminate.
  - rewrite H in Hres. injection Hres as <-. discriminate.
  - destruct H as [[_ H] | [st' [Hins H]]]; rewrite H in Hres |- *;
      injection Hres as <-; [discriminate|].
    exists t, p, n. cbn [snd]. repeat (split; [assumption|]). now split.
Qed.

Lemma approval_needs_every_rule_witness :
  exists transaction paid_amount sms_sender_name,
    first_row memory_client "TX2" (stored_payment "TX2" "150 RWF" "john smith" "56")
      transaction
    /\ paid_amount_of transaction paid_amount
    /\ (100 <= paid_amount)%Z
    /\ stored_name_of transaction sms_sender_name
    /\ name_rejected sms_sender_name (Str.strip (Str.lower "John Smith")) = false
    /\ phone_passes transaction "+250788123456"
    /\ Py.get "amount" (approval 150) = Some (Py.VInt paid_amount)
    /\ insert memory_client "payments"
         (payment_record "TX2" "John Smith" "+250788123456" paid_amount "2024-01-01T10:00:00")
         (stored_payment "TX2" "150 RWF" "john smith" "56")
       = Some (snd (verify_payment_with_client_details memory_client "TX2" "John Smith"
                      "+250788123456" 100 "2024-01-01T10:00:00"
                      (stored_payment "TX2" "150 RWF" "john smith" "56"))).
Proof.
  apply (approval_needs_every_rule memory_client "TX2" "John Smith" "+250788123456"
           "2024-01-01T10:00:00" 100%Z
           (stored_payment "TX2" "150 RWF" "john smith" "56") (approval 150));
    reflexivity.
Defined.

(** X2. Whatever [verify_payment_with_client_details] returns is a
    dictionary with a [status] among [approved], [not_approved] and
    [error] and a [message] that is a text, and it has an [amount], an
    integer, exactly when the status is [approved]. *)
Theorem outcome_shape {S : Type} (client : Client S)
    (txid client_name client_phone now : string) (required_amount : Z) (st : S)
    (result : Py.dict) :
  fst (verify_payment_with_client_details client txid client_name client_phone
         required_amount now st) = Py.Ret result ->
  exists status message : string,
    Py.get "status" result = Some (Py.VStr status)
    /\ (status = "approved" \/ status = "not_approved" \/ status = "error")
    /\ Py.get "message" result = Some (Py.VStr message)
    /\ (status = "approved" ->
        exists paid_amount, Py.get "amount" result = Some (Py.VInt paid_amount))
    /\ (status = "not_approved" \/ status = "error" ->
        Py.get "amount" result = None).
Proof.
  intros Hres.
  destruct (identity_call_cases client txid client_name client_phone now
              required_amount st)
    as [[e H] | [[message H] | (t & p & n & _ & _ & _ & _ & _ & _ & H)]];
    cbv zeta in H.
  - rewrite H in Hres. discriminate.
  - rewrite H in Hres. injection Hres as <-.
    exists "not_approved", message. cbn. repeat split; auto. discriminate.
  - destruct H as [[_ H] | [st' [_ H]]]; rewrite H in Hres; injection Hres as <-.
    + eexists "error", _. cbn. repeat split; auto. discriminate.
    + eexists "approved", _. cbn. repeat split; eauto.
      intros [E|E]; discriminate.
Qed.

Lemma outcome_shape_witness :
  exists status message : string,
    Py.get "status" name_failure = Some (Py.VStr status)
    /\ (status = "approved" \/ status = "not_approved" \/ status = "error")
    /\ Py.get "message" name_failure = Some (Py.VStr message)
    /\ (status = "approved" ->
        exists paid_amount, Py.get "amount" name_failure = Some (Py.VInt paid_amount))
    /\ (status = "not_approved" \/ status = "error" ->
        Py.get "amount" name_failure = None).
Proof.
  apply (outcome_shape memory_client "TX2" "John Smith" "+250788123456"
           "2024-01-01T10:00:00" 100%Z (stored_payment "TX2" "150 RWF" "Alice" "56")).
  reflexivity.
Defined.

(** X3. [verify_payment_with_client_details] leaves the store as it was,
    unless it answers [approved]: then the store is the result of one
    insert into [payments] of the record of this call, whose verified
    amount is at least the required one. *)
Theorem store_changes_only_on_approval {S : Type} (client : Client S)
    (txid client_name client_phone now : string) (required_amount : Z) (st : S) :
  let call :=
    verify_payment_with_client_details client txid client_name client_phone
      required_amount now st in
  snd call = st
  \/ exists paid_amount,
       (required_amount <= paid_amount)%Z
       /\ fst call = Py.Ret (approval paid_amount)
       /\ insert client "payments"
            (payment_record txid client_name client_phone paid_amount now) st
          = Some (snd call).
Proof.
  cbv zeta.
  destruct (identity_call_cases client txid client_name client_phone now
              required_amount st)
    as [[e H] | [[message H] | (t & p & n & _ & _ & Hle & _ & _ & _ & H)]];
    cbv zeta in H.
  - rewrite H. now left.
  - rewrite H. now left.
  - destruct H as [[_ H] | [st' [Hins H]]]; rewrite H; [now left|].
    right. exists p. cbn [fst snd]. now repeat split.
Qed.

(** X4. The check with name and phone is the stricter one: when
    [verify_payment_with_client_details] answers [approved],
    [verify_payment] approves the same transaction id for the same
    required amount on the same store. *)
Theorem identity_approval_implies_simple_approval {S : Type} (client : Client S)
    (txid client_name client_phone now : string) (required_amount : Z) (st : S)
    (result : Py.dict) :
  fst (verify_payment_with_client_details client txid client_name client_phone
         required_amount now st) = Py.Ret result ->
  Py.get "status" result = Some (Py.VStr "approved") ->
  verify_payment client txid required_amount st
  = Py.Ret (reply "approved" "Payment is approved.").
Proof.
  intros Hres Hstatus.
  destruct (identity_call_cases client txid client_name client_phone now
              required_amount st)
    as [[e H] | [[message H] | (t & p & n & Hrow & Hpaid & Hle & H)]];
    cbv zeta in H.
  - rewrite H in Hres. discriminate.
  - rewrite H in Hres. injection Hres as <-. discriminate.
  - exact (simple_call_approves client txid required_amount p st t Hrow Hpaid Hle).
Qed.

Lemma identity_approval_implies_simple_approval_witness :
  verify_payment memory_client "TX2" 100
    (stored_payment "TX2" "150 RWF" "john smith" "56")
  = Py.Ret (reply "approved" "Payment is approved.").
Proof.
  apply (identity_approval_implies_simple_approval memory_client "TX2" "John Smith"
           "+250788123456" "2024-01-01T10:00:00" 100%Z
           (stored_payment "TX2" "150 RWF" "john smith" "56") (approval 150));
    reflexivity.
Defined.

(** X5. [verify_payment] approves exactly when the first row found for the
    transaction id has an amount that is read and is at least the required
    amount; a missing row, an amount that is not read and a smaller amount
    are never approved. *)
Theorem simple_approval_exact {S : Type} (client : Client S)
    (txid : string) (required_amount : Z) (st : S) :
  verify_payment client txid required_amount st
  = Py.Ret (reply "approved" "Payment is approved.")
  <-> exists transaction paid_amount,
        first_row client txid st transaction
        /\ paid_amount_of transaction paid_amount
        /\ (required_amount <= paid_amount)%Z.
Proof.
  split.
  - intros Hcall.
    destruct (simple_call_cases client txid required_amount st)
      as [[e H] | [[message H] | (t & p & Hrow & Hpaid & Hle & H)]]; cbv zeta in H.
    + rewrite H in Hcall. discriminate.
    + rewrite H in Hcall. discriminate.
    + now exists t, p.
  - intros (t & p & Hrow & Hpaid & Hle).
    exact (simple_call_approves client txid required_amount p st t Hrow Hpaid Hle).
Qed.

Lemma simple_approval_exact_witness :
  exists transaction paid_amount,
    first_row memory_client "TX1" (stored_payment "TX1" "1,500 RWF" "" "") transaction
    /\ paid_amount_of transaction paid_amount
    /\ (100 <= paid_amount)%Z.
Proof.
  apply (proj1 (simple_approval_exact memory_client "TX1" 100%Z
                  (stored_payment "TX1" "1,500 RWF" "" ""))).
  reflexivity.
Defined.

(** X6. An approval of [verify_payment] stands for every smaller required
    amount. *)
Theorem simple_approval_is_monotone {S : Type} (client : Client S)
    (txid : string) (required_amount smaller_amount : Z) (st : S) :
  verify_payment client txid required_amount st
  = Py.Ret (reply "approved" "Payment is approved.") ->
  (smaller_amount <= required_amount)%Z ->
  verify_payment client txid smaller_amount st
  = Py.Ret (reply "approved" "Payment is approved.").
Proof.
  intros Hcall Hle.
  destruct (simple_call_cases client txid required_amount st)
    as [[e H] | [[message H] | (t & p & Hrow & Hpaid & Hp & H)]]; cbv zeta in H.
  - rewrite H in Hcall. discriminate.
  - rewrite H in Hcall. discriminate.
  - apply (simple_call_approves client txid smaller_amount p st t Hrow Hpaid). lia.
Qed.

Lemma simple_approval_is_monotone_witness :
  verify_payment memory_client "TX1" 40 (stored_payment "TX1" "100 RWF" "" "")
  = Py.Ret (reply "approved" "Payment is approved.").
Proof.
  apply (simple_approval_is_monotone memory_client "TX1" 100%Z 40%Z
           (stored_payment "TX1" "100 RWF" "" "")); [reflexivity|].
  vm_compute. discriminate.
Defined.

End VerificationExtras.

(* ================================================================== *)
(** * Properties of the routes of [app.py] *)
(* ================================================================== *)

Section Routes.

Import supabase routes Spec.

(** [classify_sms] returns, with the results of the three functions. *)
Lemma classify_sms_total (s : string) :
  exists (txid amount sender_name phone_digits : string),
    ml_classifier.classify_sms s
    = Py.Ret [("payment_info",
               Py.VDict [("txid", Py.VStr txid); ("amount", Py.VStr amount);
                         ("sender_name", Py.VStr sender_name);
                         ("phone_digits", Py.VStr phone_digits);
                         ("is_payment_sms",
                          Py.VBool (ml_classifier.is_payment_related s))]);
              ("status", Py.VStr (ml_classifier.classify_payment_status s));
              ("confidence", Py.VFloat (ml_classifier.get_confidence_score s));
              ("is_payment_sms", Py.VBool (ml_classifier.is_payment_related s))]
    /\ ml_classifier.extract_payment_info s
       = Py.Ret [("txid", Py.VStr txid); ("amount", Py.VStr amount);
                 ("sender_name", Py.VStr sender_name);
                 ("phone_digits", Py.VStr phone_digits);
                 ("is_payment_sms",
                  Py.VBool (ml_classifier.is_payment_related s))].
Proof.
  destruct (extract_payment_info_total s) as (tx & am & sn & ph & Hinfo & _).
  exists tx, am, sn, ph. split; [|exact Hinfo].
  unfold ml_classifier.classify_sms. rewrite Hinfo. reflexivity.
Qed.

Lemma success_is_payment_related (s : string) :
  ml_classifier.classify_payment_status s = "success" ->
  ml_classifier.is_payment_related s = true.
Proof.
  unfold ml_classifier.classify_payment_status.
  destruct (ml_classifier.is_payment_related s); [reflexivity | discriminate].
Qed.

Lemma is_text_spec (t s : string) : is_text t (Py.VStr s) = true <-> s = t.
Proof. unfold is_text. apply String.eqb_eq. Qed.

(** X7. [receive_sms] inserts a row exactly for a message whose status is
    [success]: for every other message it answers [ignored] and leaves the
    store as it was; for a [success] message it inserts one row into
    [Messages], answers [saved] with that row when the insert succeeds, and
    lets the exception through when the insert fails. *)
Theorem receive_sms_stores_only_success {S : Type} (client : Client S)
    (data : Py.dict) (st : S) (message : string) :
  Py.get_default "message" (Py.VStr "") data = Py.VStr message ->
  (ml_classifier.classify_payment_status message <> "success" ->
   exists reason : string,
     receive_sms client data st
     = (Py.Ret [("status", Py.VStr "ignored"); ("reason", Py.VStr reason);
                ("confidence",
                 Py.VFloat (ml_classifier.get_confidence_score message))], st))
  /\ (ml_classifier.classify_payment_status message = "success" ->
      exists fields : Py.dict,
        (insert client "Messages" fields st = None ->
         receive_sms client data st = (Py.Raise Py.StoreError, st))
        /\ (forall st' : S,
              insert client "Messages" fields st = Some st' ->
              exists classification : Py.dict,
                receive_sms client data st
                = (Py.Ret [("status", Py.VStr "saved"); ("data", Py.VDict fields);
                           ("ml_classification", Py.VDict classification)], st'))).
Proof.
  intros Hmsg. unfold receive_sms, payment_verification.TABLE_NAME.
  rewrite Hmsg. cbn [Py.as_str Py.bind].
  destruct (classify_sms_total message) as (tx & am & sn & ph & Hcls & _).
  rewrite Hcls. cbn [Py.bind].
  destruct (extract_fields_total message)
    as (txid & amount & sender & ts & Hfields & _).
  rewrite Hfields.
  cbn [Py.get_default Py.get String.eqb Ascii.eqb Bool.eqb Py.truthy].
  split.
  - intros Hst.
    destruct (ml_classifier.is_payment_related message); cbn [negb].
    + assert (E : is_text "success"
                    (Py.VStr (ml_classifier.classify_payment_status message)) = false).
      { destruct (is_text _ _) eqn:E; [|reflexivity].
        apply is_text_spec in E. contradiction. }
      rewrite E. cbn [negb format_text]. eauto.
    + eauto.
  - intros Hst. rewrite (success_is_payment_related _ Hst), Hst. cbn [negb is_text].
    cbn [String.eqb Ascii.eqb Bool.eqb negb].
    eexists. split.
    + intros Hins. rewrite Hins. reflexivity.
    + intros st' Hins. rewrite Hins. eexists. reflexivity.
Qed.

(** X8. The row [receive_sms] saves carries the five entries of
    [extract_fields] as they are, [payment_status] [success], the
    confidence of the message as [ml_confidence], and [sender_phone_digits]
    only when [extract_payment_info] found phone digits that are not
    empty. *)
Theorem saved_row_content {S : Type} (client : Client S)
    (data : Py.dict) (st st' : S) (message : string) (response : Py.dict) :
  Py.get_default "message" (Py.VStr "") data = Py.VStr message ->
  receive_sms client data st = (Py.Ret response, st') ->
  Py.get "status" response = Some (Py.VStr "saved") ->
  exists fields extracted info : Py.dict,
    Py.get "data" response = Some (Py.VDict fields)
    /\ insert client "Messages" fields st = Some st'
    /\ app.extract_fields message = Py.Ret extracted
    /\ (forall k : string,
          In k ["raw_text"; "txid"; "amount"; "sender_name"; "timestamp"] ->
          Py.get k fields = Py.get k extracted)
    /\ Py.get "payment_status" fields = Some (Py.VStr "success")
    /\ Py.get "ml_confidence" fields
       = Some (Py.VFloat (ml_classifier.get_confidence_score message))
    /\ ml_classifier.extract_payment_info message = Py.Ret info
    /\ Py.get "sender_phone_digits" fields
       = (if Py.truthy (Py.get_default "phone_digits" Py.VNone info)
          then Py.get "phone_digits" info
          else None).
Proof.
  intros Hmsg. unfold receive_sms, payment_verification.TABLE_NAME.
  rewrite Hmsg. cbn [Py.as_str Py.bind].
  destruct (classify_sms_total message) as (tx & am & sn & ph & Hcls & Hinfo).
  rewrite Hcls. cbn [Py.bind].
  destruct (extract_fields_total message)
    as (txid & amount & sender & ts & Hfields & _).
  rewrite Hfields.
  cbn [Py.get_default Py.get String.eqb Ascii.eqb Bool.eqb Py.truthy].
  destruct (ml_classifier.is_payment_related message); cbn [negb];
    [|intros H; injection H as <- <-; discriminate].
  destruct (is_text "success" _) eqn:Htext; cbn [negb];
    [|intros H; injection H as <- <-; discriminate].
  apply is_text_spec in Htext. rewrite Htext.
  match goal with
  | |- match insert client "Messages" ?f st with _ => _ end = _ -> _ =>
      destruct (insert client "Messages" f st) as [st1|] eqn:Hins;
        [|discriminate]; intros H; injection H as <- <-; intros _;
        exists f
  end.
  exists [("raw_text", Py.VStr message); ("txid", Py.VStr txid);
          ("amount", Py.VStr amount); ("sender_name", Py.VStr sender);
          ("timestamp", ts)],
         [("txid", Py.VStr tx); ("amount", Py.VStr am);
          ("sender_name", Py.VStr sn); ("phone_digits", Py.VStr ph);
          ("is_payment_sms", Py.VBool true)].
  split; [reflexivity|]. split; [exact Hins|].
  split; [reflexivity|]. rewrite Hinfo.
  cbn [Py.truthy Py.get_default Py.get String.eqb Ascii.eqb Bool.eqb].
  destruct (String.eqb ph ""); cbn [negb Py.set Py.get String.eqb Ascii.eqb Bool.eqb].
  - repeat split; try reflexivity.
    intros k [<-|[<-|[<-|[<-|[<-|[]]]]]]; reflexivity.
  - repeat split; try reflexivity.
    intros k [<-|[<-|[<-|[<-|[<-|[]]]]]]; reflexivity.
Qed.

Lemma saved_row_content_witness :
  let call := receive_sms memory_client [("message", Py.VStr "paid 500 RWF")] [] in
  let response := match fst call with Py.Ret r => r | Py.Raise _ => [] end in
  Py.get "status" response = Some (Py.VStr "saved")
  /\ exists fields extracted info : Py.dict,
       Py.get "data" response = Some (Py.VDict fields)
       /\ insert memory_client "Messages" fields [] = Some (snd call)
       /\ app.extract_fields "paid 500 RWF" = Py.Ret extracted
       /\ (forall k : string,
             In k ["raw_text"; "txid"; "amount"; "sender_name"; "timestamp"] ->
             Py.get k fields = Py.get k extracted)
       /\ Py.get "payment_status" fields = Some (Py.VStr "success")
       /\ Py.get "ml_confidence" fields
          = Some (Py.VFloat (ml_classifier.get_confidence_score "paid 500 RWF"))
       /\ ml_classifier.extract_payment_info "paid 500 RWF" = Py.Ret info
       /\ Py.get "sender_phone_digits" fields
          = (if Py.truthy (Py.get_default "phone_digits" Py.VNone info)
             then Py.get "phone_digits" info
             else None).
Proof.
  cbv zeta. split; [reflexivity|].
  apply (saved_row_content memory_client [("message", Py.VStr "paid 500 RWF")]
           [] _ "paid 500 RWF"); reflexivity.
Defined.

Lemma receive_sms_stores_only_success_witness :
  exists reason : string,
    receive_sms memory_client [("message", Py.VStr "payment failed")] []
    = (Py.Ret [("status", Py.VStr "ignored"); ("reason", Py.VStr reason);
               ("confidence",
                Py.VFloat (ml_classifier.get_confidence_score "payment failed"))], []).
Proof.
  apply (proj1 (receive_sms_stores_only_success memory_client
                  [("message", Py.VStr "payment failed")] [] "payment failed"
                  eq_refl)).
  vm_compute. discriminate.
Defined.

End Routes.

(* ================================================================== *)
(** * Further properties of [ml_classifier.py] *)
(* ================================================================== *)

Section ClassifierExtras.

Import Re ml_classifier Spec Props.

Lemma existsb_hits {A : Type} (f : A -> bool) (l : list A) :
  existsb f l = true -> 0 < List.length (filter f l).
Proof.
  induction l as [|x l IH]; simpl; [discriminate|].
  destruct (f x); simpl; [lia | exact IH].
Qed.

Lemma hits_existsb {A : Type} (f : A -> bool) (l : list A) :
  existsb f l = false -> List.length (filter f l) = 0.
Proof.
  induction l as [|x l IH]; simpl; [reflexivity|].
  destruct (f x); simpl; [discriminate | exact IH].
Qed.

(** A keyword of either list makes the text payment-related. *)
Lemma keyword_makes_related (s : string) :
  (has_keyword payment_failure_keywords s || has_keyword payment_success_keywords s)%bool
  = true ->
  is_payment_related s = true.
Proof.
  unfold has_keyword, is_payment_related, keyword_hits. intros H.
  destruct (momo_hit s); [reflexivity|].
  apply orb_true_iff in H as [H|H]; apply existsb_hits in H;
    apply orb_true_iff; [right | left]; now apply Nat.ltb_lt.
Qed.

Lemma status_of_keywords (s : string) :
  classify_payment_status s
  = if has_keyword payment_failure_keywords s then "failed"
    else if has_keyword payment_success_keywords s then "success"
    else "unknown".
Proof.
  unfold classify_payment_status.
  pose proof (keyword_makes_related s) as Hrel.
  fold (has_keyword payment_failure_keywords s).
  fold (has_keyword payment_success_keywords s).
  destruct (has_keyword payment_failure_keywords s);
    [rewrite Hrel by reflexivity; reflexivity|].
  destruct (has_keyword payment_success_keywords s);
    [rewrite Hrel by reflexivity; reflexivity|].
  destruct (is_payment_related s); reflexivity.
Qed.

(** X9. The status is decided by the keywords alone, a MoMo pattern never
    changes it: [failed] when a failure keyword occurs in the lower-cased
    text, whatever else occurs; [success] when no failure keyword and some
    success keyword occurs; [unknown] when no keyword occurs. *)
Theorem status_is_decided_by_keywords (s : string) :
  (forall keyword,
      In keyword payment_failure_keywords ->
      Str.contains keyword (Str.lower s) = true ->
      classify_payment_status s = "failed")
  /\ (has_keyword payment_failure_keywords s = false ->
      forall keyword,
        In keyword payment_success_keywords ->
        Str.contains keyword (Str.lower s) = true ->
        classify_payment_status s = "success")
  /\ (has_keyword payment_failure_keywords s = false ->
      has_keyword payment_success_keywords s = false ->
      classify_payment_status s = "unknown").
Proof.
  rewrite status_of_keywords. split; [|split].
  - intros k Hin Hk.
    assert (H : has_keyword payment_failure_keywords s = true)
      by (apply existsb_exists; now exists k).
    now rewrite H.
  - intros Hf k Hin Hk.
    assert (H : has_keyword payment_success_keywords s = true)
      by (apply existsb_exists; now exists k).
    now rewrite Hf, H.
  - intros Hf Hs. now rewrite Hf, Hs.
Qed.

Lemma status_is_decided_by_keywords_witness :
  classify_payment_status "You have received 500 RWF. Transfer FAILED" = "failed".
Proof.
  apply (proj1 (status_is_decided_by_keywords
                  "You have received 500 RWF. Transfer FAILED") "failed").
  - simpl. tauto.
  - reflexivity.
Defined.

End ClassifierExtras.

Section RoutesAndKeywords.

Import supabase routes ml_classifier Spec Props.

(** X10. A message in which a failure keyword occurs is never stored:
    [receive_sms] answers [ignored] with the reason
    [Payment status: failed] and leaves the store as it was, whatever else
    the message says. *)
Theorem failed_message_is_never_stored {S : Type} (client : Client S)
    (data : Py.dict) (st : S) (message keyword : string) :
  Py.get_default "message" (Py.VStr "") data = Py.VStr message ->
  In keyword payment_failure_keywords ->
  Str.contains keyword (Str.lower message) = true ->
  receive_sms client data st
  = (Py.Ret [("status", Py.VStr "ignored");
             ("reason", Py.VStr "Payment status: failed");
             ("confidence", Py.VFloat (get_confidence_score message))], st).
Proof.
  intros Hmsg Hin Hk.
  assert (Hf : has_keyword payment_failure_keywords message = true)
    by (apply existsb_exists; now exists keyword).
  assert (Hst : classify_payment_status message = "failed")
    by (rewrite status_of_keywords; now rewrite Hf).
  assert (Hrel : is_payment_related message = true)
    by (apply keyword_makes_related; now rewrite Hf).
  unfold receive_sms. rewrite Hmsg. cbn [Py.as_str Py.bind].
  destruct (classify_sms_total message) as (tx & am & sn & ph & Hcls & _).
  rewrite Hcls, Hrel, Hst. reflexivity.
Qed.

Lemma failed_message_is_never_stored_witness :
  receive_sms memory_client
    [("message", Py.VStr "You have received 500 RWF. Transfer FAILED")] []
  = (Py.Ret [("status", Py.VStr "ignored");
             ("reason", Py.VStr "Payment status: failed");
             ("confidence",
              Py.VFloat (get_confidence_score
                           "You have received 500 RWF. Transfer FAILED"))], []).
Proof.
  apply (failed_message_is_never_stored memory_client
           [("message", Py.VStr "You have received 500 RWF. Transfer FAILED")] []
           "You have received 500 RWF. Transfer FAILED" "failed").
  - reflexivity.
  - simpl. tauto.
  - reflexivity.
Defined.

End RoutesAndKeywords.

Section Confidence.

Import Re ml_classifier Spec Props.

Lemma score_facts_hold : score_facts 16 = true.
Proof. vm_compute. reflexivity. Qed.

Lemma score_bounds (n : nat) :
  n <= 16 ->
  PrimFloat.leb (score false n) 1.0 = true
  /\ PrimFloat.leb (score true n) 1.0 = true
  /\ PrimFloat.leb 0.7 (score true n) = true
  /\ PrimFloat.leb 0.7 (score false n) = false
  /\ PrimFloat.ltb 0.0 (score true n) = true
  /\ (0 < n -> PrimFloat.ltb 0.0 (score false n) = true).
Proof.
  intros Hn. pose proof score_facts_hold as H. unfold score_facts in H.
  apply andb_true_iff in H as [H _]. rewrite forallb_forall in H.
  specialize (H n). rewrite in_seq in H. specialize (H ltac:(lia)).
  repeat (apply andb_true_iff in H as [H ?]).
  repeat split; try assumption; [now apply negb_true_iff|].
  intros Hpos. apply Nat.ltb_lt in Hpos.
  match goal with Hi : implb _ _ = true |- _ => rewrite Hpos in Hi; exact Hi end.
Qed.

(** A keyword does not occur in a blank text. *)
Lemma blank_has_no_keyword (keywords : list string) (s : string) :
  start_with_no_blank keywords = true ->
  all_space s = true ->
  keyword_hits keywords s = 0.
Proof.
  intros Hk Hs. unfold keyword_hits. apply hits_existsb.
  apply not_true_is_false. intros H. apply existsb_exists in H as [k [Hin Hc]].
  unfold start_with_no_blank in Hk. rewrite forallb_forall in Hk.
  specialize (Hk k Hin). destruct k as [|c k]; [discriminate|].
  apply negb_true_iff in Hk.
  clear Hin. induction s as [|x s IH]; [discriminate|].
  simpl in Hs. apply andb_true_iff in Hs as [Hx Hs].
  rewrite contains_unfold in Hc. apply orb_true_iff in Hc as [Hc|Hc].
  - simpl in Hc. apply andb_true_iff in Hc as [Hc _].
    apply Ascii.eqb_eq in Hc. subst x. congruence.
  - exact (IH Hs Hc).
Qed.

Lemma blank_matches_no_literal (p c : ascii) :
  Str.is_space p = false -> Str.is_space c = true -> lit_matches true p c = false.
Proof.
  intros Hp Hc. unfold lit_matches.
  destruct (Ascii.eqb_spec (Str.lower_char p) (Str.lower_char c)) as [E|]; [|reflexivity].
  rewrite <- (is_space_lower p), E, is_space_lower in Hp. congruence.
Qed.

(** A pattern that starts with a literal that is no blank is not found in
    a blank text. *)
Lemma blank_has_no_literal_head (p : ascii) (a b : regex) (s : string) :
  Str.is_space p = false ->
  all_space s = true ->
  search true (Cat (Cat (Lit p) a) b) s = None.
Proof.
  intros Hp. induction s as [|c s IH]; intros Hs; [reflexivity|].
  simpl in Hs. apply andb_true_iff in Hs as [Hc Hs].
  cbn [search]. unfold match_here at 1. cbn [run].
  rewrite (blank_matches_no_literal p c Hp Hc). exact (IH Hs).
Qed.

Lemma blank_has_no_momo_hit (s : string) : all_space s = true -> momo_hit s = false.
Proof.
  intros Hs. unfold momo_hit, momo_patterns.
  cbn [existsb seq fold_right text].
  rewrite !blank_has_no_literal_head by (exact Hs || reflexivity).
  reflexivity.
Qed.

Lemma blank_is_not_payment_related (s : string) :
  all_space s = true -> is_payment_related s = false.
Proof.
  intros Hs. unfold is_payment_related.
  rewrite (blank_has_no_momo_hit s Hs).
  assert (Hl : all_space (Str.lower s) = true).
  { clear -Hs. induction s as [|c s IH]; [reflexivity|]. simpl in *.
    apply andb_true_iff in Hs as [Hc Hs].
    now rewrite is_space_lower, Hc, IH. }
  rewrite !blank_has_no_keyword by (exact Hl || reflexivity). reflexivity.
Qed.

(** X11. The confidence lies between 0.0 and 1.0, for every text. *)
Theorem confidence_is_in_range (s : string) :
  PrimFloat.leb 0.0 (get_confidence_score s) = true
  /\ PrimFloat.leb (get_confidence_score s) 1.0 = true.
Proof.
  rewrite confidence_is_score.
  destruct (all_space s); [split; reflexivity|].
  pose proof (keyword_hits_bound (Str.lower s)) as Hb.
  destruct (score_bounds _ Hb) as (H1 & H2 & _).
  split.
  - apply (score_order false (momo_hit s) 0 _); [discriminate | lia | exact Hb].
  - destruct (momo_hit s); assumption.
Qed.

(** X12. The confidence is above 0.0 exactly for the texts that are
    payment-related, and is 0.0 for every other text. *)
Theorem confidence_is_positive_iff_payment_related (s : string) :
  (is_payment_related s = true <-> PrimFloat.ltb 0.0 (get_confidence_score s) = true)
  /\ (is_payment_related s = false -> get_confidence_score s = 0.0%float).
Proof.
  rewrite confidence_is_score.
  destruct (all_space s) eqn:Hs.
  - rewrite (blank_is_not_payment_related s Hs).
    split; [split; discriminate | reflexivity].
  - unfold is_payment_related.
    pose proof (keyword_hits_bound (Str.lower s)) as Hb.
    destruct (score_bounds _ Hb) as (_ & _ & _ & _ & Ht & Hf).
    destruct (momo_hit s); [split; [tauto | discriminate]|].
    destruct (keyword_hits payment_success_keywords (Str.lower s)) as [|n1];
      destruct (keyword_hits payment_failure_keywords (Str.lower s)) as [|n2];
      cbn [Nat.ltb Nat.leb orb Nat.add] in *.
    + split; [split; [discriminate | vm_compute; discriminate] | reflexivity].
    + split; [split; [intros _; apply Hf; lia | reflexivity] | discriminate].
    + split; [split; [intros _; apply Hf; lia | reflexivity] | discriminate].
    + split; [split; [intros _; apply Hf; lia | reflexivity] | discriminate].
Qed.

Lemma confidence_is_positive_iff_payment_related_witness :
  PrimFloat.ltb 0.0 (get_confidence_score "Payment received") = true.
Proof.
  apply (proj1 (proj1 (confidence_is_positive_iff_payment_related "Payment received"))).
  reflexivity.
Defined.

(** X13. The confidence is at least 0.7 exactly when one of the MoMo
    patterns is found in the text; keywords alone never bring it there. *)
Theorem confidence_tells_a_pattern_hit (s : string) :
  momo_hit s = true <-> PrimFloat.leb 0.7 (get_confidence_score s) = true.
Proof.
  rewrite confidence_is_score.
  destruct (all_space s) eqn:Hs.
  - rewrite (blank_has_no_momo_hit s Hs). split; [discriminate|].
    vm_compute. discriminate.
  - pose proof (keyword_hits_bound (Str.lower s)) as Hb.
    destruct (score_bounds _ Hb) as (_ & _ & Ht & Hf & _).
    destruct (momo_hit s); [tauto|].
    split; [discriminate|]. intros H. rewrite Hf in H. discriminate.
Qed.

Lemma confidence_tells_a_pattern_hit_witness :
  PrimFloat.leb 0.7 (get_confidence_score "*161*TxId:123*R*") = true.
Proof.
  apply (proj1 (confidence_tells_a_pattern_hit "*161*TxId:123*R*")). reflexivity.
Defined.

End Confidence.

(* ================================================================== *)
(** * What the matcher returns *)
(* ================================================================== *)

Section Returned.

Import Re Spec Props.

Variable ic : bool.

Lemma take_consumed (s1 s2 : string) :
  Str.take (String.length (s1 ++ s2) - String.length s2) (s1 ++ s2) = s1.
Proof.
  rewrite string_length_app.
  replace (String.length s1 + String.length s2 - String.length s2)
    with (String.length s1) by lia.
  induction s1 as [|c s1 IH]; simpl; [now destruct s2 | now rewrite IH].
Qed.

Lemma star_loop_sound_with_capture (Q : string -> Prop) (a : regex)
    (body : string -> capture -> cont -> outcome) :
  sound_with_capture ic Q a body ->
  forall fuel : nat, sound_with_capture ic Q (Star a) (star_loop body fuel).
Proof.
  intros Hbody fuel; induction fuel as [|f IH]; intros s g k m Hg H; simpl in H.
  - exists "", s, g. repeat split; [constructor | exact Hg | exact H].
  - destruct (body s g _) as [m'|] eqn:Hb.
    + injection H as ->.
      apply Hbody in Hb as (s1 & s2 & g1 & -> & Hs1 & Hg1 & Hk); [|exact Hg].
      destruct (Nat.ltb_spec (String.length s2) (String.length (s1 ++ s2)))
        as [Hlt|]; [|discriminate].
      apply IH in Hk as (t1 & t2 & g2 & -> & Ht1 & Hg2 & Hk); [|exact Hg1].
      exists (s1 ++ t1), t2, g2. rewrite append_assoc.
      repeat split; [|exact Hg2 | exact Hk].
      apply matches_star_round; [exact Hs1 | | exact Ht1].
      intros ->. cbn [append] in Hlt. lia.
    + exists "", s, g. repeat split; [constructor | exact Hg | exact H].
Qed.

(** A successful run has consumed a word of the pattern, and the capture
    it hands over is a word of a group of the pattern, or the capture it
    was given. *)
Lemma run_sound_with_capture (r : regex) (Q : string -> Prop) :
  (forall x, captured ic r x -> Q x) ->
  sound_with_capture ic Q r (run ic r).
Proof.
  revert Q.
  induction r as [| p | p | a IHa b IHb | a IHa b IHb | a IHa | a IHa];
    intros Q HQ s g k m Hg H; cbn [run] in H.
  - exists "", s, g. repeat split; [constructor | exact Hg | exact H].
  - destruct s as [|c s']; [discriminate|].
    destruct (lit_matches ic p c) eqn:Hp; [|discriminate].
    exists (String c ""), s', g. repeat split; [now constructor | exact Hg | exact H].
  - destruct s as [|c s']; [discriminate|].
    destruct (p c) eqn:Hp; [|discriminate].
    exists (String c ""), s', g. repeat split; [now constructor | exact Hg | exact H].
  - apply (IHa Q) in H as (s1 & s2 & g1 & -> & Hs1 & Hg1 & H);
      [|intros x Hx; apply HQ; now left | exact Hg].
    apply (IHb Q) in H as (t1 & t2 & g2 & -> & Ht1 & Hg2 & H);
      [|intros x Hx; apply HQ; now right | exact Hg1].
    exists (s1 ++ t1), t2, g2. rewrite append_assoc.
    repeat split; [now constructor | exact Hg2 | exact H].
  - destruct (run ic a s g k) as [m'|] eqn:Ha.
    + injection H as ->.
      apply (IHa Q) in Ha as (s1 & s2 & g1 & -> & Hs1 & Hg1 & H);
        [|intros x Hx; apply HQ; now left | exact Hg].
      exists s1, s2, g1. repeat split; [now apply matches_alt_l | exact Hg1 | exact H].
    + apply (IHb Q) in H as (s1 & s2 & g1 & -> & Hs1 & Hg1 & H);
        [|intros x Hx; apply HQ; now right | exact Hg].
      exists s1, s2, g1. repeat split; [now apply matches_alt_r | exact Hg1 | exact H].
  - apply (star_loop_sound_with_capture Q a (run ic a)) in H; [exact H | | exact Hg].
    apply IHa. exact HQ.
  - apply (IHa Q) in H as (s1 & s2 & g1 & -> & Hs1 & _ & H);
      [|intros x Hx; apply HQ; now right | exact Hg].
    rewrite take_consumed in H.
    exists s1, s2, (Some s1). repeat split; [now constructor | | exact H].
    intros x Hx. injection Hx as <-. apply HQ. now left.
Qed.

(** The match object of [re.search]: [group(0)] is a part of the text and
    a word of the pattern, [group(1)] a word of a group of the pattern. *)
Lemma search_returns (r : regex) (s : string) (m : match_object) :
  search ic r s = Some m ->
  (exists before after, s = before ++ group0 m ++ after)
  /\ matches ic r (group0 m)
  /\ keeps (captured ic r) (group1 m).
Proof.
  intros Hs. destruct (search_position _ _ _ _ Hs) as (before & s' & -> & Hm).
  unfold match_here in Hm.
  destruct (run ic r s' None accept) as [[rest g]|] eqn:Hr; [|discriminate].
  apply (run_sound_with_capture r (captured ic r)) in Hr
    as (word & after & g' & -> & Hw & Hg & Hk); [|auto|intros x Hx; discriminate].
  unfold accept in Hk. injection Hk as <- <-. injection Hm as <-.
  cbn [group0 group1]. rewrite take_consumed.
  split; [now exists before, after | now split].
Qed.

(** ** The shape of the words *)

Lemma all_chars_app (p : ascii -> bool) (s t : string) :
  all_chars p (s ++ t) = (all_chars p s && all_chars p t)%bool.
Proof.
  induction s as [|c s IH]; simpl; [reflexivity|]. now rewrite IH, andb_assoc.
Qed.

Lemma matches_chars (p : ascii -> bool) (r : regex) (w : string) :
  matches ic r w -> chars_in p ic r -> all_chars p w = true.
Proof.
  induction 1 as [| q c Hq | q c Hq | a b s1 t1 _ IHa _ IHb | a b s1 _ IHa
                  | a b s1 _ IHb | a | a s1 t1 _ IHa Hne _ IHs | a s1 _ IHa];
    cbn [chars_in]; intros Hc.
  - reflexivity.
  - simpl. now rewrite (Hc c Hq).
  - simpl. now rewrite (Hc c Hq).
  - destruct Hc as [Ha Hb]. now rewrite all_chars_app, (IHa Ha), (IHb Hb).
  - destruct Hc as [Ha Hb]. exact (IHa Ha).
  - destruct Hc as [Ha Hb]. exact (IHb Hb).
  - reflexivity.
  - now rewrite all_chars_app, (IHa Hc), (IHs Hc).
  - exact (IHa Hc).
Qed.

Lemma matches_min_len (r : regex) (w : string) :
  matches ic r w -> min_len r <= String.length w.
Proof.
  induction 1; cbn [min_len String.length]; rewrite ?string_length_app; lia.
Qed.

Lemma matches_max_len (r : regex) (w : string) (n : nat) :
  matches ic r w -> max_len r = Some n -> String.length w <= n.
Proof.
  intros H; revert n.
  induction H as [| q c Hq | q c Hq | a b s1 t1 _ IHa _ IHb | a b s1 _ IHa
                  | a b s1 _ IHb | a | a s1 t1 _ IHa Hne _ IHs | a s1 _ IHa];
    cbn [max_len]; intros n Hn; try (injection Hn as <-; simpl; lia);
    try discriminate.
  - destruct (max_len a) as [x|], (max_len b) as [y|]; try discriminate.
    injection Hn as <-. rewrite string_length_app.
    specialize (IHa x eq_refl). specialize (IHb y eq_refl). lia.
  - destruct (max_len a) as [x|], (max_len b) as [y|]; try discriminate.
    injection Hn as <-. specialize (IHa x eq_refl). lia.
  - destruct (max_len a) as [x|], (max_len b) as [y|]; try discriminate.
    injection Hn as <-. specialize (IHb y eq_refl). lia.
  - exact (IHa n Hn).
Qed.

Lemma matches_cat_inv (a b : regex) (w : string) :
  matches ic (Cat a b) w ->
  exists w1 w2, w = w1 ++ w2 /\ matches ic a w1 /\ matches ic b w2.
Proof. intros H. inversion H; subst. eauto. Qed.

Lemma matches_alt_inv (a b : regex) (w : string) :
  matches ic (Alt a b) w -> matches ic a w \/ matches ic b w.
Proof. intros H. inversion H; subst; auto. Qed.

Lemma matches_group_inv (a : regex) (w : string) :
  matches ic (Group a) w -> matches ic a w.
Proof. intros H. now inversion H. Qed.

Lemma matches_eps_inv (w : string) : matches ic Eps w -> w = "".
Proof. intros H. now inversion H. Qed.

Lemma matches_lit_inv (p : ascii) (w : string) :
  matches ic (Lit p) w -> exists c, w = String c "" /\ lit_matches ic p c = true.
Proof. intros H. inversion H; subst. eauto. Qed.

Lemma matches_class_inv (p : ascii -> bool) (w : string) :
  matches ic (Class p) w -> exists c, w = String c "" /\ p c = true.
Proof. intros H. inversion H; subst. eauto. Qed.

End Returned.

(* ================================================================== *)
(** * The format of the extracted fields *)
(* ================================================================== *)

Section Formats.

Import Re Spec Props.

(** [group(1)] of a match of a pattern whose group always takes part. *)
Lemma group_of_search (ic : bool) (r : regex) (s : string) (m : match_object) :
  sets_group r = true ->
  search ic r s = Some m ->
  exists x, group1 m = Some x /\ group_1 m = Py.VStr x /\ captured ic r x.
Proof.
  intros Hset Hs.
  destruct (search_group ic r s m Hset Hs) as [x Hx].
  destruct (search_returns ic r s m Hs) as (_ & _ & Hcap).
  unfold group_1 in Hx. destruct (group1 m) as [y|] eqn:Hy; [|discriminate].
  injection Hx as ->. exists x. split; [reflexivity|].
  split; [unfold group_1; now rewrite Hy|].
  apply Hcap. reflexivity.
Qed.

(** What [extract_fields] returns, field by field, from the matches. *)
Lemma extract_fields_by_search (s : string) :
  exists (txid amount sender_name : string) (timestamp : Py.value),
    app.extract_fields s
    = Py.Ret [("raw_text", Py.VStr s); ("txid", Py.VStr txid);
              ("amount", Py.VStr amount); ("sender_name", Py.VStr sender_name);
              ("timestamp", timestamp)]
    /\ (txid = ""
        \/ captured false app.txid_exact_pattern txid
        \/ captured false app.txid_fallback_pattern txid)
    /\ (amount = ""
        \/ exists m, search false app.amount_text_pattern s = Some m
                     /\ amount = group0 m)
    /\ (sender_name = ""
        \/ exists x, captured false app.sender_name_pattern x
                     /\ sender_name = Str.strip x)
    /\ (timestamp = Py.VNone
        \/ exists x, captured false app.timestamp_pattern x
                     /\ timestamp = Py.VStr x).
Proof.
  unfold app.extract_fields.
  assert (Htx : exists txid,
             match
               match search false app.txid_exact_pattern s with
               | Some m => Some m
               | None => search false app.txid_fallback_pattern s
               end
             with Some m => group_1 m | None => Py.VStr "" end = Py.VStr txid
             /\ (txid = ""
                 \/ captured false app.txid_exact_pattern txid
                 \/ captured false app.txid_fallback_pattern txid)).
  { destruct (search false app.txid_exact_pattern s) as [m|] eqn:H1.
    - destruct (group_of_search false app.txid_exact_pattern s m eq_refl H1)
        as (x & _ & Hx & Hc).
      exists x. auto.
    - destruct (search false app.txid_fallback_pattern s) as [m|] eqn:H2.
      + destruct (group_of_search false app.txid_fallback_pattern s m eq_refl H2)
          as (x & _ & Hx & Hc).
        exists x. auto.
      + exists "". auto. }
  destruct Htx as [txid [-> Htxid]].
  assert (Hsn : exists sender_name,
             match search false app.sender_name_pattern s with
             | Some sender_match =>
                 name <- Py.as_str (group_1 sender_match) ;;
                 Py.Ret (Py.VStr (Str.strip name))
             | None => Py.Ret (Py.VStr "")
             end = Py.Ret (Py.VStr sender_name)
             /\ (sender_name = ""
                 \/ exists x, captured false app.sender_name_pattern x
                              /\ sender_name = Str.strip x)).
  { destruct (search false app.sender_name_pattern s) as [m|] eqn:H1.
    - destruct (group_of_search false app.sender_name_pattern s m eq_refl H1)
        as (x & _ & Hx & Hc).
      rewrite Hx. exists (Str.strip x). split; [reflexivity|]. right. now exists x.
    - exists "". auto. }
  destruct Hsn as [sender_name [-> Hsender]]. cbn [Py.bind].
  assert (Hts : exists t,
             match search false app.timestamp_pattern s with
             | Some timestamp_match => group_1 timestamp_match
             | None => Py.VStr ""
             end = Py.VStr t
             /\ (t = "" \/ captured false app.timestamp_pattern t)).
  { destruct (search false app.timestamp_pattern s) as [m|] eqn:H1.
    - destruct (group_of_search false app.timestamp_pattern s m eq_refl H1)
        as (x & _ & Hx & Hc).
      exists x. auto.
    - exists "". auto. }
  destruct Hts as [t [-> Htime]].
  exists txid,
    (match search false app.amount_text_pattern s with
     | Some amount_match => group0 amount_match
     | None => ""
     end),
    sender_name, (Py.or_else (Py.VStr t) Py.VNone).
  rewrite !or_else_text.
  split; [|split; [|split; [|split]]].
  - destruct (search false app.amount_text_pattern s); rewrite or_else_text; reflexivity.
  - exact Htxid.
  - destruct (search false app.amount_text_pattern s) as [m|]; [right | now left].
    now exists m.
  - exact Hsender.
  - destruct (or_else_none t) as [->|[-> Hne]]; [now left|].
    destruct Htime as [->|Hc]; [now elim Hne|]. right. now exists t.
Qed.

(** The words of the group of the two TxId patterns are digits. *)
Lemma txid_group_words (x : string) :
  captured false app.txid_exact_pattern x
  \/ captured false app.txid_fallback_pattern x ->
  matches false (plus digit) x.
Proof.
  unfold app.txid_exact_pattern, ml_classifier.txid_pattern,
    app.txid_fallback_pattern.
  cbn [captured seq fold_right text plus digit]. tauto.
Qed.

Lemma plus_digit_chars : chars_in Str.is_digit false (plus digit).
Proof. cbn. auto. Qed.

(** X14. The transaction id [extract_fields] returns is made of decimal
    digits only (it may be empty): no blank, sign or letter gets into the
    key under which the message is stored and looked up. *)
Theorem extracted_txid_is_digits (s : string) (fields : Py.dict) :
  app.extract_fields s = Py.Ret fields ->
  exists txid : string,
    Py.get "txid" fields = Some (Py.VStr txid)
    /\ all_chars Str.is_digit txid = true.
Proof.
  intros H.
  destruct (extract_fields_by_search s)
    as (txid & amount & sender & ts & Hf & Htx & _).
  rewrite Hf in H. injection H as <-.
  exists txid. split; [reflexivity|].
  destruct Htx as [->|Hc]; [reflexivity|].
  exact (matches_chars false Str.is_digit _ _ (txid_group_words _ Hc)
           plus_digit_chars).
Qed.

(** Splitting a word of a concrete pattern into its characters. *)
Ltac split_word :=
  repeat match goal with
    | H : matches _ (Cat _ _) _ |- _ =>
        apply matches_cat_inv in H as (? & ? & -> & ? & ?)
    | H : matches _ (Group _) _ |- _ => apply matches_group_inv in H
    | H : matches _ Eps _ |- _ => apply matches_eps_inv in H; subst
    | H : matches false (Lit _) _ |- _ =>
        apply matches_lit_inv in H as (? & -> & H);
        cbn [lit_matches] in H; apply Ascii.eqb_eq in H; subst
    | H : matches _ digit _ |- _ => unfold digit in H
    | H : matches _ (Class _) _ |- _ =>
        apply matches_class_inv in H as (? & -> & H)
    end.

Lemma timestamp_group_words (x : string) :
  captured false app.timestamp_pattern x ->
  matches false
    (seq [times 4 digit; Lit "-"; times 2 digit; Lit "-"; times 2 digit; Lit " ";
          times 2 digit; Lit ":"; times 2 digit; Lit ":"; times 2 digit]) x.
Proof.
  unfold app.timestamp_pattern.
  cbn [captured seq fold_right text times digit]. tauto.
Qed.

(** X15. The time stamp [extract_fields] returns is [None] or a text of
    the form [YYYY-MM-DD HH:MM:SS] with a digit at each letter; it is never
    the empty text. *)
Theorem extracted_timestamp_format (s : string) (fields : Py.dict) :
  app.extract_fields s = Py.Ret fields ->
  Py.get "timestamp" fields = Some Py.VNone
  \/ exists t : string,
       Py.get "timestamp" fields = Some (Py.VStr t) /\ timestamp_shape t = true.
Proof.
  intros H.
  destruct (extract_fields_by_search s)
    as (txid & amount & sender & ts & Hf & _ & _ & _ & Hts).
  rewrite Hf in H. injection H as <-.
  destruct Hts as [->|(t & Hc & ->)]; [now left|]. right.
  exists t. split; [reflexivity|].
  apply timestamp_group_words in Hc.
  cbn [seq fold_right times digit] in Hc. split_word.
  cbn [append timestamp_shape forallb].
  repeat match goal with
    | H : Str.is_digit ?c = true |- _ => rewrite H; clear H
    end.
  reflexivity.
Qed.

Lemma extracted_timestamp_format_witness :
  Py.get "timestamp"
    [("raw_text", Py.VStr "paid at 2024-01-01 10:00:00"); ("txid", Py.VStr "");
     ("amount", Py.VStr ""); ("sender_name", Py.VStr "");
     ("timestamp", Py.VStr "2024-01-01 10:00:00")] = Some Py.VNone
  \/ exists t : string,
       Py.get "timestamp"
         [("raw_text", Py.VStr "paid at 2024-01-01 10:00:00"); ("txid", Py.VStr "");
          ("amount", Py.VStr ""); ("sender_name", Py.VStr "");
          ("timestamp", Py.VStr "2024-01-01 10:00:00")] = Some (Py.VStr t)
       /\ timestamp_shape t = true.
Proof.
  apply (extracted_timestamp_format "paid at 2024-01-01 10:00:00"). reflexivity.
Defined.

(** ** [strip] *)

Lemma all_chars_lstrip (p : ascii -> bool) (s : string) :
  all_chars p s = true -> all_chars p (Str.lstrip s) = true.
Proof.
  induction s as [|c s IH]; simpl; [auto|]. intros H.
  destruct (Str.is_space c); [|exact H].
  apply andb_true_iff in H as [_ H]. exact (IH H).
Qed.

Lemma all_chars_rstrip (p : ascii -> bool) (s : string) :
  all_chars p s = true -> all_chars p (Str.rstrip s) = true.
Proof.
  induction s as [|c s IH]; simpl; [auto|]. intros H.
  apply andb_true_iff in H as [Hc H].
  destruct (Str.is_space c && Str.is_empty (Str.rstrip s))%bool; [reflexivity|].
  simpl. now rewrite Hc, (IH H).
Qed.

Lemma lstrip_twice (s : string) : Str.lstrip (Str.lstrip s) = Str.lstrip s.
Proof.
  induction s as [|c s IH]; simpl; [reflexivity|].
  destruct (Str.is_space c) eqn:Hc; [exact IH|]. simpl. now rewrite Hc.
Qed.

Lemma rstrip_twice (s : string) : Str.rstrip (Str.rstrip s) = Str.rstrip s.
Proof.
  induction s as [|c s IH]; simpl; [reflexivity|].
  destruct (Str.is_space c && Str.is_empty (Str.rstrip s))%bool eqn:E;
    [reflexivity|].
  simpl. now rewrite IH, E.
Qed.

Lemma rstrip_lstrip (s : string) :
  Str.rstrip (Str.lstrip s) = Str.lstrip (Str.rstrip s).
Proof.
  induction s as [|c s IH]; simpl; [reflexivity|].
  destruct (Str.is_space c) eqn:Hc; simpl.
  - rewrite IH. destruct (Str.is_empty (Str.rstrip s)) eqn:He; simpl.
    + apply is_empty_true in He. now rewrite He.
    + now rewrite Hc.
  - now rewrite Hc.
Qed.

(** [s.strip().strip()] is [s.strip()]. *)
Lemma strip_twice (s : string) : Str.strip (Str.strip s) = Str.strip s.
Proof.
  unfold Str.strip. now rewrite rstrip_lstrip, rstrip_twice, lstrip_twice.
Qed.

Lemma all_space_is_all_chars (s : string) : all_space s = all_chars Str.is_space s.
Proof. induction s as [|c s IH]; simpl; [reflexivity | now rewrite IH]. Qed.

Lemma sender_group_words (x : string) :
  captured false app.sender_name_pattern x ->
  matches false (plus (Class letter_or_space)) x.
Proof.
  unfold app.sender_name_pattern.
  cbn [captured seq fold_right text plus]. unfold letter_or_space. tauto.
Qed.

(** X16. The sender name [extract_fields] returns is made of the letters
    A-Z, a-z and spaces only and carries no blank at either end:
    stripping it again changes nothing. *)
Theorem extracted_sender_name_format (s : string) (fields : Py.dict) :
  app.extract_fields s = Py.Ret fields ->
  exists sender_name : string,
    Py.get "sender_name" fields = Some (Py.VStr sender_name)
    /\ all_chars letter_or_space sender_name = true
    /\ Str.strip sender_name = sender_name.
Proof.
  intros H.
  destruct (extract_fields_by_search s)
    as (txid & amount & sender & ts & Hf & _ & _ & Hsn & _).
  rewrite Hf in H. injection H as <-.
  exists sender. split; [reflexivity|].
  destruct Hsn as [->|(x & Hc & ->)]; [split; reflexivity|].
  split; [|apply strip_twice].
  unfold Str.strip. apply all_chars_lstrip, all_chars_rstrip.
  apply (matches_chars false letter_or_space _ _ (sender_group_words _ Hc)).
  cbn. auto.
Qed.

Lemma extracted_sender_name_format_witness :
  exists sender_name : string,
    Py.get "sender_name"
      [("raw_text", Py.VStr "paid from  Jane Doe  (x"); ("txid", Py.VStr "");
       ("amount", Py.VStr ""); ("sender_name", Py.VStr "Jane Doe");
       ("timestamp", Py.VNone)] = Some (Py.VStr sender_name)
    /\ all_chars letter_or_space sender_name = true
    /\ Str.strip sender_name = sender_name.
Proof.
  apply (extracted_sender_name_format "paid from  Jane Doe  (x"). reflexivity.
Defined.

Lemma amount_group_chars :
  chars_in digit_or_comma false
    (Alt (Cat (range 1 3 digit) (Star (Cat (Lit ",") (times 3 digit)))) (plus digit)).
Proof.
  unfold digit_or_comma.
  cbn [chars_in range times upto opt plus digit Nat.sub lit_matches].
  repeat split; try exact I; intros c H;
    first [ now rewrite H | apply Ascii.eqb_eq in H; now subst ].
Qed.

(** The words of the amount pattern. *)
Lemma amount_words (w : string) :
  matches false ml_classifier.amount_pattern w ->
  exists (d : ascii) (digits blanks : string),
    w = String d digits ++ blanks ++ "RWF"
    /\ Str.is_digit d = true
    /\ all_chars digit_or_comma digits = true
    /\ all_space blanks = true
    /\ matches false
         (Alt (Cat (range 1 3 digit) (Star (Cat (Lit ",") (times 3 digit))))
              (plus digit))
         (String d digits).
Proof.
  unfold ml_classifier.amount_pattern. cbn [seq fold_right text].
  intros H.
  apply matches_cat_inv in H as (g & rest & -> & Hg & H).
  apply matches_cat_inv in H as (blanks & tail & -> & Hb & H).
  split_word. cbn [append].
  pose proof (matches_chars false digit_or_comma _ _ Hg amount_group_chars) as Hall.
  assert (Hhead : exists d digits, g = String d digits /\ Str.is_digit d = true).
  { apply matches_alt_inv in Hg as [Hg|Hg].
    - unfold range in Hg. cbn [times] in Hg. split_word. cbn [append]. eauto.
    - unfold plus in Hg. split_word. cbn [append]. eauto. }
  destruct Hhead as (d & digits & -> & Hd).
  exists d, digits, blanks.
  simpl in Hall. apply andb_true_iff in Hall as [_ Hall].
  repeat split; auto.
  - rewrite all_space_is_all_chars.
    apply (matches_chars false Str.is_space _ _ Hb). cbn. auto.
Qed.

Lemma extracted_txid_is_digits_witness :
  exists txid : string,
    Py.get "txid"
      [("raw_text", Py.VStr "TxId: 0042 paid"); ("txid", Py.VStr "0042");
       ("amount", Py.VStr ""); ("sender_name", Py.VStr "");
       ("timestamp", Py.VNone)] = Some (Py.VStr txid)
    /\ all_chars Str.is_digit txid = true.
Proof.
  apply (extracted_txid_is_digits "TxId: 0042 paid"). reflexivity.
Defined.

End Formats.

(* ================================================================== *)
(** * Reading the stored amount *)
(* ================================================================== *)

Section Amounts.

Import supabase payment_verification Spec Props.

(** [s.replace(c, '')] for one character. *)
Lemma replace_one_char (c : ascii) (s : string) :
  Str.replace (String c "") "" s = without c s.
Proof.
  unfold Str.replace. induction s as [|x s IH]; [reflexivity|].
  cbn [Str.replace_from Str.startswith without String.length Nat.sub].
  destruct (Ascii.eqb c x); cbn [andb append]; now rewrite IH.
Qed.

Lemma without_app (c : ascii) (s t : string) :
  without c (s ++ t) = without c s ++ without c t.
Proof.
  induction s as [|x s IH]; cbn [append without]; [reflexivity|].
  destruct (Ascii.eqb c x); cbn [append]; now rewrite IH.
Qed.

(** A text in which [c] does not occur is left as it is. *)
Lemma without_absent (c : ascii) (p : ascii -> bool) (s : string) :
  p c = false -> all_chars p s = true -> without c s = s.
Proof.
  intros Hc. induction s as [|x s IH]; simpl; [reflexivity|]. intros H.
  apply andb_true_iff in H as [Hx H].
  destruct (Ascii.eqb_spec c x) as [->|]; [congruence | now rewrite IH].
Qed.

(** No occurrence of [" RWF"] starts at a character that is no space. *)
Lemma replace_rwf_skips (p : ascii -> bool) (s t : string) :
  p " "%char = false -> all_chars p s = true ->
  Str.replace_from " RWF" "" 0 (s ++ t) = s ++ Str.replace_from " RWF" "" 0 t.
Proof.
  intros Hp. induction s as [|x s IH]; simpl all_chars; intros H; [reflexivity|].
  apply andb_true_iff in H as [Hx H].
  cbn [append Str.replace_from Str.startswith].
  destruct (Ascii.eqb_spec " " x) as [<-|]; [congruence|].
  cbn [andb]. now rewrite (IH H).
Qed.

Lemma blank_is_not_R (c : ascii) : Str.is_space c = true -> Ascii.eqb "R" c = false.
Proof.
  intros H. destruct (Ascii.eqb_spec "R" c) as [<-|]; [discriminate | reflexivity].
Qed.

Lemma startswith_cons (a b : ascii) (p s : string) :
  Str.startswith (String a p) (String b s) = (Ascii.eqb a b && Str.startswith p s)%bool.
Proof. reflexivity. Qed.

(** The blanks before [" RWF"] are kept, [" RWF"] is dropped. *)
Lemma replace_rwf_spaced (blanks : string) :
  all_space blanks = true ->
  Str.replace_from " RWF" "" 0 (blanks ++ " RWF") = blanks.
Proof.
  induction blanks as [|c w IH]; simpl all_space; intros H; [reflexivity|].
  apply andb_true_iff in H as [Hc H].
  cbn [append Str.replace_from]. rewrite startswith_cons.
  assert (Hno : Str.startswith "RWF" (w ++ " RWF") = false).
  { destruct w as [|c' w']; [reflexivity|].
    simpl in H. apply andb_true_iff in H as [Hc' _].
    cbn [append Str.startswith]. now rewrite (blank_is_not_R c' Hc'). }
  rewrite Hno, andb_false_r. now rewrite (IH H).
Qed.

(** Without a space just before [RWF], nothing is dropped. *)
Lemma replace_rwf_unspaced (blanks : string) (c : ascii) :
  all_space blanks = true -> Str.is_space c = true -> c <> " "%char ->
  Str.replace_from " RWF" "" 0 (blanks ++ String c "RWF") = blanks ++ String c "RWF".
Proof.
  intros Hb Hc Hne.
  induction blanks as [|x w IH]; simpl all_space in Hb.
  - cbn [append Str.replace_from Str.startswith].
    destruct (Ascii.eqb_spec " " c) as [E|]; [now elim Hne|]. reflexivity.
  - apply andb_true_iff in Hb as [Hx Hb].
    cbn [append Str.replace_from]. rewrite startswith_cons.
    assert (Hno : Str.startswith "RWF" (w ++ String c "RWF") = false).
    { destruct w as [|c' w'].
      - cbn [append Str.startswith]. now rewrite (blank_is_not_R c Hc).
      - simpl in Hb. apply andb_true_iff in Hb as [Hc' _].
        cbn [append Str.startswith]. now rewrite (blank_is_not_R c' Hc'). }
    rewrite Hno, andb_false_r. now rewrite (IH Hb).
Qed.

(** ** [strip] of a text with digits at its head *)

Lemma rstrip_app_blanks (s blanks : string) :
  all_space blanks = true -> Str.rstrip (s ++ blanks) = Str.rstrip s.
Proof.
  intros Hb. induction s as [|c s IH]; cbn [append].
  - pose proof (rstrip_empty blanks) as H. rewrite Hb in H.
    now apply is_empty_true in H.
  - simpl. now rewrite IH.
Qed.

Lemma rstrip_no_blank (p : ascii -> bool) (s : string) :
  (forall c, p c = true -> Str.is_space c = false) ->
  all_chars p s = true -> Str.rstrip s = s.
Proof.
  intros Hp. induction s as [|c s IH]; simpl; [reflexivity|]. intros H.
  apply andb_true_iff in H as [Hc H].
  now rewrite (Hp c Hc), (IH H).
Qed.

Lemma rstrip_app_kept (s t : string) :
  Str.is_empty (Str.rstrip t) = false -> Str.rstrip (s ++ t) = s ++ Str.rstrip t.
Proof.
  intros Ht. induction s as [|c s IH]; cbn [append]; [reflexivity|].
  simpl. rewrite IH.
  destruct (s ++ Str.rstrip t) eqn:E.
  - destruct s; [simpl in E; rewrite E in Ht; discriminate | discriminate].
  - now rewrite andb_false_r.
Qed.

Lemma digit_is_no_blank (c : ascii) : Str.is_digit c = true -> Str.is_space c = false.
Proof. destruct c as [[] [] [] [] [] [] [] []]; vm_compute; congruence. Qed.

Lemma digit_is_no_sign (c : ascii) :
  Str.is_digit c = true -> c <> "+"%char /\ c <> "-"%char /\ c <> "_"%char.
Proof. repeat split; intros ->; discriminate. Qed.

(** ** [int] of digits *)

Lemma int_digits_of_digits (prev : bool) (s : string) :
  all_chars Str.is_digit s = true -> s <> "" ->
  Str.int_digits prev s = Some (digits_of s).
Proof.
  revert prev. induction s as [|c s IH]; intros prev H Hne; [now elim Hne|].
  simpl in H. apply andb_true_iff in H as [Hc H].
  cbn [Str.int_digits digits_of]. rewrite Hc.
  destruct s as [|c' s']; [reflexivity|].
  rewrite (IH true H) by discriminate. reflexivity.
Qed.

Lemma int_digits_stops (prev : bool) (s : string) (c : ascii) (t : string) :
  all_chars Str.is_digit s = true ->
  Str.is_digit c = false -> c <> "_"%char ->
  Str.int_digits prev (s ++ String c t) = None.
Proof.
  intros Hs Hc Hu. revert prev.
  induction s as [|x s IH]; intros prev; cbn [append Str.int_digits].
  - rewrite Hc. destruct (Ascii.eqb_spec c "_"); [contradiction | reflexivity].
  - simpl in Hs. apply andb_true_iff in Hs as [Hx Hs].
    now rewrite Hx, (IH Hs).
Qed.

Lemma to_int_of_digits (d : ascii) (s : string) :
  Str.is_digit d = true -> all_chars Str.is_digit s = true ->
  List.length (digits_of (String d s)) <= Str.int_max_str_digits ->
  Str.to_int (String d s) = Some (Str.int_of_digits (digits_of (String d s))).
Proof.
  intros Hd Hs Hlen.
  assert (Hu : Str.int_unsigned (String d s)
               = Some (Str.int_of_digits (digits_of (String d s)))).
  { unfold Str.int_unsigned.
    rewrite int_digits_of_digits by (simpl; rewrite ?Hd; auto; discriminate).
    destruct (Nat.ltb_spec Str.int_max_str_digits
                (List.length (digits_of (String d s)))); [lia | reflexivity]. }
  destruct (digit_is_no_sign d Hd) as (Hp & Hm & _).
  unfold Str.to_int.
  destruct d as [[] [] [] [] [] [] [] []]; try exact Hu; congruence.
Qed.

End Amounts.

Section AmountExtras.

Import supabase payment_verification Spec Props.

(** X17. The amount [extract_fields] returns is empty or a number, written
    with digits and commas and starting with a digit, then blanks (none,
    or any kind), then [RWF]. *)
Theorem extracted_amount_format (s : string) (fields : Py.dict) :
  app.extract_fields s = Py.Ret fields ->
  exists amount : string,
    Py.get "amount" fields = Some (Py.VStr amount)
    /\ (amount = ""
        \/ exists (d : ascii) (digits blanks : string),
             amount = String d digits ++ blanks ++ "RWF"
             /\ Str.is_digit d = true
             /\ all_chars digit_or_comma digits = true
             /\ all_space blanks = true).
Proof.
  intros H.
  destruct (extract_fields_by_search s)
    as (txid & amount & sender & ts & Hf & _ & Ham & _).
  rewrite Hf in H. injection H as <-.
  exists amount. split; [reflexivity|].
  destruct Ham as [->|(m & Hs & ->)]; [now left|]. right.
  destruct (search_returns false _ s m Hs) as (_ & Hw & _).
  destruct (amount_words _ Hw) as (d & digits & blanks & E & Hd & Hds & Hb & _).
  now exists d, digits, blanks.
Qed.

Lemma extracted_amount_format_witness :
  exists amount : string,
    Py.get "amount"
      [("raw_text", Py.VStr "paid 1,500RWF"); ("txid", Py.VStr "");
       ("amount", Py.VStr "1,500RWF"); ("sender_name", Py.VStr "");
       ("timestamp", Py.VNone)] = Some (Py.VStr amount)
    /\ (amount = ""
        \/ exists (d : ascii) (digits blanks : string),
             amount = String d digits ++ blanks ++ "RWF"
             /\ Str.is_digit d = true
             /\ all_chars digit_or_comma digits = true
             /\ all_space blanks = true).
Proof. apply (extracted_amount_format "paid 1,500RWF"). reflexivity. Defined.

Lemma digits_without_commas (s : string) :
  all_chars digit_or_comma s = true ->
  all_chars Str.is_digit (without "," s) = true
  /\ digits_of (without "," s) = digits_of s.
Proof.
  induction s as [|c s IH]; cbn [all_chars without digits_of]; [auto|]. intros H.
  apply andb_true_iff in H as [Hc H]. destruct (IH H) as [IH1 IH2].
  unfold digit_or_comma in Hc.
  destruct (Ascii.eqb_spec "," c) as [<-|Hne].
  - change (Str.is_digit ",") with false. cbn iota. now split.
  - cbn [all_chars digits_of].
    destruct (Str.is_digit c) eqn:Hd.
    + rewrite IH1, IH2. auto.
    + cbn [orb] in Hc. apply Ascii.eqb_eq in Hc. now elim Hne.
Qed.

Lemma blanks_have_no_comma (blanks : string) :
  all_space blanks = true -> without "," blanks = blanks.
Proof.
  intros H. apply (without_absent "," Str.is_space); [reflexivity|].
  now rewrite <- all_space_is_all_chars.
Qed.

(** The text [int] is given for a number followed by blanks and [" RWF"]. *)
Lemma spaced_amount_text (d : ascii) (digits blanks : string) :
  Str.is_digit d = true ->
  all_chars digit_or_comma digits = true ->
  all_space blanks = true ->
  Str.strip (Str.replace "," "" (Str.replace " RWF" "" (String d digits ++ blanks ++ " RWF")))
  = String d (without "," digits).
Proof.
  intros Hd Hds Hb.
  assert (HD : all_chars digit_or_comma (String d digits) = true)
    by (simpl; unfold digit_or_comma at 1; now rewrite Hd, Hds).
  unfold Str.replace at 2.
  rewrite (replace_rwf_skips digit_or_comma) by (reflexivity || exact HD).
  rewrite (replace_rwf_spaced blanks Hb).
  rewrite replace_one_char, without_app, (blanks_have_no_comma blanks Hb).
  destruct (digits_without_commas _ Hds) as [Hall _].
  assert (E : without "," (String d digits) = String d (without "," digits)).
  { cbn [without]. destruct (Ascii.eqb_spec "," d) as [<-|]; [discriminate | reflexivity]. }
  rewrite E. unfold Str.strip. rewrite rstrip_app_blanks by exact Hb.
  rewrite (rstrip_no_blank Str.is_digit) by
    (first [exact digit_is_no_blank | simpl; now rewrite Hd, Hall]).
  cbn [Str.lstrip]. now rewrite (digit_is_no_blank d Hd).
Qed.

(** X18. A stored amount written as a number, blanks and [" RWF"], the
    last blank a plain space, is read by both verification functions as
    the number its digits write, the commas dropped wherever they stand
    (for a number of at most 4300 digits). *)
Theorem spaced_amount_is_read (transaction : Py.dict) (d : ascii)
    (digits blanks : string) :
  Py.get_default "amount" (Py.VStr "") transaction
  = Py.VStr (String d digits ++ blanks ++ " RWF") ->
  Str.is_digit d = true ->
  all_chars digit_or_comma digits = true ->
  all_space blanks = true ->
  List.length (digits_of (String d digits)) <= Str.int_max_str_digits ->
  paid_amount_of transaction (Str.int_of_digits (digits_of (String d digits))).
Proof.
  intros Hget Hd Hds Hb Hlen.
  exists (String d digits ++ blanks ++ " RWF"). split; [exact Hget|].
  rewrite (spaced_amount_text d digits blanks Hd Hds Hb).
  destruct (digits_without_commas _ Hds) as [Hall Hsame].
  assert (E : digits_of (String d (without "," digits)) = digits_of (String d digits))
    by (cbn [digits_of]; now rewrite Hd, Hsame).
  rewrite <- E. apply to_int_of_digits; [exact Hd | exact Hall | now rewrite E].
Qed.

Lemma spaced_amount_is_read_witness :
  paid_amount_of [("txid", Py.VStr "TX1"); ("amount", Py.VStr "1,5,00  RWF")] 1500.
Proof.
  apply (spaced_amount_is_read
           [("txid", Py.VStr "TX1"); ("amount", Py.VStr "1,5,00  RWF")]
           "1" ",5,00" " "); try reflexivity.
  unfold Str.int_max_str_digits. simpl. lia.
Defined.

Lemma blank_is_no_digit (c : ascii) :
  Str.is_space c = true -> Str.is_digit c = false /\ c <> "_"%char /\ c <> ","%char.
Proof.
  intros H. repeat split; try (intros ->; discriminate).
  destruct (Str.is_digit c) eqn:Hd; [|reflexivity].
  apply digit_is_no_blank in Hd. congruence.
Qed.

(** What may stand between the number and the end of an amount that has
    no plain space before [RWF]: [RWF] at once, or blanks of which the last
    is no plain space. *)
Lemma unspaced_tail (tail : string) :
  tail = "RWF"
  \/ (exists blanks c,
        tail = blanks ++ String c "RWF"
        /\ all_space blanks = true /\ Str.is_space c = true /\ c <> " "%char) ->
  Str.replace_from " RWF" "" 0 tail = tail
  /\ without "," tail = tail
  /\ (exists body, tail = body ++ "RWF")
  /\ (exists x t, tail = String x t /\ Str.is_digit x = false /\ x <> "_"%char).
Proof.
  intros [->|(blanks & c & -> & Hb & Hc & Hne)].
  - repeat split; try reflexivity; [now exists "" | exists "R"%char, "WF"; now split].
  - destruct (blank_is_no_digit c Hc) as (Hcd & Hcu & Hcc).
    split; [now apply replace_rwf_unspaced|]. split; [|split].
    + rewrite without_app, (blanks_have_no_comma blanks Hb). cbn [without].
      destruct (Ascii.eqb_spec "," c) as [<-|]; [now elim Hcc | reflexivity].
    + exists (blanks ++ String c ""). now rewrite append_assoc.
    + destruct blanks as [|x w]; cbn [append].
      * now exists c, "RWF".
      * simpl in Hb. apply andb_true_iff in Hb as [Hx _].
        destruct (blank_is_no_digit x Hx) as (Hxd & Hxu & _). eauto.
Qed.

(** The text [int] is given for a number with no plain space before
    [RWF]: nothing is dropped but the commas, and [int] does not read it. *)
Lemma unspaced_amount_text (d : ascii) (digits tail : string) :
  Str.is_digit d = true ->
  all_chars digit_or_comma digits = true ->
  tail = "RWF"
  \/ (exists blanks c,
        tail = blanks ++ String c "RWF"
        /\ all_space blanks = true /\ Str.is_space c = true /\ c <> " "%char) ->
  Str.to_int
    (Str.strip (Str.replace "," "" (Str.replace " RWF" "" (String d digits ++ tail))))
  = None.
Proof.
  intros Hd Hds Htail.
  destruct (unspaced_tail tail Htail)
    as (Hrep & Hcomma & (body & Hbody) & (x & t & Hx & Hxd & Hxu)).
  assert (HD : all_chars digit_or_comma (String d digits) = true)
    by (simpl; unfold digit_or_comma at 1; now rewrite Hd, Hds).
  unfold Str.replace at 2.
  rewrite (replace_rwf_skips digit_or_comma) by (reflexivity || exact HD).
  rewrite Hrep, replace_one_char, without_app, Hcomma.
  destruct (digits_without_commas _ Hds) as [Hall _].
  assert (E : without "," (String d digits) = String d (without "," digits)).
  { cbn [without]. destruct (Ascii.eqb_spec "," d) as [<-|]; [discriminate | reflexivity]. }
  rewrite E. unfold Str.strip.
  assert (Hr : Str.rstrip (String d (without "," digits) ++ tail)
               = String d (without "," digits) ++ tail).
  { rewrite Hbody, <- append_assoc, rstrip_app_kept by reflexivity. reflexivity. }
  rewrite Hr. cbn [append Str.lstrip]. rewrite (digit_is_no_blank d Hd).
  assert (Hu : Str.int_unsigned (String d (without "," digits ++ tail)) = None).
  { unfold Str.int_unsigned. rewrite Hx.
    change (String d (without "," digits ++ String x t))
      with (String d (without "," digits) ++ String x t).
    rewrite int_digits_stops; [reflexivity | | exact Hxd | exact Hxu].
    simpl. now rewrite Hd, Hall. }
  destruct (digit_is_no_sign d Hd) as (Hp & Hm & _).
  unfold Str.to_int.
  destruct d as [[] [] [] [] [] [] [] []]; try exact Hu; congruence.
Qed.

(** X19. A stored amount with no plain space just before [RWF] (none, or a
    tab, a line end or another blank) is never read: whatever is required,
    [verify_payment] and [verify_payment_with_client_details] answer that
    the amount format is invalid, although [extract_fields] stores
    amounts of this form. *)
Theorem unspaced_amount_is_never_read {S : Type} (client : Client S)
    (txid client_name client_phone now : string) (required_amount : Z) (st : S)
    (transaction : Py.dict) (d : ascii) (digits tail : string) :
  first_row client txid st transaction ->
  Py.get_default "amount" (Py.VStr "") transaction = Py.VStr (String d digits ++ tail) ->
  Str.is_digit d = true ->
  all_chars digit_or_comma digits = true ->
  tail = "RWF"
  \/ (exists blanks c,
        tail = blanks ++ String c "RWF"
        /\ all_space blanks = true /\ Str.is_space c = true /\ c <> " "%char) ->
  verify_payment client txid required_amount st
  = Py.Ret (reply "not_approved" "Payment is not approved (invalid amount format).")
  /\ verify_payment_with_client_details client txid client_name client_phone
       required_amount now st
     = (Py.Ret (reply "not_approved" "Invalid payment amount format."), st).
Proof.
  intros [others Hsel] Hget Hd Hds Htail.
  pose proof (unspaced_amount_text d digits tail Hd Hds Htail) as Hint.
  split.
  - unfold verify_payment. rewrite Hsel. cbn [Py.bind].
    unfold amount_str_of. rewrite Hget. cbn [Py.bind Py.as_str]. now rewrite Hint.
  - unfold verify_payment_with_client_details, amount_str_of.
    rewrite Hsel, Hget. cbn [Py.bind Py.as_str]. now rewrite Hint.
Qed.

Lemma unspaced_amount_is_never_read_witness :
  app.extract_fields "You have received 5000RWF TxId:77"
  = Py.Ret [("raw_text", Py.VStr "You have received 5000RWF TxId:77");
            ("txid", Py.VStr "77"); ("amount", Py.VStr "5000RWF");
            ("sender_name", Py.VStr ""); ("timestamp", Py.VNone)]
  /\ verify_payment memory_client "77" 100 (stored_payment "77" "5000RWF" "" "")
     = Py.Ret (reply "not_approved" "Payment is not approved (invalid amount format).").
Proof.
  split; [reflexivity|].
  refine (proj1 (unspaced_amount_is_never_read memory_client "77" "" "" "" 100%Z
                   (stored_payment "77" "5000RWF" "" "")
                   [("txid", Py.VStr "77"); ("amount", Py.VStr "5000RWF");
                    ("sender_name", Py.VStr ""); ("sender_phone_digits", Py.VStr "")]
                   "5" "000" "RWF" _ _ _ _ _)).
  - exists []. reflexivity.
  - reflexivity.
  - reflexivity.
  - reflexivity.
  - left. reflexivity.
Defined.

End AmountExtras.

(* ================================================================== *)
(** * The phone rule *)
(* ================================================================== *)

Section Phones.

Import supabase payment_verification Spec Props.

Lemma client_last_digits_cleaned (client_phone : string) :
  client_last_digits_of client_phone = Str.last 3 (cleaned_phone client_phone).
Proof.
  unfold client_last_digits_of, cleaned_phone. now rewrite !replace_one_char.
Qed.

Lemma without_inserted (c : ascii) (a b : string) :
  without c (a ++ String c b) = without c (a ++ b).
Proof.
  rewrite !without_app. cbn [without]. now rewrite Ascii.eqb_refl.
Qed.

Lemma cleaned_phone_inserted (c : ascii) (a b : string) :
  c = "+"%char \/ c = " "%char \/ c = "-"%char ->
  cleaned_phone (a ++ String c b) = cleaned_phone (a ++ b).
Proof.
  unfold cleaned_phone. intros [-> | [-> | ->]].
  - now rewrite without_inserted.
  - rewrite !(without_app "+"). cbn [without Ascii.eqb Bool.eqb].
    now rewrite without_inserted.
  - rewrite !(without_app "+"). cbn [without Ascii.eqb Bool.eqb].
    rewrite !(without_app " "). cbn [without Ascii.eqb Bool.eqb].
    now rewrite without_inserted.
Qed.

(** X20. The way a claimed phone is written does not matter to the phone
    rule: a [+], a space or a [-] put anywhere in it changes neither the
    digits that are compared nor the answer of the rule. *)
Theorem phone_rule_ignores_separators (a b : string) (c : ascii)
    (sms_phone_digits : Py.value) :
  c = "+"%char \/ c = " "%char \/ c = "-"%char ->
  client_last_digits_of (a ++ String c b) = client_last_digits_of (a ++ b)
  /\ phone_accepted (client_last_digits_of (a ++ String c b)) sms_phone_digits
     = phone_accepted (client_last_digits_of (a ++ b)) sms_phone_digits.
Proof.
  intros Hc.
  assert (E : client_last_digits_of (a ++ String c b) = client_last_digits_of (a ++ b))
    by (rewrite !client_last_digits_cleaned; now rewrite cleaned_phone_inserted).
  split; [exact E | now rewrite E].
Qed.

Lemma phone_rule_ignores_separators_witness :
  client_last_digits_of ("+250 788" ++ String "-" "123456")
  = client_last_digits_of ("+250 788" ++ "123456").
Proof.
  apply (proj1 (phone_rule_ignores_separators "+250 788" "123456" "-" Py.VNone
                  (or_intror (or_intror eq_refl)))).
Defined.

Lemma length_drop (n : nat) (s : string) :
  String.length (Str.drop n s) = String.length s - n.
Proof.
  revert s; induction n as [|n IH]; intros s; [simpl; lia|].
  destruct s as [|c s]; [reflexivity|]. simpl. apply IH.
Qed.

Lemma drop_drop (n m : nat) (s : string) :
  Str.drop n (Str.drop m s) = Str.drop (m + n) s.
Proof.
  revert s; induction m as [|m IH]; intros s; [reflexivity|].
  destruct s as [|c s]; [now destruct n|]. simpl. apply IH.
Qed.

(** The cut to the last [n] characters does not matter to a suffix of at
    most [n] characters. *)
Lemma endswith_last (n : nat) (s suf : string) :
  String.length suf <= n ->
  Str.endswith (Str.last n s) suf = Str.endswith s suf.
Proof.
  intros Hn. unfold Str.endswith, Str.last.
  rewrite length_drop, drop_drop.
  destruct (Nat.le_gt_cases (String.length s) n) as [Hs|Hs].
  - replace (String.length s - n) with 0 by lia. cbn [Nat.add].
    now rewrite Nat.sub_0_r.
  - replace (String.length s - (String.length s - n)) with n by lia.
    rewrite (proj2 (Nat.leb_le _ _) Hn).
    rewrite (proj2 (Nat.leb_le (String.length suf) (String.length s))) by lia.
    replace (String.length s - n + (n - String.length suf))
      with (String.length s - String.length suf) by lia.
    reflexivity.
Qed.

Lemma length_last (n : nat) (s : string) : String.length (Str.last n s) <= n.
Proof. unfold Str.last. rewrite length_drop. lia. Qed.

(** X21. With stored phone digits that are a text and not empty, the
    phone rule lets the call through exactly when the claimed phone, the
    [+], spaces and [-] removed, ends with the last two characters of the
    stored digits; a third stored digit is never compared. *)
Theorem phone_rule_compares_two_digits (client_phone digits : string) :
  digits <> "" ->
  phone_accepted (client_last_digits_of client_phone) (Py.VStr digits)
  = Py.Ret (Str.endswith (cleaned_phone client_phone) (Str.last 2 digits)).
Proof.
  intros Hne. unfold phone_accepted. cbn [Py.truthy].
  destruct (String.eqb_spec digits "") as [->|_]; [now elim Hne|].
  cbn [negb Py.as_sliceable Py.bind].
  rewrite client_last_digits_cleaned, endswith_last; [reflexivity|].
  pose proof (length_last 2 digits). lia.
Qed.

Lemma phone_rule_compares_two_digits_witness :
  phone_accepted (client_last_digits_of "+250 788 123 456") (Py.VStr "956")
  = Py.Ret true.
Proof.
  apply (phone_rule_compares_two_digits "+250 788 123 456" "956"). discriminate.
Defined.

End Phones.

(* ================================================================== *)
(** * The verification form and the fields of the classifier *)
(* ================================================================== *)

Section Web.

Import supabase payment_verification routes Spec Props.

(** X24. The page of [verify_payment_web] shows a verified amount only
    with the status [approved], on a POST with the three fields filled,
    and the amount is then at least the required one; in every other case
    the amount is [None], the status is not [approved] and the store is as
    it was. *)
Theorem web_page_amount_only_when_approved {S : Type} (client : Client S)
    (method : string) (form : list (string * string)) (now : string) (st : S)
    (p : page) :
  fst (verify_payment_web client method form now st) = Py.Ret p ->
  (verified_amount p = Py.VNone
   /\ result_status p <> Py.VStr "approved"
   /\ snd (verify_payment_web client method form now st) = st)
  \/ (exists paid_amount : Z,
        (REQUIRED_AMOUNT <= paid_amount)%Z
        /\ verified_amount p = Py.VInt paid_amount
        /\ result_status p = Py.VStr "approved"
        /\ method = "POST"
        /\ filled (form_get "client_name" form) = true
        /\ filled (form_get "client_phone" form) = true
        /\ filled (form_get "txid" form) = true).
Proof.
  unfold verify_payment_web.
  destruct (String.eqb_spec method "POST") as [->|Hm].
  2:{ intros H. injection H as <-. left. cbn. repeat split. discriminate. }
  destruct (filled (form_get "client_name" form)) eqn:Hn;
    [|intros H; injection H as <-; left; cbn; repeat split; discriminate].
  destruct (filled (form_get "client_phone" form)) eqn:Hp;
    [|intros H; injection H as <-; left; cbn; repeat split; discriminate].
  destruct (filled (form_get "txid" form)) eqn:Ht;
    [|intros H; injection H as <-; left; cbn; repeat split; discriminate].
  cbn [andb].
  destruct (identity_call_cases client (text_or_empty (form_get "txid" form))
              (text_or_empty (form_get "client_name" form))
              (text_or_empty (form_get "client_phone" form)) now REQUIRED_AMOUNT st)
    as [[e H] | [[message H] | (t & paid & n & _ & _ & Hle & _ & _ & _ & H)]];
    cbv zeta in H.
  - rewrite H. discriminate.
  - rewrite H. intros E. injection E as <-. left. cbn. repeat split. discriminate.
  - destruct H as [[_ H] | (st' & _ & H)]; rewrite H; intros E; injection E as <-.
    + left. cbn. repeat split. discriminate.
    + right. exists paid. cbn. repeat split. exact Hle.
Qed.

Lemma web_page_amount_only_when_approved_witness :
  let form := [("client_name", "John Smith"); ("client_phone", "+250788123456");
               ("txid", "TX2")] in
  let st := stored_payment "TX2" "150 RWF" "john smith" "56" in
  let p := Page (Py.VStr "Payment verified successfully! Amount received: 150 RWF")
             (Py.VStr "approved") (Py.VInt 150) in
  (verified_amount p = Py.VNone
   /\ result_status p <> Py.VStr "approved"
   /\ snd (verify_payment_web memory_client "POST" form "2024-01-01T10:00:00" st) = st)
  \/ (exists paid_amount : Z,
        (REQUIRED_AMOUNT <= paid_amount)%Z
        /\ verified_amount p = Py.VInt paid_amount
        /\ result_status p = Py.VStr "approved"
        /\ "POST" = "POST"
        /\ filled (form_get "client_name" form) = true
        /\ filled (form_get "client_phone" form) = true
        /\ filled (form_get "txid" form) = true).
Proof.
  cbv zeta.
  apply (web_page_amount_only_when_approved memory_client "POST"
           [("client_name", "John Smith"); ("client_phone", "+250788123456");
            ("txid", "TX2")]
           "2024-01-01T10:00:00" (stored_payment "TX2" "150 RWF" "john smith" "56")).
  reflexivity.
Defined.

End Web.
Section ClassifierFields.

Import Re ml_classifier Spec Props.

(** A pattern whose group always takes part finds nothing, or a match
    whose [group(1)] is a text its group can capture. *)
Lemma searched_capture (ic : bool) (r : regex) (s : string) :
  sets_group r = true ->
  search ic r s = None
  \/ exists m x, search ic r s = Some m /\ group_1 m = Py.VStr x /\ captured ic r x.
Proof.
  intros Hset. destruct (search ic r s) as [m|] eqn:Hs; [right | now left].
  destruct (group_of_search ic r s m Hset Hs) as (x & _ & Hx & Hc).
  now exists m, x.
Qed.

(** What [extract_payment_info] returns, field by field, from the
    captures. *)
Lemma extract_payment_info_by_search (s : string) :
  exists (txid amount sender_name phone_digits : string),
    extract_payment_info s
    = Py.Ret [("txid", Py.VStr txid); ("amount", Py.VStr amount);
              ("sender_name", Py.VStr sender_name);
              ("phone_digits", Py.VStr phone_digits);
              ("is_payment_sms", Py.VBool (is_payment_related s))]
    /\ (txid = "" \/ captured true txid_pattern txid)
    /\ (amount = "" \/ captured false amount_pattern amount)
    /\ (sender_name = ""
        \/ exists x, captured false sender_pattern x /\ sender_name = Str.strip x)
    /\ (phone_digits = "" \/ captured false phone_pattern phone_digits).
Proof.
  unfold extract_payment_info.
  destruct (searched_capture true txid_pattern s eq_refl)
    as [H1|(m1 & x1 & H1 & G1 & C1)]; rewrite H1;
  destruct (searched_capture false amount_pattern s eq_refl)
    as [H2|(m2 & x2 & H2 & G2 & C2)]; rewrite H2;
  destruct (searched_capture false sender_pattern s eq_refl)
    as [H3|(m3 & x3 & H3 & G3 & C3)]; rewrite H3;
  destruct (searched_capture false phone_pattern s eq_refl)
    as [H4|(m4 & x4 & H4 & G4 & C4)]; rewrite H4;
  rewrite ?G1, ?G2, ?G3, ?G4;
  destruct (is_payment_related s); cbn -[captured];
  do 4 eexists;
  (split; [reflexivity|]);
  (split; [|split; [|split]]);
  first [now left | now right | right; eexists; split; [eassumption | reflexivity]].
Qed.

Lemma phone_group_words (x : string) :
  captured false phone_pattern x -> matches false (range 2 3 digit) x.
Proof.
  unfold phone_pattern.
  cbn [captured seq fold_right plus range times upto opt digit Nat.sub]. tauto.
Qed.

Lemma ml_txid_group_words (x : string) :
  captured true txid_pattern x -> matches true (plus digit) x.
Proof.
  unfold txid_pattern. cbn [captured seq fold_right text plus digit]. tauto.
Qed.

Lemma ml_amount_group_words (x : string) :
  captured false amount_pattern x ->
  matches false
    (Alt (Cat (range 1 3 digit) (Star (Cat (Lit ",") (times 3 digit)))) (plus digit)) x.
Proof.
  unfold amount_pattern.
  cbn [captured seq fold_right text plus digit range times upto opt Nat.sub space].
  tauto.
Qed.

(** X25. The fields [extract_payment_info] returns: the transaction id is
    made of digits, the amount of digits and commas (the unit is left
    out), and the phone digits are the empty text or two or three
    digits. *)
Theorem classifier_fields_format (s : string) (info : Py.dict) :
  extract_payment_info s = Py.Ret info ->
  exists txid amount phone_digits : string,
    Py.get "txid" info = Some (Py.VStr txid)
    /\ Py.get "amount" info = Some (Py.VStr amount)
    /\ Py.get "phone_digits" info = Some (Py.VStr phone_digits)
    /\ all_chars Str.is_digit txid = true
    /\ all_chars digit_or_comma amount = true
    /\ all_chars Str.is_digit phone_digits = true
    /\ (phone_digits = ""
        \/ 2 <= String.length phone_digits /\ String.length phone_digits <= 3).
Proof.
  intros H.
  destruct (extract_payment_info_by_search s)
    as (txid & amount & sender & phone & Hf & Htx & Ham & _ & Hph).
  rewrite Hf in H. injection H as <-.
  exists txid, amount, phone.
  split; [reflexivity|]. split; [reflexivity|]. split; [reflexivity|].
  split; [|split; [|split]].
  - destruct Htx as [->|Hc]; [reflexivity|].
    apply (matches_chars true Str.is_digit _ _ (ml_txid_group_words _ Hc)).
    cbn. auto.
  - destruct Ham as [->|Hc]; [reflexivity|].
    exact (matches_chars false digit_or_comma _ _ (ml_amount_group_words _ Hc)
             amount_group_chars).
  - destruct Hph as [->|Hc]; [reflexivity|].
    apply (matches_chars false Str.is_digit _ _ (phone_group_words _ Hc)).
    cbn. auto.
  - destruct Hph as [->|Hc]; [now left|]. right.
    apply phone_group_words in Hc. split.
    + exact (matches_min_len false _ _ Hc).
    + exact (matches_max_len false _ _ 3 Hc eq_refl).
Qed.

Lemma classifier_fields_format_witness :
  exists txid amount phone_digits : string,
    Py.get "txid"
      [("txid", Py.VStr "123"); ("amount", Py.VStr "5,000");
       ("sender_name", Py.VStr "Jane"); ("phone_digits", Py.VStr "456");
       ("is_payment_sms", Py.VBool true)] = Some (Py.VStr txid)
    /\ Py.get "amount"
         [("txid", Py.VStr "123"); ("amount", Py.VStr "5,000");
          ("sender_name", Py.VStr "Jane"); ("phone_digits", Py.VStr "456");
          ("is_payment_sms", Py.VBool true)] = Some (Py.VStr amount)
    /\ Py.get "phone_digits"
         [("txid", Py.VStr "123"); ("amount", Py.VStr "5,000");
          ("sender_name", Py.VStr "Jane"); ("phone_digits", Py.VStr "456");
          ("is_payment_sms", Py.VBool true)] = Some (Py.VStr phone_digits)
    /\ all_chars Str.is_digit txid = true
    /\ all_chars digit_or_comma amount = true
    /\ all_chars Str.is_digit phone_digits = true
    /\ (phone_digits = ""
        \/ 2 <= String.length phone_digits /\ String.length phone_digits <= 3).
Proof.
  apply (classifier_fields_format
           "TxId: 123 received 5,000 RWF from Jane (***456)").
  reflexivity.
Defined.

End ClassifierFields.
Section FirstPattern.

Import Re Spec Props.

Lemma get_txid (a b c d e : Py.value) :
  Py.get "txid" [("raw_text", a); ("txid", b); ("amount", c); ("sender_name", d);
                 ("timestamp", e)] = Some b.
Proof. reflexivity. Qed.

(** X26. The fallback pattern of [extract_fields] never contributes: the
    transaction id returned is group 1 of the first match of
    [TxId[:\s]*([\d]+)], and the empty text when that pattern finds
    nothing. *)
Theorem txid_comes_from_the_first_pattern (s : string) (fields : Py.dict) :
  app.extract_fields s = Py.Ret fields ->
  Py.get "txid" fields
  = Some match search false app.txid_exact_pattern s with
         | Some m => group_1 m
         | None => Py.VStr ""
         end.
Proof.
  intros H. unfold app.extract_fields in H.
  assert (Htx : match
                  match search false app.txid_exact_pattern s with
                  | Some m => Some m
                  | None => search false app.txid_fallback_pattern s
                  end
                with Some m => group_1 m | None => Py.VStr "" end
                = match search false app.txid_exact_pattern s with
                  | Some m => group_1 m
                  | None => Py.VStr ""
                  end).
  { destruct (search false app.txid_exact_pattern s) eqn:H1; [reflexivity|].
    now rewrite (fallback_is_subsumed s H1). }
  rewrite Htx in H. clear Htx.
  assert (Hor : Py.or_else
                  match search false app.txid_exact_pattern s with
                  | Some m => group_1 m
                  | None => Py.VStr ""
                  end (Py.VStr "")
                = match search false app.txid_exact_pattern s with
                  | Some m => group_1 m
                  | None => Py.VStr ""
                  end).
  { destruct (search false app.txid_exact_pattern s) as [m|] eqn:H1; [|reflexivity].
    destruct (group_of_search false app.txid_exact_pattern s m eq_refl H1)
      as (x & _ & -> & _).
    apply or_else_text. }
  rewrite Hor in H. clear Hor.
  destruct (search false app.sender_name_pattern s) as [m|] eqn:H3.
  - destruct (group_of_search false app.sender_name_pattern s m eq_refl H3)
      as (x & _ & Hx & _).
    rewrite Hx in H. cbn [Py.bind Py.as_str] in H. injection H as <-.
    apply get_txid.
  - cbn [Py.bind] in H. injection H as <-. apply get_txid.
Qed.

Lemma txid_comes_from_the_first_pattern_witness :
  Py.get "txid"
    [("raw_text", Py.VStr "*161*TxId:77*R*"); ("txid", Py.VStr "77");
     ("amount", Py.VStr ""); ("sender_name", Py.VStr ""); ("timestamp", Py.VNone)]
  = Some match search false app.txid_exact_pattern "*161*TxId:77*R*" with
         | Some m => group_1 m
         | None => Py.VStr ""
         end.
Proof.
  apply (txid_comes_from_the_first_pattern "*161*TxId:77*R*"). reflexivity.
Defined.

End FirstPattern.
